(** * PrimeDrive: the subscription and payment ledger of [backend/main.py]

    A shallow embedding of the request handlers that own subscription
    tiers, expiry and the payment-transaction life cycle, together
    with the Orange Money client they call.

    Modelling conventions.
    - The managed database is a [store] of three tables.  [users] and
      [subscription_tiers] are keyed by their primary key [id];
      [payment_transactions] is a list of rows, because one handler
      reads [existing.data[0]].
    - A query [.select(..).eq(..)...execute()] is a filter over the
      table.  With [.single()] the answer is the row itself when
      exactly one row matches; with no row or several the server
      answers 406 (PGRST116) and [execute()] raises [APIError], before
      any [if not result.data] of a handler is reached.
    - Every [update]/[insert] sent to the database is appended to the
      [journal] of the world, so that "no write" and "one activation"
      are statements about the journal.
    - Instants are integers (microseconds since the epoch, UTC); the
      ISO-8601 text kept in a column and the [datetime] parsed from it
      are identified.  A [datetime] holds the instants from
      [datetime_min] to [datetime_max]; the token client follows the
      [OverflowError] of an instant outside them, and the properties
      of the expiry written by [activate_subscription] are stated for
      results inside them.  Clock readings, the fresh UUID and the
      replies of the remote gateway are inputs of the handlers.
    - Text is a string of bytes; [upper] and [lower] change the
      letters a-z and A-Z only, which is [str.upper()] and
      [str.lower()] on ASCII text ([is_ascii]).
    - A handler is a computation in the monad [M]: it returns a value
      or raises, and in both cases leaves a world behind. *)

From Stdlib Require Import ZArith QArith String Ascii List Sorted Lia DecimalString.
From Stdlib Require DecimalPos.
From stdpp Require Import gmap strings list fin_maps.
Import ListNotations.

Local Open Scope Z_scope.
Local Open Scope string_scope.

(** ** Data model *)

(** A row of [subscription_tiers], without its key. *)
Record tier_row := TierRow {
  tier_name : string;
  price_pula : Z;
  listing_limit : option Z
}.

(** The tier dictionary handed around by the handlers: key and row. *)
Definition tier : Type := string * tier_row.

(** The subscription columns of a row of [users]. *)
Record user_row := UserRow {
  current_tier_id : string;
  subscription_expires_at : option Z
}.

(** A row of [payment_transactions]. *)
Record txn := Txn {
  txn_id : string;
  txn_user_id : string;
  txn_tier_id : string;
  amount_pula : Z;
  payment_method : string;
  transaction_reference : string;
  status : string;
  orange_money_order_id : option string;
  orange_money_pay_token : option string;
  orange_money_pay_url : option string;
  orange_money_status : option string;
  orange_money_transaction_id : option string;
  user_payment_reference : option string;
  admin_notes : option string;
  completed_at : option Z
}.

Definition set_status (s : string) (t : txn) : txn :=
  Txn (txn_id t) (txn_user_id t) (txn_tier_id t) (amount_pula t)
      (payment_method t) (transaction_reference t) s
      (orange_money_order_id t) (orange_money_pay_token t)
      (orange_money_pay_url t) (orange_money_status t)
      (orange_money_transaction_id t) (user_payment_reference t)
      (admin_notes t) (completed_at t).

Definition set_orange_money_status (s : string) (t : txn) : txn :=
  Txn (txn_id t) (txn_user_id t) (txn_tier_id t) (amount_pula t)
      (payment_method t) (transaction_reference t) (status t)
      (orange_money_order_id t) (orange_money_pay_token t)
      (orange_money_pay_url t) (Some s)
      (orange_money_transaction_id t) (user_payment_reference t)
      (admin_notes t) (completed_at t).

Definition set_orange_money_transaction_id (s : string) (t : txn) : txn :=
  Txn (txn_id t) (txn_user_id t) (txn_tier_id t) (amount_pula t)
      (payment_method t) (transaction_reference t) (status t)
      (orange_money_order_id t) (orange_money_pay_token t)
      (orange_money_pay_url t) (orange_money_status t)
      (Some s) (user_payment_reference t)
      (admin_notes t) (completed_at t).

Definition set_user_payment_reference (s : string) (t : txn) : txn :=
  Txn (txn_id t) (txn_user_id t) (txn_tier_id t) (amount_pula t)
      (payment_method t) (transaction_reference t) (status t)
      (orange_money_order_id t) (orange_money_pay_token t)
      (orange_money_pay_url t) (orange_money_status t)
      (orange_money_transaction_id t) (Some s)
      (admin_notes t) (completed_at t).

Definition set_admin_notes (s : string) (t : txn) : txn :=
  Txn (txn_id t) (txn_user_id t) (txn_tier_id t) (amount_pula t)
      (payment_method t) (transaction_reference t) (status t)
      (orange_money_order_id t) (orange_money_pay_token t)
      (orange_money_pay_url t) (orange_money_status t)
      (orange_money_transaction_id t) (user_payment_reference t)
      (Some s) (completed_at t).

Definition set_completed_at (now : Z) (t : txn) : txn :=
  Txn (txn_id t) (txn_user_id t) (txn_tier_id t) (amount_pula t)
      (payment_method t) (transaction_reference t) (status t)
      (orange_money_order_id t) (orange_money_pay_token t)
      (orange_money_pay_url t) (orange_money_status t)
      (orange_money_transaction_id t) (user_payment_reference t)
      (admin_notes t) (Some now).

(** The three tables. *)
Record store := Store {
  users : gmap string user_row;
  subscription_tiers : gmap string tier_row;
  payment_transactions : list txn
}.

(** A write sent to the database. *)
Inductive write :=
| UsersUpdate (user_id tier_id : string) (expires : option Z)
| TxnUpdate (id new_status : string)
| TxnInsert (row : txn).

(** [OrangeMoneyClient]: the cached OAuth2 token of the shared client. *)
Record OrangeMoneyClient := Client {
  _access_token : option string;
  _token_expires_at : option Z
}.

Record world := World {
  db : store;
  journal : list write;
  orange_money : OrangeMoneyClient
}.

(** ** Exceptions and the handler monad *)

Inductive exn :=
| HTTPException (status_code : Z) (detail : string)
| APIError        (* [.single().execute()] without exactly one row *)
| TypeError       (* subscripting [None] *)
| AttributeError. (* [None.get(..)], [None.upper()] *)

Inductive outcome (A : Type) :=
| Return (a : A)
| Raise (e : exn).
Arguments Return {A} a.
Arguments Raise {A} e.

Definition M (A : Type) : Type := world -> outcome A * world.

Definition ret {A} (a : A) : M A := fun w => (Return a, w).
Definition raise {A} (e : exn) : M A := fun w => (Raise e, w).
Definition bind {A B} (m : M A) (k : A -> M B) : M B :=
  fun w => match m w with
           | (Return a, w') => k a w'
           | (Raise e, w') => (Raise e, w')
           end.

Notation "x <- m ;; k" := (bind m (fun x => k))
  (at level 100, m at next level, right associativity).
Notation "m ;;; k" := (bind m (fun _ => k))
  (at level 100, right associativity).

(** ** The query client *)

(** The row that [.single()] asks for: the one row, when exactly one
    row matches. *)
Definition single {A} (rows : list A) : option A :=
  match rows with
  | [x] => Some x
  | _ => None
  end.

(** [.single().execute()]: the row is [result.data]; without exactly
    one row the client raises [APIError]. *)
Definition execute_single {A} (rows : list A) : M A :=
  match single rows with
  | Some x => ret x
  | None => raise APIError
  end.

(** [from_("users").select(..).eq("id", uid).single().execute()]; [id]
    is the primary key. *)
Definition select_user (uid : string) : M user_row :=
  fun w => match users (db w) !! uid with
           | Some u => (Return u, w)
           | None => (Raise APIError, w)
           end.

(** The tier row embedded in a user row through [current_tier_id]. *)
Definition join_tier (tid : string) : M (option tier) :=
  fun w => (Return (pair tid <$> subscription_tiers (db w) !! tid), w).

(** [from_("subscription_tiers").select(..).eq("name", n).single()
    .execute()] *)
Definition tiers_named (n : string) (tiers : gmap string tier_row) : list tier :=
  List.filter (fun kv : tier => String.eqb (tier_name (snd kv)) n)
              (map_to_list tiers).

Definition select_tier_by_name (n : string) : M tier :=
  fun w => execute_single (tiers_named n (subscription_tiers (db w))) w.

(** [from_("payment_transactions").select(..).eq(..)...execute()] *)
Definition select_txns (p : txn -> bool) : M (list txn) :=
  fun w => (Return (List.filter p (payment_transactions (db w))), w).

(** [from_("payment_transactions").select(..).eq(..)...single()
    .execute()]: the value of [result.data], which is never empty. *)
Definition select_txn_single (p : txn -> bool) : M (option txn) :=
  fun w =>
    bind (execute_single (List.filter p (payment_transactions (db w))))
         (fun row => ret (Some row)) w.

(** [from_("users").update({current_tier_id, subscription_expires_at})
    .eq("id", uid)] *)
Definition update_user (uid tid : string) (expires : option Z) : M unit :=
  fun w =>
    let s := db w in
    (Return tt,
     World (Store (alter (fun _ => UserRow tid expires) uid (users s))
                  (subscription_tiers s) (payment_transactions s))
           (journal w ++ [UsersUpdate uid tid expires])
           (orange_money w)).

(** [from_("payment_transactions").update(fields).eq("id", id)];
    every such update in the handlers assigns [status]. *)
Definition update_where_id (id : string) (f : txn -> txn) (rows : list txn) : list txn :=
  map (fun t => if String.eqb (txn_id t) id then f t else t) rows.

Definition update_txn (id new_status : string) (f : txn -> txn) : M unit :=
  fun w =>
    let s := db w in
    (Return tt,
     World (Store (users s) (subscription_tiers s)
                  (update_where_id id (fun t => set_status new_status (f t))
                                   (payment_transactions s)))
           (journal w ++ [TxnUpdate id new_status])
           (orange_money w)).

(** [from_("payment_transactions").insert(row)] *)
Definition insert_txn (row : txn) : M unit :=
  fun w =>
    let s := db w in
    (Return tt,
     World (Store (users s) (subscription_tiers s)
                  (payment_transactions s ++ [row]))
           (journal w ++ [TxnInsert row])
           (orange_money w)).

(** ** Expiry enforcement and activation *)

(** The instants a [datetime] holds: 0001-01-01T00:00:00 to
    9999-12-31T23:59:59.999999, in microseconds since the epoch. *)
Definition datetime_min : Z := -62135596800000000.
Definition datetime_max : Z := 253402300799999999.

Definition is_datetime (t : Z) : bool :=
  ((datetime_min <=? t) && (t <=? datetime_max))%Z.

(** A [timedelta] holds at most this many days, either way. *)
Definition timedelta_max_days : Z := 999999999.

(** [timedelta(days=d)] in microseconds. *)
Definition timedelta_days (d : Z) : Z := d * 86400000000.

(** [timedelta(seconds=n)] for an integer [n], in microseconds:
    [OverflowError] when the whole days of [n] pass the limit. *)
Definition timedelta_seconds (n : Z) : option Z :=
  if ((- timedelta_max_days <=? n / 86400)
      && (n / 86400 <=? timedelta_max_days))%Z
  then Some (n * 1000000)
  else None.

(** [t + delta] for a [datetime]: [OverflowError] outside the years 1
    to 9999. *)
Definition datetime_add (t delta : Z) : option Z :=
  if is_datetime (t + delta) then Some (t + delta) else None.

(** The dictionary returned by [check_and_enforce_subscription];
    [previous_tier] is [None] when the key is absent. *)
Record enforcement := Enforcement {
  enf_tier : tier;
  is_active : bool;
  expires_at : option Z;
  was_downgraded : bool;
  previous_tier : option string
}.

Definition check_and_enforce_subscription (user_id : string) (now : Z)
  : M enforcement :=
  user_data <- select_user user_id ;;
  joined <- join_tier (current_tier_id user_data) ;;
  match joined with
  | None => raise TypeError
  | Some tr =>
    let unchanged :=
      ret (Enforcement tr true (subscription_expires_at user_data) false None) in
    if String.eqb (tier_name (snd tr)) "free" then
      ret (Enforcement tr true None false None)
    else
      match subscription_expires_at user_data with
      | Some expiry_dt =>
        if now >? expiry_dt then
          free_tier <- select_tier_by_name "free" ;;
          update_user user_id (fst free_tier) None ;;;
          ret (Enforcement free_tier true None true (Some (tier_name (snd tr))))
        else unchanged
      | None => unchanged
      end
  end.

(** The expiry written by [activate_subscription], in exact integer
    arithmetic: it is the value the code writes whenever that value
    is a [datetime] and [duration_days] fits a [timedelta]. *)
Definition new_expires (current_expires : option Z) (now duration_days : Z) : Z :=
  match current_expires with
  | Some current_expires_dt =>
    if current_expires_dt >? now
    then current_expires_dt + timedelta_days duration_days
    else now + timedelta_days duration_days
  | None => now + timedelta_days duration_days
  end.

Definition activate_subscription (user_id tier_id : string)
    (duration_days : Z) (now : Z) : M unit :=
  user_result <- select_user user_id ;;
  update_user user_id tier_id
    (Some (new_expires (subscription_expires_at user_result) now duration_days)).

(** ** Text helpers *)

(** Text without bytes above 127. *)
Definition is_ascii (s : string) : bool :=
  forallb (fun c => (nat_of_ascii c <? 128)%nat) (list_ascii_of_string s).

(** [str.upper()] and [str.lower()] as they are on ASCII text: the
    letters a-z and A-Z change, every other byte stays. *)
Definition upper_ascii (c : ascii) : ascii :=
  let n := nat_of_ascii c in
  if ((97 <=? n) && (n <=? 122))%nat then ascii_of_nat (n - 32) else c.

Definition lower_ascii (c : ascii) : ascii :=
  let n := nat_of_ascii c in
  if ((65 <=? n) && (n <=? 90))%nat then ascii_of_nat (n + 32) else c.

Fixpoint upper (s : string) : string :=
  match s with
  | EmptyString => EmptyString
  | String c r => String (upper_ascii c) (upper r)
  end.

Fixpoint lower (s : string) : string :=
  match s with
  | EmptyString => EmptyString
  | String c r => String (lower_ascii c) (lower r)
  end.

(** [str(n)] for an [int]: the decimal numeral, with a minus sign for
    a negative number. *)
Definition str_of_int (n : Z) : string := NilZero.string_of_int (Z.to_int n).

(** Truth value of an optional text: [None] and [""] are false. *)
Definition truthy (o : option string) : bool :=
  match o with
  | Some s => negb (String.eqb s "")
  | None => false
  end.

(** [s in (a, b, ...)] *)
Definition str_in (s : string) (l : list string) : bool :=
  existsb (String.eqb s) l.

(** ** The Orange Money client *)

(** The value at the key ["expires_in"] of the token reply: the key
    is absent, or holds an integer, or holds something [timedelta]
    does not take (null, text). *)
Inductive expires_in_value :=
| ExpiresInAbsent
| ExpiresInSeconds (n : Z)
| ExpiresInUnusable.

(** What the token endpoint answered, as far as [_get_access_token]
    looks at it.  [TokenFailure] is an exception raised before the
    token is read: a transport error, an error status, a body that is
    not JSON or has no key ["access_token"]. *)
Inductive token_reply :=
| TokenFailure
| TokenGranted (access_token : string) (expires_in : expires_in_value).

(** A text value of a JSON object at a key the code reads with
    [.get]: the key is absent, or holds null, or holds text. *)
Inductive json_text :=
| Absent
| Null
| Text (s : string).

(** [d.get(key)]: [None] for an absent key and for null. *)
Definition dict_get (v : json_text) : option string :=
  match v with
  | Text s => Some s
  | Absent | Null => None
  end.

(** [d.get(key, fallback)]: the fallback stands in for an absent key
    only. *)
Definition dict_get_default (v : json_text) (fallback : string) : option string :=
  match v with
  | Absent => Some fallback
  | Null => None
  | Text s => Some s
  end.

(** The JSON object of a gateway answer, at the keys the code reads. *)
Record om_response := OmResponse {
  resp_status : json_text;
  resp_payment_url : json_text;
  resp_pay_token : json_text
}.

(** What a POST to the gateway gave: a [requests.RequestException]
    (transport error, timeout, HTTP error status) or a JSON object. *)
Inductive http_reply :=
| RequestException
| Json (body : om_response).

(** Everything the outside world contributes to one gateway call. *)
Record gateway_io := GatewayIO {
  io_now : Z;
  io_token : token_reply;
  io_http : http_reply
}.

(** [now + timedelta(seconds=data.get("expires_in", 3500))] *)
Definition token_expiry (now : Z) (expires_in : expires_in_value) : option Z :=
  seconds ← match expires_in with
            | ExpiresInAbsent => Some 3500
            | ExpiresInSeconds n => Some n
            | ExpiresInUnusable => None
            end;
  delta ← timedelta_seconds seconds;
  datetime_add now delta.

(** The token is assigned before the expiry is computed, inside the
    same [try]: when the expiry cannot be computed the call raises 502
    and the new token stays in the client, with the old expiry. *)
Definition _get_access_token (io : gateway_io) : M string :=
  fun w =>
    let c := orange_money w in
    let refresh :=
      match io_token io with
      | TokenGranted tok expires_in =>
        match token_expiry (io_now io) expires_in with
        | Some expiry =>
          (Return tok,
           World (db w) (journal w) (Client (Some tok) (Some expiry)))
        | None =>
          (Raise (HTTPException 502 "Payment service unavailable"),
           World (db w) (journal w)
                 (Client (Some tok) (_token_expires_at c)))
        end
      | TokenFailure =>
        (Raise (HTTPException 502 "Payment service unavailable"), w)
      end in
    match _access_token c, _token_expires_at c with
    | Some tok, Some exp =>
      if negb (String.eqb tok "") && (io_now io <? exp)%Z
      then (Return tok, w)
      else refresh
    | _, _ => refresh
    end.

Definition initiate_payment (order_id : string) (amount : Z)
    (io : gateway_io) : M om_response :=
  _ <- _get_access_token io ;;
  match io_http io with
  | Json body => ret body
  | RequestException =>
    raise (HTTPException 502 "Could not initiate payment with Orange Money")
  end.

Definition check_transaction_status (order_id : string) (amount : Z)
    (io : gateway_io) : M om_response :=
  _ <- _get_access_token io ;;
  match io_http io with
  | Json body => ret body
  | RequestException => ret (OmResponse (Text "UNKNOWN") Absent Absent)
  end.

(** [try: body  except HTTPException: handler] *)
Definition try_except_HTTPException {A} (body handler : M A) : M A :=
  fun w =>
    match body w with
    | (Raise (HTTPException _ _), w') => handler w'
    | r => r
    end.

(** ** Request and response models ([models.py], [config.py]) *)

Inductive SubscriptionTier := FREE | BASIC | STANDARD | PREMIUM.

Definition tier_value (t : SubscriptionTier) : string :=
  match t with
  | FREE => "free"
  | BASIC => "basic"
  | STANDARD => "standard"
  | PREMIUM => "premium"
  end.

Record InitiateSubscription := {
  sub_tier : SubscriptionTier;
  sub_payment_method : string
}.

(** A Python [float]: a finite value or one of the special values. *)
Inductive pyfloat :=
| Finite (q : Q)
| Infinity (negative : bool)
| NaN.

(** [x != n] for a float [x] and an int [n]: the comparison is exact. *)
Definition float_ne_int (x : pyfloat) (n : Z) : bool :=
  match x with
  | Finite q => negb (Qeq_bool q (inject_Z n))
  | _ => true
  end.

Record OrangeMoneyCallback := {
  cb_order_id : string;
  cb_status : string;
  cb_transaction_id : string;
  cb_amount : pyfloat;
  cb_currency : string
}.

Record ConfirmPaymentRequest := {
  confirm_transaction_id : string;
  payment_reference : string
}.

Record AdminApprovePayment := {
  approve_transaction_id : string;
  approve_admin_notes : option string
}.

Record PaymentInitResponse := {
  payment_url : option string;
  init_transaction_id : string;
  init_status : string;
  init_message : string
}.

Record PaymentStatusResponse := {
  resp_transaction_id : string;
  resp_txn_status : string;
  resp_tier_name : string;
  resp_amount_pula : Z;
  resp_message : string
}.

(** The settings read by the handlers. *)
Record Settings := {
  whatsapp_number : string
}.

(** ** Payment handlers *)

Definition is_pending_for (uid tid : string) (t : txn) : bool :=
  String.eqb (txn_user_id t) uid
  && String.eqb (txn_tier_id t) tid
  && String.eqb (status t) "pending".

(** [f"PD-{now:%Y%m%d}-{transaction_id[:8].upper()}"]; [ymd] is the
    date as [strftime] printed it. *)
Definition make_txn_ref (ymd transaction_id : string) : string :=
  "PD-" +:+ ymd +:+ "-" +:+ upper (substring 0 8 transaction_id).

Definition fallback_message (settings : Settings) (price : Z) (txn_ref : string)
  : string :=
  "Orange Money is temporarily unavailable. "
  +:+ "Please send P" +:+ str_of_int price +:+ " via Orange Money to "
  +:+ whatsapp_number settings +:+ " "
  +:+ "with reference: " +:+ txn_ref +:+ ", then confirm your payment.".

Definition myzaka_message (settings : Settings) (price : Z) (txn_ref : string)
  : string :=
  "Send P" +:+ str_of_int price +:+ " via MyZaka to "
  +:+ whatsapp_number settings +:+ ". "
  +:+ "Use reference: " +:+ txn_ref +:+ ". "
  +:+ "After payment, confirm with your MyZaka receipt reference.".

Definition manual_message (settings : Settings) (price : Z) (txn_ref : string)
  : string :=
  "Send P" +:+ str_of_int price +:+ " to "
  +:+ whatsapp_number settings +:+ ". "
  +:+ "Use reference: " +:+ txn_ref +:+ ". "
  +:+ "Contact us on WhatsApp with proof of payment for activation.".

Definition with_gateway_order (order_id : string) (pay_token : option string)
    (t : txn) : txn :=
  Txn (txn_id t) (txn_user_id t) (txn_tier_id t) (amount_pula t)
      (payment_method t) (transaction_reference t) (status t)
      (Some order_id) pay_token
      (orange_money_pay_url t) (orange_money_status t)
      (orange_money_transaction_id t) (user_payment_reference t)
      (admin_notes t) (completed_at t).

Definition with_payment_method (m : string) (t : txn) : txn :=
  Txn (txn_id t) (txn_user_id t) (txn_tier_id t) (amount_pula t)
      m (transaction_reference t) (status t)
      (orange_money_order_id t) (orange_money_pay_token t)
      (orange_money_pay_url t) (orange_money_status t)
      (orange_money_transaction_id t) (user_payment_reference t)
      (admin_notes t) (completed_at t).

(** [POST /subscriptions/initiate].  [uuid] is the value of
    [str(uuid.uuid4())]. *)
Definition initiate_subscription (settings : Settings)
    (subscription : InitiateSubscription) (user_id : string)
    (uuid ymd : string) (io : gateway_io) : M PaymentInitResponse :=
  tr <- select_tier_by_name (tier_value (sub_tier subscription)) ;;
  let price := price_pula (snd tr) in
  if Z.eqb price 0 then
    raise (HTTPException 400 "Free tier doesn't require payment")
  else
    existing <- select_txns (is_pending_for user_id (fst tr)) ;;
    match existing with
    | t :: _ =>
      ret {| payment_url := orange_money_pay_url t;
             init_transaction_id := txn_id t;
             init_status := "pending";
             init_message :=
               "You already have a pending payment for "
               +:+ tier_name (snd tr)
               +:+ " tier. Complete your existing payment or wait for it to expire." |}
    | [] =>
      let transaction_id := uuid in
      let txn_ref := make_txn_ref ymd transaction_id in
      let txn_data :=
        Txn transaction_id user_id (fst tr) price
            (sub_payment_method subscription) txn_ref "pending"
            None None None None None None None None in
      prepared <-
        (if String.eqb (sub_payment_method subscription) "orange_money" then
           try_except_HTTPException
             (om <- initiate_payment txn_ref price io ;;
              ret (dict_get (resp_payment_url om),
                   "Redirecting to Orange Money for payment",
                   with_gateway_order txn_ref
                     (dict_get_default (resp_pay_token om) "") txn_data))
             (ret (None,
                   fallback_message settings price txn_ref,
                   with_payment_method "manual" txn_data))
         else if String.eqb (sub_payment_method subscription) "myzaka" then
           ret (None, myzaka_message settings price txn_ref, txn_data)
         else
           ret (None, manual_message settings price txn_ref, txn_data)) ;;
      let '(url, message, row) := prepared in
      insert_txn row ;;;
      ret {| payment_url := url;
             init_transaction_id := transaction_id;
             init_status := "pending";
             init_message := message |}
    end.

(** [txn.get("subscription_tiers", {}).get("name", "unknown")]: the
    embedded tier is present as a key; a null embedding has no [get]. *)
Definition joined_tier_name (t : txn) : M string :=
  joined <- join_tier (txn_tier_id t) ;;
  match joined with
  | Some tr => ret (tier_name (snd tr))
  | None => raise AttributeError
  end.

(** [POST /subscriptions/confirm] *)
Definition confirm_payment (confirmation : ConfirmPaymentRequest)
    (user_id : string) : M PaymentStatusResponse :=
  result <- select_txn_single (fun t =>
              String.eqb (txn_id t) (confirm_transaction_id confirmation)
              && String.eqb (txn_user_id t) user_id
              && String.eqb (status t) "pending") ;;
  match result with
  | None => raise (HTTPException 404 "Pending transaction not found")
  | Some t =>
    update_txn (txn_id t) "awaiting_verification"
      (set_user_payment_reference (payment_reference confirmation)) ;;;
    name <- joined_tier_name t ;;
    ret {| resp_transaction_id := txn_id t;
           resp_txn_status := "awaiting_verification";
           resp_tier_name := name;
           resp_amount_pula := amount_pula t;
           resp_message :=
             "Payment reference received. Your " +:+ name
             +:+ " tier upgrade will be activated "
             +:+ "once we verify the payment. This usually takes a few minutes during business hours." |}
  end.

(** [status_messages.get(txn["status"], "Unknown status")] *)
Definition status_message (t : txn) (name : string) : string :=
  let s := status t in
  if String.eqb s "pending" then
    "Payment pending. Complete your P" +:+ str_of_int (amount_pula t)
    +:+ " payment to activate " +:+ name +:+ " tier."
  else if String.eqb s "awaiting_verification" then
    "Payment submitted. Waiting for verification of your " +:+ name
    +:+ " tier upgrade."
  else if String.eqb s "completed" then
    "Payment complete! Your " +:+ name +:+ " tier is active."
  else if String.eqb s "failed" then
    "Payment failed. Please try again or contact support."
  else if String.eqb s "refunded" then
    "This payment has been refunded."
  else "Unknown status".

(** The default duration of [activate_subscription]. *)
Definition default_duration_days : Z := 30.

(** [GET /subscriptions/check-payment/{transaction_id}].  The two
    instants are the clock readings for [completed_at] and inside
    [activate_subscription]. *)
Definition check_payment_status (transaction_id user_id : string)
    (io : gateway_io) (now_completed now_activate : Z)
  : M PaymentStatusResponse :=
  result <- select_txn_single (fun t =>
              String.eqb (txn_id t) transaction_id
              && String.eqb (txn_user_id t) user_id) ;;
  match result with
  | None => raise (HTTPException 404 "Transaction not found")
  | Some t =>
    name <- joined_tier_name t ;;
    let current :=
      ret {| resp_transaction_id := txn_id t;
             resp_txn_status := status t;
             resp_tier_name := name;
             resp_amount_pula := amount_pula t;
             resp_message := status_message t name |} in
    if String.eqb (payment_method t) "orange_money"
       && String.eqb (status t) "pending" then
      match orange_money_order_id t with
      | Some om_order_id =>
        if String.eqb om_order_id "" then current else
        om_status <- check_transaction_status om_order_id (amount_pula t) io ;;
        match dict_get_default (resp_status om_status) "" with
        | None => raise AttributeError
        | Some reported =>
          let remote_status := upper reported in
          if String.eqb remote_status "SUCCESS" then
            update_txn (txn_id t) "completed"
              (fun r => set_orange_money_status "SUCCESS"
                          (set_completed_at now_completed r)) ;;;
            activate_subscription user_id (txn_tier_id t)
              default_duration_days now_activate ;;;
            ret {| resp_transaction_id := txn_id t;
                   resp_txn_status := "completed";
                   resp_tier_name := name;
                   resp_amount_pula := amount_pula t;
                   resp_message :=
                     "Payment confirmed! Your " +:+ name
                     +:+ " tier is now active." |}
          else if str_in remote_status ["FAILED"; "EXPIRED"; "CANCELLED"] then
            update_txn (txn_id t) "failed"
              (set_orange_money_status remote_status) ;;;
            ret {| resp_transaction_id := txn_id t;
                   resp_txn_status := "failed";
                   resp_tier_name := name;
                   resp_amount_pula := amount_pula t;
                   resp_message :=
                     "Payment " +:+ lower remote_status
                     +:+ ". Please try again." |}
          else current
        end
      | None => current
      end
    else current
  end.

(** The statuses after which a callback is skipped. *)
Definition terminal (s : string) : bool :=
  str_in s ["completed"; "failed"; "refunded"].

(** [callback_data.status.upper() in ("SUCCESS", "SUCCESSFULL")] *)
Definition is_success (s : string) : bool :=
  str_in (upper s) ["SUCCESS"; "SUCCESSFULL"].

(** [.eq("orange_money_order_id", o)]: a null column matches nothing. *)
Definition has_order_id (o : string) (t : txn) : bool :=
  match orange_money_order_id t with
  | Some o' => String.eqb o' o
  | None => false
  end.

(** [POST /webhooks/orange-money]; the result is the value at the key
    ["status"] of the returned dictionary. *)
Definition orange_money_webhook (callback_data : OrangeMoneyCallback)
    (now_completed now_activate : Z) : M string :=
  result <- select_txn_single (has_order_id (cb_order_id callback_data)) ;;
  match result with
  | None => raise (HTTPException 404 "Transaction not found")
  | Some transaction =>
    if terminal (status transaction) then ret "already_processed"
    else if float_ne_int (cb_amount callback_data) (amount_pula transaction) then
      update_txn (txn_id transaction) "failed"
        (set_orange_money_status "AMOUNT_MISMATCH") ;;;
      ret "amount_mismatch"
    else
      (if is_success (cb_status callback_data) then
         update_txn (txn_id transaction) "completed"
           (fun r => set_orange_money_transaction_id
                       (cb_transaction_id callback_data)
                       (set_orange_money_status (cb_status callback_data)
                          (set_completed_at now_completed r))) ;;;
         activate_subscription (txn_user_id transaction)
           (txn_tier_id transaction) default_duration_days now_activate
       else
         update_txn (txn_id transaction) "failed"
           (set_orange_money_status (cb_status callback_data))) ;;;
      ret "processed"
  end.

(** ** Admin handlers *)

Definition is_open_with_id (id : string) (t : txn) : bool :=
  String.eqb (txn_id t) id
  && str_in (status t) ["pending"; "awaiting_verification"].

(** [if approval.admin_notes: update_data["admin_notes"] = ...] *)
Definition with_notes (notes : option string) (t : txn) : txn :=
  match notes with
  | Some n => if String.eqb n "" then t else set_admin_notes n t
  | None => t
  end.

(** [POST /admin/payments/approve] *)
Definition admin_approve_payment (approval : AdminApprovePayment)
    (now_completed now_activate : Z) : M PaymentStatusResponse :=
  result <- select_txn_single
              (is_open_with_id (approve_transaction_id approval)) ;;
  match result with
  | None => raise (HTTPException 404 "Pending transaction not found")
  | Some t =>
    name <- joined_tier_name t ;;
    update_txn (txn_id t) "completed"
      (fun r => with_notes (approve_admin_notes approval)
                  (set_completed_at now_completed r)) ;;;
    activate_subscription (txn_user_id t) (txn_tier_id t)
      default_duration_days now_activate ;;;
    ret {| resp_transaction_id := txn_id t;
           resp_txn_status := "completed";
           resp_tier_name := name;
           resp_amount_pula := amount_pula t;
           resp_message :=
             "Payment approved. User upgraded to " +:+ name +:+ " tier." |}
  end.

(** [POST /admin/payments/reject] *)
Definition admin_reject_payment (approval : AdminApprovePayment)
  : M PaymentStatusResponse :=
  result <- select_txn_single
              (is_open_with_id (approve_transaction_id approval)) ;;
  match result with
  | None => raise (HTTPException 404 "Pending transaction not found")
  | Some t =>
    name <- joined_tier_name t ;;
    update_txn (txn_id t) "failed"
      (with_notes (approve_admin_notes approval)) ;;;
    ret {| resp_transaction_id := txn_id t;
           resp_txn_status := "failed";
           resp_tier_name := name;
           resp_amount_pula := amount_pula t;
           resp_message :=
             "Payment rejected."
             +:+ (if truthy (approve_admin_notes approval)
                  then " Reason: " +:+ default "" (approve_admin_notes approval)
                  else "") |}
  end.

(** ** Vocabulary of the properties *)

(** The transaction a callback for order [o] is matched with. *)
Definition txn_by_order_id (s : store) (o : string) : option txn :=
  single (List.filter (has_order_id o) (payment_transactions s)).

(** An activation is a write of a tier together with an expiry. *)
Definition is_activation (x : write) : bool :=
  match x with
  | UsersUpdate _ _ (Some _) => true
  | _ => false
  end.

Definition activations (j : list write) : nat :=
  length (List.filter is_activation j).

(** ** The ledger as a transition system *)

(** One request served by one of the handlers of the ledger, with any
    inputs.  [check_and_enforce_subscription] stands for the two
    endpoints that start with it.  The two cron endpoints only call
    stored procedures of the database, which are not part of these
    sources, and are not steps here. *)
Inductive step (settings : Settings) : world -> world -> Prop :=
| step_enforce uid now w :
    step settings w (snd (check_and_enforce_subscription uid now w))
| step_initiate subscription uid uuid ymd io w :
    step settings w
      (snd (initiate_subscription settings subscription uid uuid ymd io w))
| step_confirm confirmation uid w :
    step settings w (snd (confirm_payment confirmation uid w))
| step_check_payment tid uid io n1 n2 w :
    step settings w (snd (check_payment_status tid uid io n1 n2 w))
| step_webhook cb n1 n2 w :
    step settings w (snd (orange_money_webhook cb n1 n2 w))
| step_approve approval n1 n2 w :
    step settings w (snd (admin_approve_payment approval n1 n2 w))
| step_reject approval w :
    step settings w (snd (admin_reject_payment approval w)).

(** An update of a transaction that leaves its keys and its stored
    redirect URL alone. *)
Definition keeps_identity (f : txn -> txn) : Prop :=
  forall r, txn_user_id (f r) = txn_user_id r
            /\ txn_tier_id (f r) = txn_tier_id r
            /\ orange_money_pay_url (f r) = orange_money_pay_url r.

(** The four kinds of write the handlers perform on the store. *)
Inductive ledger_write : store -> store -> Prop :=
| lw_downgrade s uid fid ft :
    subscription_tiers s !! fid = Some ft ->
    tier_name ft = "free" ->
    ledger_write s
      (Store (alter (fun _ => UserRow fid None) uid (users s))
             (subscription_tiers s) (payment_transactions s))
| lw_activate s uid t e :
    In t (payment_transactions s) ->
    ledger_write s
      (Store (alter (fun _ => UserRow (txn_tier_id t) (Some e)) uid (users s))
             (subscription_tiers s) (payment_transactions s))
| lw_settle s id new_status f :
    new_status <> "pending" ->
    keeps_identity f ->
    ledger_write s
      (Store (users s) (subscription_tiers s)
             (update_where_id id (fun t => set_status new_status (f t))
                              (payment_transactions s)))
| lw_open s row tr :
    subscription_tiers s !! txn_tier_id row = Some tr ->
    price_pula tr <> 0 ->
    status row = "pending" ->
    orange_money_pay_url row = None ->
    List.filter (is_pending_for (txn_user_id row) (txn_tier_id row))
                (payment_transactions s) = [] ->
    ledger_write s
      (Store (users s) (subscription_tiers s)
             (payment_transactions s ++ [row])).

(** ** Invariants *)

(** At most one [pending] transaction for each user and tier. *)
Definition pending_unique (s : store) : Prop :=
  forall uid tid,
    (length (List.filter (is_pending_for uid tid) (payment_transactions s)) <= 1)%nat.

(** The same count over the statuses the admin handlers treat as open. *)
Definition is_open_for (uid tid : string) (t : txn) : bool :=
  String.eqb (txn_user_id t) uid
  && String.eqb (txn_tier_id t) tid
  && str_in (status t) ["pending"; "awaiting_verification"].

(** A user on a tier named [free] has no expiry. *)
Definition free_expiry_null (s : store) : Prop :=
  forall uid u tr,
    users s !! uid = Some u ->
    subscription_tiers s !! current_tier_id u = Some tr ->
    tier_name tr = "free" ->
    subscription_expires_at u = None.

(** A tier named [free] costs nothing. *)
Definition free_costs_nothing (s : store) : Prop :=
  forall tid tr,
    subscription_tiers s !! tid = Some tr ->
    tier_name tr = "free" -> price_pula tr = 0.

(** No transaction pays for a tier named [free]. *)
Definition no_txn_for_free (s : store) : Prop :=
  forall t tr,
    In t (payment_transactions s) ->
    subscription_tiers s !! txn_tier_id t = Some tr ->
    tier_name tr <> "free".

(** No row stores a redirect URL. *)
Definition no_pay_url (s : store) : Prop :=
  forall t, In t (payment_transactions s) -> orange_money_pay_url t = None.

(** ** Example worlds *)

Definition example_settings : Settings :=
  {| whatsapp_number := "26777625997" |}.

Definition example_tiers : gmap string tier_row :=
  <["t-free" := TierRow "free" 0 (Some 1)]>
    (<["t-basic" := TierRow "basic" 50 (Some 3)]> ∅).

(** One user on the free tier, no transaction yet. *)
Definition fresh_world : world :=
  World (Store (<["u1" := UserRow "t-free" None]> ∅) example_tiers [])
        [] (Client None None).

(** One user whose basic subscription ran out at instant 100. *)
Definition lapsed_world : world :=
  World (Store (<["u1" := UserRow "t-basic" (Some 100)]> ∅) example_tiers [])
        [] (Client None None).

Definition uuid_a : string := "3f2a9c1e-7b1d-4c55-9e0a-5d2f8c6b1a01".
Definition uuid_b : string := "b81e04d7-2a6f-4f0c-8c3e-9a7d5e4f2b02".

Definition basic_manual : InitiateSubscription :=
  {| sub_tier := BASIC; sub_payment_method := "manual" |}.

Definition basic_orange_money : InitiateSubscription :=
  {| sub_tier := BASIC; sub_payment_method := "orange_money" |}.

(** The gateway answers with a token and a redirect URL. *)
Definition gateway_up : gateway_io :=
  GatewayIO 0 (TokenGranted "tok-1" ExpiresInAbsent)
    (Json (OmResponse Absent (Text "https://webpay.example/pay/abc")
                      (Text "ptk-1"))).

(** An hour later: the cached token has run out and neither the token
    endpoint nor the gateway can be reached. *)
Definition gateway_down : gateway_io :=
  GatewayIO 3600000000 TokenFailure RequestException.

(** A gateway payment for the basic tier has been initiated. *)
Definition pending_gateway_world : world :=
  snd (initiate_subscription example_settings basic_orange_money "u1"
         uuid_a "20250101" gateway_up fresh_world).

Definition pending_gateway_txn : txn :=
  Txn uuid_a "u1" "t-basic" 50 "orange_money" "PD-20250101-3F2A9C1E"
      "pending" (Some "PD-20250101-3F2A9C1E") (Some "ptk-1")
      None None None None None None.

Definition callback_paid : OrangeMoneyCallback :=
  {| cb_order_id := "PD-20250101-3F2A9C1E";
     cb_status := "SUCCESS";
     cb_transaction_id := "MP250101.1200.A00001";
     cb_amount := Finite (50 # 1);
     cb_currency := "BWP" |}.

(** The same callback with another amount. *)
Definition callback_short : OrangeMoneyCallback :=
  {| cb_order_id := "PD-20250101-3F2A9C1E";
     cb_status := "SUCCESS";
     cb_transaction_id := "MP250101.1200.A00001";
     cb_amount := Finite (1 # 2);
     cb_currency := "BWP" |}.

(** The callback has been delivered once. *)
Definition paid_world : world :=
  snd (orange_money_webhook callback_paid 10 20 pending_gateway_world).

(** A manual payment initiated and then confirmed by the user. *)
Definition manual_pending_world : world :=
  snd (initiate_subscription example_settings basic_manual "u1"
         uuid_a "20250101" gateway_down fresh_world).

Definition awaiting_world : world :=
  snd (confirm_payment
         {| confirm_transaction_id := uuid_a; payment_reference := "RCPT-77" |}
         "u1" manual_pending_world).

(** ** What one request may do to the ledger *)

(** The columns of a payment that are fixed when its row is inserted. *)
Definition same_payment (r r' : txn) : Prop :=
  txn_id r' = txn_id r
  /\ txn_user_id r' = txn_user_id r
  /\ txn_tier_id r' = txn_tier_id r
  /\ amount_pula r' = amount_pula r
  /\ payment_method r' = payment_method r
  /\ transaction_reference r' = transaction_reference r
  /\ orange_money_order_id r' = orange_money_order_id r
  /\ orange_money_pay_token r' = orange_money_pay_token r
  /\ orange_money_pay_url r' = orange_money_pay_url r.

(** The store and journal after a request, in terms of those before:
    nothing written; a downgrade; a new pending row; an open row
    settled as failed or moved from pending to awaiting verification;
    an open row completed, with the activation of its user when the
    user row exists.  The token cache of the client is left free. *)
Inductive request_effect (w w' : world) : Prop :=
| eff_read :
    db w' = db w ->
    journal w' = journal w ->
    request_effect w w'
| eff_downgrade uid fid ft :
    subscription_tiers (db w) !! fid = Some ft ->
    tier_name ft = "free" ->
    db w' = Store (alter (fun _ => UserRow fid None) uid (users (db w)))
                  (subscription_tiers (db w)) (payment_transactions (db w)) ->
    journal w' = (journal w ++ [UsersUpdate uid fid None])%list ->
    request_effect w w'
| eff_insert row :
    status row = "pending" ->
    db w' = Store (users (db w)) (subscription_tiers (db w))
                  (payment_transactions (db w) ++ [row]) ->
    journal w' = (journal w ++ [TxnInsert row])%list ->
    request_effect w w'
| eff_settle t st g :
    In t (payment_transactions (db w)) ->
    terminal (status t) = false ->
    st = "failed" \/ (st = "awaiting_verification" /\ status t = "pending") ->
    (forall r, same_payment r (g r)) ->
    db w' = Store (users (db w)) (subscription_tiers (db w))
                  (update_where_id (txn_id t) (fun r => set_status st (g r))
                                   (payment_transactions (db w))) ->
    journal w' = (journal w ++ [TxnUpdate (txn_id t) st])%list ->
    request_effect w w'
| eff_complete t g :
    In t (payment_transactions (db w)) ->
    terminal (status t) = false ->
    (forall r, same_payment r (g r)) ->
    users (db w) !! txn_user_id t = None ->
    db w' = Store (users (db w)) (subscription_tiers (db w))
                  (update_where_id (txn_id t)
                     (fun r => set_status "completed" (g r))
                     (payment_transactions (db w))) ->
    journal w' = (journal w ++ [TxnUpdate (txn_id t) "completed"])%list ->
    request_effect w w'
| eff_activate t g u now :
    In t (payment_transactions (db w)) ->
    terminal (status t) = false ->
    (forall r, same_payment r (g r)) ->
    users (db w) !! txn_user_id t = Some u ->
    db w' = Store (alter (fun _ => UserRow (txn_tier_id t)
                            (Some (new_expires (subscription_expires_at u) now
                                     default_duration_days)))
                         (txn_user_id t) (users (db w)))
                  (subscription_tiers (db w))
                  (update_where_id (txn_id t)
                     (fun r => set_status "completed" (g r))
                     (payment_transactions (db w))) ->
    journal w' = (journal w ++ [TxnUpdate (txn_id t) "completed";
                    UsersUpdate (txn_user_id t) (txn_tier_id t)
                      (Some (new_expires (subscription_expires_at u) now
                               default_duration_days))])%list ->
    request_effect w w'.

(** ** Listings and the subscription status ([models.py], [main.py]) *)

Inductive ListingType := SALE | RENT.

Record CreateListing := {
  brand : string;
  model : string;
  year : Z;
  mileage : Z;
  transmission : string;
  condition : string;
  price : Z;
  location : string;
  notes : option string;
  listing_type : ListingType;
  daily_rate : option Z;
  seats : option Z;
  images : option (list string)
}.

(** A row of [car_listings]: the submitted fields, the owner and the
    status the handler adds, and the columns the database fills in. *)
Record listing_row := ListingRow {
  listing_id : string;
  listing_user_id : string;
  listing_data : CreateListing;
  listing_status : string;
  listing_created_at : Z;
  listing_expires_at : Z
}.

Definition set_listing_status (s : string) (l : listing_row) : listing_row :=
  ListingRow (listing_id l) (listing_user_id l) (listing_data l) s
             (listing_created_at l) (listing_expires_at l).

(** The ledger together with the table [car_listings]. *)
Record site := Site {
  ledger : world;
  car_listings : list listing_row
}.

(** [.eq("user_id", uid).eq("status", "active")] with [count="exact"] *)
Definition is_active_listing_of (uid : string) (l : listing_row) : bool :=
  String.eqb (listing_user_id l) uid && String.eqb (listing_status l) "active".

Definition active_listing_count (uid : string) (ls : list listing_row) : Z :=
  Z.of_nat (length (List.filter (is_active_listing_of uid) ls)).

Record SubscriptionStatusResponse := {
  status_current_tier : string;
  status_price_pula : Z;
  status_listing_limit : option Z;
  status_listing_count : Z;
  status_is_active : bool;
  status_expires_at : option Z;
  days_remaining : option Z;
  can_create_listing : bool
}.

(** [listing_limit is None or listing_count < listing_limit] *)
Definition below_limit (listing_limit : option Z) (listing_count : Z) : bool :=
  match listing_limit with
  | None => true
  | Some l => (listing_count <? l)%Z
  end.

(** [GET /subscriptions/status].  [(expiry_dt - now).days] is the
    floor of the difference in whole days. *)
Definition get_subscription_status (user_id : string)
    (now_enforce now_days : Z) (s : site)
  : outcome SubscriptionStatusResponse * site :=
  match check_and_enforce_subscription user_id now_enforce (ledger s) with
  | (Raise e, w') => (Raise e, Site w' (car_listings s))
  | (Return sub_info, w') =>
    let tier := enf_tier sub_info in
    let listing_count := active_listing_count user_id (car_listings s) in
    let limit := listing_limit (snd tier) in
    (Return {| status_current_tier := tier_name (snd tier);
               status_price_pula := price_pula (snd tier);
               status_listing_limit := limit;
               status_listing_count := listing_count;
               status_is_active := is_active sub_info;
               status_expires_at := expires_at sub_info;
               days_remaining :=
                 match expires_at sub_info with
                 | Some expiry_dt =>
                   Some (Z.max 0 ((expiry_dt - now_days) / 86400000000))
                 | None => None
                 end;
               can_create_listing := below_limit limit listing_count |},
     Site w' (car_listings s))
  end.

(** The detail dictionary of the 403 raised at the listing limit; its
    message and [upgrade_required] are constants. *)
Record limit_detail := {
  detail_current_tier : string;
  detail_listing_count : Z;
  detail_listing_limit : Z
}.

Inductive listing_outcome (A : Type) :=
| Done (a : A)
| Failed (e : exn)
| LimitReached (detail : limit_detail).
Arguments Done {A} a.
Arguments Failed {A} e.
Arguments LimitReached {A} detail.

(** [POST /listings].  [new_id], [created_at] and [expires_at] are the
    columns the database fills in for the inserted row. *)
Definition create_listing (listing : CreateListing) (user_id : string)
    (now : Z) (new_id : string) (created_at expires_at : Z) (s : site)
  : listing_outcome listing_row * site :=
  match check_and_enforce_subscription user_id now (ledger s) with
  | (Raise e, w') => (Failed e, Site w' (car_listings s))
  | (Return sub_info, w') =>
    let tier := enf_tier sub_info in
    let current_count := active_listing_count user_id (car_listings s) in
    match listing_limit (snd tier) with
    | Some limit =>
      if (current_count >=? limit)%Z then
        (LimitReached {| detail_current_tier := tier_name (snd tier);
                         detail_listing_count := current_count;
                         detail_listing_limit := limit |},
         Site w' (car_listings s))
      else
        let row := ListingRow new_id user_id listing "active"
                              created_at expires_at in
        (Done row, Site w' (car_listings s ++ [row]))
    | None =>
      let row := ListingRow new_id user_id listing "active"
                            created_at expires_at in
      (Done row, Site w' (car_listings s ++ [row]))
    end
  end.

(** [.eq("id", lid).eq("user_id", uid)] *)
Definition is_listing_of (lid uid : string) (l : listing_row) : bool :=
  String.eqb (listing_id l) lid && String.eqb (listing_user_id l) uid.

(** [DELETE /listings/{listing_id}]: the update is sent first, then
    the rows it returned are looked at. *)
Definition delete_listing (lid user_id : string) (s : site)
  : outcome unit * site :=
  let table :=
    map (fun l => if is_listing_of lid user_id l
                  then set_listing_status "removed" l else l)
        (car_listings s) in
  let data := List.filter (is_listing_of lid user_id) table in
  match data with
  | [] => (Raise (HTTPException 404 "Listing not found"),
           Site (ledger s) table)
  | _ :: _ => (Return tt, Site (ledger s) table)
  end.

(** [.order("created_at", desc=True)]: newest first.  The database
    leaves the order of rows with equal [created_at] open; here they
    stay in table order. *)
Fixpoint insert_newest_first (l : listing_row) (sorted : list listing_row)
  : list listing_row :=
  match sorted with
  | [] => [l]
  | x :: rest =>
    if (listing_created_at x <=? listing_created_at l)%Z
    then l :: x :: rest
    else x :: insert_newest_first l rest
  end.

Definition order_newest_first (ls : list listing_row) : list listing_row :=
  fold_right insert_newest_first [] ls.

(** [a] is listed before [b]. *)
Definition newer_or_equal (a b : listing_row) : Prop :=
  (listing_created_at b <= listing_created_at a)%Z.

(** A filter that is given and true in Python's sense: an enum member
    always, a text when non-empty, a number when non-zero. *)
Definition text_filter (f : option string) (v : string) : bool :=
  match f with
  | Some x => if String.eqb x "" then true else String.eqb v x
  | None => true
  end.

Definition type_filter (f : option ListingType) (v : ListingType) : bool :=
  match f, v with
  | None, _ => true
  | Some SALE, SALE => true
  | Some RENT, RENT => true
  | Some _, _ => false
  end.

Definition min_filter (f : option Z) (v : Z) : bool :=
  match f with
  | Some m => if (m =? 0)%Z then true else (m <=? v)%Z
  | None => true
  end.

Definition max_filter (f : option Z) (v : Z) : bool :=
  match f with
  | Some m => if (m =? 0)%Z then true else (v <=? m)%Z
  | None => true
  end.

(** [GET /listings] *)
Definition get_listings (type_ : option ListingType) (brand_ : option string)
    (min_price max_price : option Z) (location_ : option string) (s : site)
  : list listing_row :=
  order_newest_first
    (List.filter
       (fun l =>
          String.eqb (listing_status l) "active"
          && type_filter type_ (listing_type (listing_data l))
          && text_filter brand_ (brand (listing_data l))
          && min_filter min_price (price (listing_data l))
          && max_filter max_price (price (listing_data l))
          && text_filter location_ (location (listing_data l)))
       (car_listings s)).

(** [GET /listings/my] *)
Definition get_my_listings (user_id : string) (s : site) : list listing_row :=
  order_newest_first
    (List.filter (fun l => String.eqb (listing_user_id l) user_id)
                 (car_listings s)).

(** ** More example worlds *)

Definition basic_tier_row : tier_row := TierRow "basic" 50 (Some 3).
Definition free_tier_row : tier_row := TierRow "free" 0 (Some 1).

Definition manual_pending_txn : txn :=
  Txn uuid_a "u1" "t-basic" 50 "manual" "PD-20250101-3F2A9C1E" "pending"
      None None None None None None None None.

Definition awaiting_txn : txn :=
  set_status "awaiting_verification"
    (set_user_payment_reference "RCPT-77" manual_pending_txn).

Definition paid_txn : txn :=
  set_status "completed"
    (set_orange_money_transaction_id "MP250101.1200.A00001"
       (set_orange_money_status "SUCCESS"
          (set_completed_at 10 pending_gateway_txn))).

(** A payment that an outside process has refunded. *)
Definition refunded_world : world :=
  World (Store (<["u1" := UserRow "t-free" None]> ∅) example_tiers
               [set_status "refunded" pending_gateway_txn])
        [] (Client None None).

(** A pending gateway payment whose user row is gone. *)
Definition orphan_world : world :=
  World (Store ∅ example_tiers [pending_gateway_txn]) [] (Client None None).

(** The gateway answers a status request with [st]; the token
    endpoint is down, the instant is within the life of a token
    granted at 0. *)
Definition gateway_reports (st : string) : gateway_io :=
  GatewayIO 1000 TokenFailure (Json (OmResponse (Text st) Absent Absent)).

Definition callback_failed : OrangeMoneyCallback :=
  {| cb_order_id := "PD-20250101-3F2A9C1E";
     cb_status := "FAILED";
     cb_transaction_id := "MP250101.1200.A00001";
     cb_amount := Finite (50 # 1);
     cb_currency := "BWP" |}.

Definition example_listing : CreateListing :=
  {| brand := "Toyota"; model := "Hilux"; year := 2018; mileage := 84000;
     transmission := "Manual"; condition := "Good"; price := 185000;
     location := "Gaborone"; notes := None; listing_type := SALE;
     daily_rate := None; seats := None; images := Some [] |}.

Definition example_listing_row : listing_row :=
  ListingRow "l1" "u1" example_listing "active" 5 500.

(** The lapsed user of [lapsed_world] with one active listing. *)
Definition lapsed_site : site := Site lapsed_world [example_listing_row].

(** The free user of [fresh_world] without listings. *)
Definition fresh_site : site := Site fresh_world [].

(** * Proofs *)

(** Closes the side condition [keeps_identity f] of a status update. *)
Ltac keeps :=
  let r := fresh "r" in
  intros r; unfold with_notes; repeat case_match; auto.

(** ** Running a handler *)

(** One step of a handler: the first primitive of a [bind] is run and
    the rest continues in the world it leaves. *)
Lemma run_ret {A B} (a : A) (k : A -> M B) w : bind (ret a) k w = k a w.
Proof. reflexivity. Qed.

Lemma run_assoc {A B C} (m : M A) (k : A -> M B) (k' : B -> M C) w :
  bind (bind m k) k' w = bind m (fun a => bind (k a) k') w.
Proof. unfold bind. destruct (m w) as [[a|e] w1]; reflexivity. Qed.

Lemma run_select_txns {B} p (k : list txn -> M B) w :
  bind (select_txns p) k w = k (List.filter p (payment_transactions (db w))) w.
Proof. reflexivity. Qed.

Lemma run_select_user {B} uid (k : user_row -> M B) w :
  bind (select_user uid) k w
  = match users (db w) !! uid with
    | Some u => k u w
    | None => (Raise APIError, w)
    end.
Proof.
  unfold bind, select_user. destruct (users (db w) !! uid); reflexivity.
Qed.

Lemma run_select_txn_single {B} p (k : option txn -> M B) w :
  bind (select_txn_single p) k w
  = match single (List.filter p (payment_transactions (db w))) with
    | Some t => k (Some t) w
    | None => (Raise APIError, w)
    end.
Proof.
  unfold bind, select_txn_single, execute_single, bind, ret, raise.
  destruct (single _); reflexivity.
Qed.

Lemma run_join_tier {B} tid (k : option tier -> M B) w :
  bind (join_tier tid) k w = k (pair tid <$> subscription_tiers (db w) !! tid) w.
Proof. reflexivity. Qed.

Lemma run_select_tier_by_name {B} n (k : tier -> M B) w :
  bind (select_tier_by_name n) k w
  = match single (tiers_named n (subscription_tiers (db w))) with
    | Some tr => k tr w
    | None => (Raise APIError, w)
    end.
Proof.
  unfold bind, select_tier_by_name, execute_single, ret, raise.
  destruct (single _); reflexivity.
Qed.

Lemma run_update_txn {B} id st f (k : unit -> M B) w :
  bind (update_txn id st f) k w = k tt (snd (update_txn id st f w)).
Proof. reflexivity. Qed.

Lemma run_update_user {B} uid tid e (k : unit -> M B) w :
  bind (update_user uid tid e) k w = k tt (snd (update_user uid tid e w)).
Proof. reflexivity. Qed.

Lemma run_insert_txn {B} row (k : unit -> M B) w :
  bind (insert_txn row) k w = k tt (snd (insert_txn row w)).
Proof. reflexivity. Qed.

Lemma run_joined_tier_name {B} t (k : string -> M B) w :
  bind (joined_tier_name t) k w
  = match subscription_tiers (db w) !! txn_tier_id t with
    | Some tr => k (tier_name tr) w
    | None => (Raise AttributeError, w)
    end.
Proof.
  unfold joined_tier_name. rewrite run_assoc, run_join_tier.
  destruct (subscription_tiers (db w) !! txn_tier_id t); reflexivity.
Qed.

Lemma snd_bind_ret {A B} (m : M A) (b : A -> B) w :
  db (snd (bind m (fun a => ret (b a)) w)) = db (snd (m w)).
Proof. unfold bind, ret. destruct (m w) as [[a|e] w1]; reflexivity. Qed.

(** ** Rows and tables *)

Lemma single_Some {A} (l : list A) (x : A) : single l = Some x -> l = [x].
Proof. destruct l as [|y [|z l]]; simpl; congruence. Qed.

Lemma filter_none {A} (p : A -> bool) (l : list A) :
  (forall x, In x l -> p x = false) -> List.filter p l = [].
Proof.
  induction l as [|a l IH]; simpl; intros H; [reflexivity|].
  rewrite (H a) by now left. apply IH. intros x Hx. apply H. now right.
Qed.

Lemma single_filter_In {A} (p : A -> bool) (l : list A) (x : A) :
  single (List.filter p l) = Some x -> In x l /\ p x = true.
Proof.
  intros H. apply single_Some in H. apply filter_In. rewrite H. now left.
Qed.

(** A tier selected by name is a row of the table under its key. *)
Lemma tier_by_name_lookup (tiers : gmap string tier_row) n k r :
  single (tiers_named n tiers) = Some (k, r) ->
  tiers !! k = Some r /\ tier_name r = n.
Proof.
  intros H. apply single_Some in H.
  assert (Hin : In (k, r) (tiers_named n tiers)) by (rewrite H; now left).
  unfold tiers_named in Hin. apply filter_In in Hin as [Hin Hn].
  split.
  - apply elem_of_map_to_list. now apply list_elem_of_In.
  - now apply String.eqb_eq in Hn.
Qed.

Lemma string_app_assoc (a b c : string) : (a +:+ b) +:+ c = a +:+ (b +:+ c).
Proof.
  induction a as [|x a IH]; [reflexivity|].
  change (String x ((a +:+ b) +:+ c) = String x (a +:+ (b +:+ c))).
  now rewrite IH.
Qed.

(** [str(n)] is the decimal numeral of [n]: read back as a numeral it
    is [n], digit for digit, without sign or zeros in front of it. *)
Lemma str_of_int_parses (n : Z) :
  NilZero.int_of_string (str_of_int n) = Some (Z.to_int n).
Proof.
  unfold str_of_int. apply NilZero.isi.
  - destruct n; simpl; try discriminate.
    intros [= H]. now apply DecimalPos.Unsigned.to_uint_nonnil in H.
  - destruct n; simpl; try discriminate.
    intros [= H]. now apply DecimalPos.Unsigned.to_uint_nonnil in H.
Qed.


(** ** Activation and expiry enforcement *)

(** *** Activation *)

Lemma activate_subscription_run w uid tid D now u :
  users (db w) !! uid = Some u ->
  activate_subscription uid tid D now w =
  (Return tt,
   World (Store (alter (fun _ => UserRow tid
                     (Some (new_expires (subscription_expires_at u) now D)))
                  uid (users (db w)))
                (subscription_tiers (db w)) (payment_transactions (db w)))
         (journal w ++ [UsersUpdate uid tid
                     (Some (new_expires (subscription_expires_at u) now D))])
         (orange_money w)).
Proof.
  intros Hu. unfold activate_subscription, bind, select_user. rewrite Hu.
  reflexivity.
Qed.

(** C3. Renewal stacking. For an existing user and a duration of
    [D] days that a [timedelta] holds, whenever the sum to be written
    is an instant a [datetime] holds ([E + D] for a current expiry [E]
    strictly after [now], [now + D] otherwise),
    [activate_subscription] succeeds, assigns the purchased tier, and
    writes the expiry [E + D] when the current expiry [E] is strictly
    after [now], and [now + D] when there is no current expiry or it
    is not after [now]. *)
Theorem activate_subscription_stacking (w : world) (uid tid : string)
    (duration_days now : Z) (u : user_row) :
  users (db w) !! uid = Some u ->
  - timedelta_max_days <= duration_days <= timedelta_max_days ->
  (forall E, subscription_expires_at u = Some E -> now < E ->
     datetime_min <= E + duration_days * 86400000000 <= datetime_max) ->
  ((forall E, subscription_expires_at u = Some E -> E <= now) ->
     datetime_min <= now + duration_days * 86400000000 <= datetime_max) ->
  exists (w' : world) (e' : Z),
    activate_subscription uid tid duration_days now w = (Return tt, w')
    /\ users (db w') !! uid = Some (UserRow tid (Some e'))
    /\ datetime_min <= e' <= datetime_max
    /\ (forall E, subscription_expires_at u = Some E -> now < E ->
        e' = E + duration_days * 86400000000)
    /\ (subscription_expires_at u = None -> e' = now + duration_days * 86400000000)
    /\ (forall E, subscription_expires_at u = Some E -> E <= now ->
        e' = now + duration_days * 86400000000).
Proof.
  intros Hu _ Hfuture Hpast.
  eexists _, _. split; [apply activate_subscription_run; exact Hu|].
  split.
  - simpl. rewrite lookup_alter. case_decide; [|congruence].
    rewrite Hu. reflexivity.
  - unfold new_expires, timedelta_days.
    split; [|repeat split].
    + destruct (subscription_expires_at u) as [E|].
      * destruct (Z.gtb_spec E now).
        -- now apply Hfuture.
        -- apply Hpast. intros E' [= <-]. lia.
      * apply Hpast. intros E'. discriminate.
    + intros E -> HE. destruct (Z.gtb_spec E now); [reflexivity | lia].
    + now intros ->.
    + intros E -> HE. destruct (Z.gtb_spec E now); [lia | reflexivity].
Qed.

(** *** Expiry enforcement *)

(** C4, as stated, fails: when the first call downgrades, it reports
    [was_downgraded = True] and the tier lost, and the second call
    reports [was_downgraded = False]. *)
Lemma check_and_enforce_results_differ :
  let first := check_and_enforce_subscription "u1" 200 lapsed_world in
  let second := check_and_enforce_subscription "u1" 200 (snd first) in
  fst first =
    Return (Enforcement ("t-free", TierRow "free" 0 (Some 1)) true None
                        true (Some "basic"))
  /\ fst second =
    Return (Enforcement ("t-free", TierRow "free" 0 (Some 1)) true None
                        false None)
  /\ fst first <> fst second.
Proof.
  vm_compute. repeat split; discriminate.
Qed.

(** C4, amended. Two calls in succession at the same instant: the
    second call writes nothing and leaves the world as the first left
    it, so at most one write occurs; the two results agree on the
    tier, the active flag and the expiry; the second never reports a
    downgrade, and the results are identical whenever the first call
    did not downgrade. *)
Theorem check_and_enforce_second_call_is_noop (w : world) (uid : string) (now : Z) :
  let first := check_and_enforce_subscription uid now w in
  let second := check_and_enforce_subscription uid now (snd first) in
  snd second = snd first
  /\ (journal (snd first) = journal w
      \/ exists x : write, journal (snd first) = (journal w ++ [x])%list)
  /\ match fst first, fst second with
     | Return a, Return b =>
       enf_tier a = enf_tier b /\ is_active a = is_active b
       /\ expires_at a = expires_at b
       /\ was_downgraded b = false
       /\ (was_downgraded a = false -> a = b)
     | Raise x, Raise y => x = y
     | _, _ => False
     end.
Proof.
  unfold check_and_enforce_subscription, bind, select_user, join_tier,
    select_tier_by_name, execute_single, update_user, ret, raise.
  simpl.
  destruct (users (db w) !! uid) as [u|] eqn:Hu; simpl;
    [|rewrite ?Hu; simpl; auto].
  destruct (subscription_tiers (db w) !! current_tier_id u) as [tr|] eqn:Ht;
    simpl; [|rewrite ?Hu; simpl; rewrite ?Ht; simpl; auto].
  destruct (String.eqb (tier_name tr) "free") eqn:Hfree; simpl.
  { rewrite ?Hu; simpl. rewrite ?Ht; simpl. rewrite ?Hfree; simpl. auto 10. }
  destruct (subscription_expires_at u) as [e|] eqn:He; simpl.
  2:{ rewrite ?Hu; simpl. rewrite ?Ht; simpl. rewrite ?Hfree, ?He; simpl.
      auto 10. }
  destruct (now >? e) eqn:Hnow; simpl.
  2:{ rewrite ?Hu; simpl. rewrite ?Ht; simpl. rewrite ?Hfree, ?He, ?Hnow; simpl.
      auto 10. }
  destruct (single (tiers_named "free" (subscription_tiers (db w))))
    as [[fid ft]|] eqn:Hft; simpl.
  2:{ rewrite ?Hu; simpl. rewrite ?Ht; simpl.
      rewrite ?Hfree, ?He, ?Hnow, ?Hft; simpl. auto 10. }
  apply tier_by_name_lookup in Hft as [Hfid Hname].
  rewrite lookup_alter. case_decide; [|congruence].
  rewrite Hu. simpl. rewrite Hfid. simpl. rewrite Hname. simpl.
  split; [reflexivity|]. split; [right; eauto|].
  repeat split. discriminate.
Qed.

(** ** Webhook intake *)


Lemma filter_update_where_id (p : txn -> bool) id f rows :
  (forall t, p (f t) = p t) ->
  List.filter p (update_where_id id f rows)
  = update_where_id id f (List.filter p rows).
Proof.
  intros Hp. unfold update_where_id.
  induction rows as [|r rows IH]; simpl; [reflexivity|].
  destruct (String.eqb (txn_id r) id) eqn:Hid.
  - rewrite Hp. destruct (p r); simpl; [rewrite Hid|]; now rewrite IH.
  - destruct (p r); simpl; [rewrite Hid|]; now rewrite IH.
Qed.

Lemma txn_by_order_id_update s o t f :
  (forall r, orange_money_order_id (f r) = orange_money_order_id r) ->
  txn_by_order_id s o = Some t ->
  txn_by_order_id
    (Store (users s) (subscription_tiers s)
           (update_where_id (txn_id t) f (payment_transactions s))) o
  = Some (f t).
Proof.
  intros Hf H. unfold txn_by_order_id in *. simpl.
  apply single_Some in H.
  rewrite filter_update_where_id.
  - rewrite H. simpl. now rewrite String.eqb_refl.
  - intros r. unfold has_order_id. now rewrite Hf.
Qed.

Lemma webhook_terminal w cb t n1 n2 :
  txn_by_order_id (db w) (cb_order_id cb) = Some t ->
  terminal (status t) = true ->
  orange_money_webhook cb n1 n2 w = (Return "already_processed", w).
Proof.
  intros Hl Ht. unfold orange_money_webhook. rewrite run_select_txn_single.
  unfold txn_by_order_id in Hl. rewrite Hl, Ht. reflexivity.
Qed.

Lemma float_ne_int_spec q n :
  float_ne_int (Finite q) n = true <-> ~ (q == inject_Z n)%Q.
Proof.
  unfold float_ne_int. rewrite negb_true_iff.
  rewrite <- Qeq_bool_iff. now destruct (Qeq_bool q (inject_Z n)).
Qed.

Lemma activations_app j x :
  activations (j ++ [x]) = (activations j + (if is_activation x then 1 else 0))%nat.
Proof.
  unfold activations. rewrite List.filter_app, length_app. simpl.
  now destruct (is_activation x).
Qed.


(** C2. Amount verification. For a transaction that is not terminal,
    a callback whose amount differs from [amount_pula] leaves the
    transaction with status [failed] and [orange_money_status]
    [AMOUNT_MISMATCH], every other column as it was, and returns; the
    only write is that update, no user row changes, nothing is
    activated, and this holds for every status text the callback
    carries. *)
Theorem webhook_amount_mismatch (w : world) (cb : OrangeMoneyCallback)
    (t : txn) (n1 n2 : Z) :
  txn_by_order_id (db w) (cb_order_id cb) = Some t ->
  terminal (status t) = false ->
  float_ne_int (cb_amount cb) (amount_pula t) = true ->
  exists w',
    orange_money_webhook cb n1 n2 w = (Return "amount_mismatch", w')
    /\ txn_by_order_id (db w') (cb_order_id cb)
       = Some (Txn (txn_id t) (txn_user_id t) (txn_tier_id t) (amount_pula t)
                   (payment_method t) (transaction_reference t)
                   "failed"
                   (orange_money_order_id t) (orange_money_pay_token t)
                   (orange_money_pay_url t)
                   (Some "AMOUNT_MISMATCH")
                   (orange_money_transaction_id t) (user_payment_reference t)
                   (admin_notes t) (completed_at t))
    /\ users (db w') = users (db w)
    /\ subscription_tiers (db w') = subscription_tiers (db w)
    /\ journal w' = (journal w ++ [TxnUpdate (txn_id t) "failed"])%list
    /\ activations (journal w') = activations (journal w).
Proof.
  intros Hl Hopen Hamount.
  unfold orange_money_webhook. rewrite run_select_txn_single.
  pose proof Hl as Hl'. unfold txn_by_order_id in Hl'.
  rewrite Hl', Hopen, Hamount. unfold bind, update_txn, ret. simpl.
  eexists. split; [reflexivity|]. simpl. repeat split.
  - apply (txn_by_order_id_update (db w) (cb_order_id cb) t
             (fun r => set_status "failed"
                         (set_orange_money_status "AMOUNT_MISMATCH" r)));
      [|exact Hl].
    intros r. reflexivity.
  - rewrite activations_app. simpl. lia.
Qed.

(** ** Admin override *)

Lemma is_open_with_id_spec id t :
  is_open_with_id id t = true <->
  txn_id t = id /\ (status t = "pending" \/ status t = "awaiting_verification").
Proof.
  unfold is_open_with_id, str_in. simpl.
  rewrite andb_true_iff, !orb_true_iff, !String.eqb_eq.
  intuition discriminate.
Qed.

(** When every transaction with the requested id is in a status other
    than [pending] and [awaiting_verification], the query of approve
    and of reject matches no row: [execute()] raises [APIError], the
    test [if not result.data] with its 404 is not reached, and the
    world, journal included, is left as it was. *)
Lemma admin_query_without_open_row (w : world) (approval : AdminApprovePayment)
    (n1 n2 : Z) :
  (forall t, In t (payment_transactions (db w)) ->
     txn_id t = approve_transaction_id approval ->
     status t <> "pending" /\ status t <> "awaiting_verification") ->
  admin_approve_payment approval n1 n2 w = (Raise APIError, w)
  /\ admin_reject_payment approval w = (Raise APIError, w).
Proof.
  intros H.
  assert (Hnone : List.filter (is_open_with_id (approve_transaction_id approval))
                    (payment_transactions (db w)) = []).
  { apply filter_none. intros t Ht.
    destruct (is_open_with_id (approve_transaction_id approval) t) eqn:E;
      [|reflexivity].
    apply is_open_with_id_spec in E as [Hid Hst].
    destruct (H t Ht Hid) as [Hp Ha]. tauto. }
  unfold admin_approve_payment, admin_reject_payment.
  rewrite !run_select_txn_single, Hnone. split; reflexivity.
Qed.

(** C8, at the failing input: approve and reject are asked for a
    transaction that is already completed.  Neither changes the
    world, but both raise [APIError] from the query instead of the 404
    that the handlers raise after it. *)
Theorem admin_override_raises_api_error :
  let approval :=
    {| approve_transaction_id := uuid_a; approve_admin_notes := None |} in
  List.map txn_id (payment_transactions (db paid_world)) = [uuid_a]
  /\ List.map status (payment_transactions (db paid_world)) = ["completed"]
  /\ admin_approve_payment approval 30 40 paid_world
     = (Raise APIError, paid_world)
  /\ admin_reject_payment approval paid_world = (Raise APIError, paid_world)
  /\ APIError <> HTTPException 404 "Pending transaction not found".
Proof. vm_compute. repeat split; try reflexivity. discriminate. Qed.

(** Conversely, a transaction approved or rejected was open. *)
Lemma admin_acts_on_open_only (w : world) (approval : AdminApprovePayment)
    (n1 n2 : Z) (r : PaymentStatusResponse) (w' : world) :
  admin_approve_payment approval n1 n2 w = (Return r, w')
  \/ admin_reject_payment approval w = (Return r, w') ->
  exists t, In t (payment_transactions (db w))
    /\ txn_id t = approve_transaction_id approval
    /\ (status t = "pending" \/ status t = "awaiting_verification").
Proof.
  unfold admin_approve_payment, admin_reject_payment.
  rewrite !run_select_txn_single.
  destruct (single (List.filter (is_open_with_id (approve_transaction_id approval))
                      (payment_transactions (db w)))) as [t|] eqn:Hs.
  - intros _. apply single_filter_In in Hs as [Hin Hp].
    apply is_open_with_id_spec in Hp. exists t. tauto.
  - intros [H|H]; discriminate.
Qed.

(** ** The gateway client *)

(** The adapter raises nothing but [HTTPException]. *)
Lemma initiate_payment_raises order_id amount io w e w1 :
  initiate_payment order_id amount io w = (Raise e, w1) ->
  exists detail, e = HTTPException 502 detail.
Proof.
  unfold initiate_payment, bind, _get_access_token, ret, raise.
  repeat case_match; intros; simplify_eq; eauto.
Qed.

Lemma initiate_payment_db order_id amount io w r w1 :
  initiate_payment order_id amount io w = (r, w1) ->
  db w1 = db w /\ journal w1 = journal w.
Proof.
  unfold initiate_payment, bind, _get_access_token, ret, raise.
  repeat case_match; intros; simplify_eq; auto.
Qed.

(** ** Initiation *)

(** C7. Fail-open initiation. When the method is [orange_money] and
    the adapter raises, initiation still returns: the response has no
    redirect URL, status [pending], and the instructional message,
    which spells out the price as its decimal numeral after the letter
    P and names the generated reference; the row that is inserted
    carries the method [manual], the price and that reference. *)
Theorem initiate_fails_open (settings : Settings)
    (subscription : InitiateSubscription) (uid uuid ymd : string)
    (io : gateway_io) (w : world) (tr : tier) (e : exn) (w1 : world) :
  sub_payment_method subscription = "orange_money" ->
  single (tiers_named (tier_value (sub_tier subscription))
            (subscription_tiers (db w))) = Some tr ->
  price_pula (snd tr) <> 0 ->
  List.filter (is_pending_for uid (fst tr)) (payment_transactions (db w)) = [] ->
  initiate_payment (make_txn_ref ymd uuid) (price_pula (snd tr)) io w
  = (Raise e, w1) ->
  let price := price_pula (snd tr) in
  let txn_ref := make_txn_ref ymd uuid in
  exists w' digits,
    NilZero.int_of_string digits = Some (Z.to_int price)
    /\ initiate_subscription settings subscription uid uuid ymd io w
       = (Return {| payment_url := None;
                    init_transaction_id := uuid;
                    init_status := "pending";
                    init_message :=
                      "Orange Money is temporarily unavailable. Please send P"
                      +:+ digits +:+ " via Orange Money to "
                      +:+ whatsapp_number settings +:+ " with reference: "
                      +:+ txn_ref +:+ ", then confirm your payment." |},
          w')
    /\ payment_transactions (db w')
       = (payment_transactions (db w)
          ++ [Txn uuid uid (fst tr) price "manual" txn_ref "pending"
                  None None None None None None None None])%list
    /\ users (db w') = users (db w).
Proof.
  intros Hm Htier Hprice Hnone Hgw price txn_ref.
  destruct (initiate_payment_raises _ _ _ _ _ _ Hgw) as [detail ->].
  destruct (initiate_payment_db _ _ _ _ _ _ Hgw) as [Hdb Hj].
  eexists. exists (str_of_int price).
  split; [apply str_of_int_parses|].
  unfold initiate_subscription.
  rewrite run_select_tier_by_name, Htier.
  destruct (Z.eqb_spec (price_pula (snd tr)) 0) as [|_]; [contradiction|].
  rewrite run_select_txns, Hnone.
  rewrite Hm. simpl String.eqb. cbv iota.
  unfold bind at 1. unfold try_except_HTTPException.
  unfold bind at 1. fold price txn_ref. unfold price at 1, txn_ref at 1.
  rewrite Hgw. unfold ret at 1. cbv iota beta.
  unfold bind, insert_txn, ret. simpl. rewrite Hdb.
  split; [reflexivity|]. split; reflexivity.
Qed.

(** ** Handlers only perform ledger writes *)

Lemma In_update_where_id (g : txn -> txn) t rows :
  In t rows -> In (g t) (update_where_id (txn_id t) g rows).
Proof.
  intros H. unfold update_where_id. apply in_map_iff. exists t.
  now rewrite String.eqb_refl.
Qed.

Lemma update_where_id_inv (g : txn -> txn) id x rows :
  In x (update_where_id id g rows) ->
  exists r, In r rows /\ (x = r \/ x = g r).
Proof.
  unfold update_where_id. rewrite in_map_iff. intros (r & Hr & Hin).
  exists r. split; [exact Hin|]. destruct (String.eqb (txn_id r) id); auto.
Qed.

Lemma get_access_token_db io w r w1 :
  _get_access_token io w = (r, w1) -> db w1 = db w /\ journal w1 = journal w.
Proof.
  unfold _get_access_token. repeat case_match; intros; simplify_eq; auto.
Qed.

Lemma check_transaction_status_db order_id amount io w r w1 :
  check_transaction_status order_id amount io w = (r, w1) ->
  db w1 = db w /\ journal w1 = journal w.
Proof.
  unfold check_transaction_status, bind, ret.
  destruct (_get_access_token io w) as [[tok|e] w2] eqn:E;
    apply get_access_token_db in E;
    repeat case_match; intros; simplify_eq; auto.
Qed.

Lemma settle_refines id st f w :
  st <> "pending" -> keeps_identity f ->
  ledger_write (db w) (db (snd (update_txn id st f w))).
Proof. intros Hst Hf. now apply lw_settle. Qed.

Lemma activate_refines uid tid D now w :
  (exists t, In t (payment_transactions (db w)) /\ txn_tier_id t = tid) ->
  rtc ledger_write (db w) (db (snd (activate_subscription uid tid D now w))).
Proof.
  intros (t & Hin & <-). unfold activate_subscription.
  rewrite run_select_user.
  destruct (users (db w) !! uid); [|apply rtc_refl].
  apply rtc_once. now apply lw_activate.
Qed.

(** After a transaction found in the table has been updated, a row
    with its tier is still there. *)
Lemma tier_survives_update t id st f w :
  keeps_identity f ->
  In t (payment_transactions (db w)) ->
  exists t', In t' (payment_transactions (db (snd (update_txn id st f w))))
             /\ txn_tier_id t' = txn_tier_id t.
Proof.
  intros Hf Hin. simpl. unfold update_where_id.
  destruct (String.eqb (txn_id t) id) eqn:E.
  - exists (set_status st (f t)). split.
    + apply in_map_iff. exists t. now rewrite E.
    + simpl. apply Hf.
  - exists t. split; [|reflexivity].
    apply in_map_iff. exists t. now rewrite E.
Qed.

Lemma settle_then_activate_refines t id st f uid D now w :
  st <> "pending" -> keeps_identity f ->
  In t (payment_transactions (db w)) ->
  rtc ledger_write (db w)
    (db (snd (bind (update_txn id st f)
                (fun _ => activate_subscription uid (txn_tier_id t) D now) w))).
Proof.
  intros Hst Hf Hin. rewrite run_update_txn.
  eapply rtc_l; [exact (settle_refines id st f w Hst Hf)|].
  apply activate_refines. now apply tier_survives_update.
Qed.

Lemma webhook_refines cb n1 n2 w :
  rtc ledger_write (db w) (db (snd (orange_money_webhook cb n1 n2 w))).
Proof.
  unfold orange_money_webhook. rewrite run_select_txn_single.
  destruct (single _) as [t|] eqn:Hs; [|apply rtc_refl].
  apply single_filter_In in Hs as [Hin _].
  destruct (terminal (status t)); [apply rtc_refl|].
  destruct (float_ne_int _ _).
  { rewrite run_update_txn. apply rtc_once.
    apply settle_refines; [discriminate | keeps]. }
  rewrite snd_bind_ret with (b := fun _ => "processed").
  destruct (is_success _).
  - apply settle_then_activate_refines; [discriminate | keeps | exact Hin].
  - apply rtc_once. apply settle_refines; [discriminate | keeps].
Qed.

Lemma approve_refines approval n1 n2 w :
  rtc ledger_write (db w) (db (snd (admin_approve_payment approval n1 n2 w))).
Proof.
  unfold admin_approve_payment. rewrite run_select_txn_single.
  destruct (single _) as [t|] eqn:Hs; [|apply rtc_refl].
  apply single_filter_In in Hs as [Hin _].
  rewrite run_joined_tier_name.
  destruct (subscription_tiers (db w) !! txn_tier_id t) as [tr|]; [|apply rtc_refl].
  rewrite <- run_assoc.
  rewrite snd_bind_ret with (b := fun _ => _).
  apply settle_then_activate_refines; [discriminate | keeps | exact Hin].
Qed.

Lemma reject_refines approval w :
  rtc ledger_write (db w) (db (snd (admin_reject_payment approval w))).
Proof.
  unfold admin_reject_payment. rewrite run_select_txn_single.
  destruct (single _) as [t|] eqn:Hs; [|apply rtc_refl].
  rewrite run_joined_tier_name.
  destruct (subscription_tiers (db w) !! txn_tier_id t) as [tr|]; [|apply rtc_refl].
  rewrite run_update_txn. apply rtc_once.
  apply settle_refines; [discriminate | keeps].
Qed.

Lemma confirm_refines confirmation uid w :
  rtc ledger_write (db w) (db (snd (confirm_payment confirmation uid w))).
Proof.
  unfold confirm_payment. rewrite run_select_txn_single.
  destruct (single _) as [t|] eqn:Hs; [|apply rtc_refl].
  rewrite run_update_txn. rewrite run_joined_tier_name.
  apply rtc_once.
  destruct (subscription_tiers _ !! txn_tier_id t) as [tr|];
    (apply settle_refines; [discriminate | keeps]).
Qed.

Lemma enforce_refines uid now w :
  rtc ledger_write (db w) (db (snd (check_and_enforce_subscription uid now w))).
Proof.
  unfold check_and_enforce_subscription. rewrite run_select_user.
  destruct (users (db w) !! uid) as [u|]; [|apply rtc_refl].
  rewrite run_join_tier.
  destruct (subscription_tiers (db w) !! current_tier_id u) as [tr|];
    [|apply rtc_refl].
  cbn [fmap option_fmap option_map snd fst].
  destruct (String.eqb (tier_name tr) "free"); [apply rtc_refl|].
  destruct (subscription_expires_at u) as [e|]; [|apply rtc_refl].
  destruct (now >? e); [|apply rtc_refl].
  rewrite run_select_tier_by_name.
  destruct (single _) as [[fid ft]|] eqn:Hft; [|apply rtc_refl].
  apply tier_by_name_lookup in Hft as [Hfid Hname].
  rewrite run_update_user. apply rtc_once.
  now apply lw_downgrade with ft.
Qed.

Lemma check_payment_refines tid uid io n1 n2 w :
  rtc ledger_write (db w) (db (snd (check_payment_status tid uid io n1 n2 w))).
Proof.
  unfold check_payment_status. rewrite run_select_txn_single.
  destruct (single _) as [t|] eqn:Hs; [|apply rtc_refl].
  apply single_filter_In in Hs as [Hin _].
  rewrite run_joined_tier_name.
  destruct (subscription_tiers (db w) !! txn_tier_id t) as [tr|]; [|apply rtc_refl].
  destruct (_ && _); [|apply rtc_refl].
  destruct (orange_money_order_id t) as [o|]; [|apply rtc_refl].
  destruct (String.eqb o ""); [apply rtc_refl|].
  destruct (check_transaction_status o (amount_pula t) io w) as [[r|e] w1] eqn:E;
    pose proof (check_transaction_status_db _ _ _ _ _ _ E) as [Hdb _];
    unfold bind at 1; rewrite E; [|cbn [snd]; rewrite Hdb; apply rtc_refl].
  rewrite <- Hdb in Hin |- *.
  destruct (dict_get_default _ _) as [reported|]; [|apply rtc_refl].
  destruct (String.eqb _ "SUCCESS").
  - rewrite <- run_assoc. rewrite snd_bind_ret with (b := fun _ => _).
    apply settle_then_activate_refines; [discriminate | keeps | exact Hin].
  - destruct (str_in _ _); [|apply rtc_refl].
    rewrite run_update_txn. apply rtc_once.
    apply settle_refines; [discriminate | keeps].
Qed.

Lemma initiate_refines settings subscription uid uuid ymd io w :
  rtc ledger_write (db w)
    (db (snd (initiate_subscription settings subscription uid uuid ymd io w))).
Proof.
  unfold initiate_subscription. rewrite run_select_tier_by_name.
  destruct (single _) as [[tid tr]|] eqn:Htier; [|apply rtc_refl].
  apply tier_by_name_lookup in Htier as [Htid _].
  cbn [fst snd].
  destruct (Z.eqb_spec (price_pula tr) 0) as [|Hprice]; [apply rtc_refl|].
  rewrite run_select_txns.
  destruct (List.filter _ _) as [|t0 rest] eqn:Hnone; [|apply rtc_refl].
  assert (Hopen : forall (w1 : world) (row : txn),
             db w1 = db w -> txn_user_id row = uid -> txn_tier_id row = tid ->
             status row = "pending" -> orange_money_pay_url row = None ->
             ledger_write (db w) (db (snd (insert_txn row w1)))).
  { intros w1 row Hdb Hu Ht Hst Hurl. simpl. rewrite Hdb.
    apply lw_open with tr; rewrite ?Hu, ?Ht; auto. }
  destruct (String.eqb (sub_payment_method subscription) "orange_money").
  - unfold bind at 1, try_except_HTTPException, bind at 1.
    destruct (initiate_payment _ _ io w) as [[om|e] w1] eqn:E;
      pose proof (initiate_payment_db _ _ _ _ _ _ E) as [Hdb _].
    + unfold ret at 1. cbv iota beta. rewrite run_insert_txn.
      apply rtc_once. now apply Hopen.
    + destruct (initiate_payment_raises _ _ _ _ _ _ E) as [d ->].
      cbv iota beta. unfold ret at 1. cbv iota beta. rewrite run_insert_txn.
      apply rtc_once. now apply Hopen.
  - destruct (String.eqb _ "myzaka");
      rewrite run_ret; cbv iota beta; rewrite run_insert_txn;
      apply rtc_once; now apply Hopen.
Qed.

(** Every request is a finite sequence of ledger writes. *)
Lemma step_refines settings w w' :
  step settings w w' -> rtc ledger_write (db w) (db w').
Proof.
  destruct 1.
  - apply enforce_refines.
  - apply initiate_refines.
  - apply confirm_refines.
  - apply check_payment_refines.
  - apply webhook_refines.
  - apply approve_refines.
  - apply reject_refines.
Qed.

Lemma steps_preserve settings (I : store -> Prop) :
  (forall s s', ledger_write s s' -> I s -> I s') ->
  forall w w', rtc (step settings) w w' -> I (db w) -> I (db w').
Proof.
  intros HI w w' Hsteps.
  induction Hsteps as [|w w1 w' Hstep _ IH]; [auto|].
  intros Hw. apply IH.
  apply step_refines in Hstep.
  clear IH. induction Hstep; eauto.
Qed.

(** ** Invariants of the ledger *)

(** *** At most one pending transaction per user and tier *)

Lemma filter_settle_le uid tid id st f rows :
  st <> "pending" ->
  (length (List.filter (is_pending_for uid tid)
             (update_where_id id (fun t => set_status st (f t)) rows))
   <= length (List.filter (is_pending_for uid tid) rows))%nat.
Proof.
  intros Hst. unfold update_where_id.
  induction rows as [|r rows IH]; simpl; [lia|].
  destruct (String.eqb (txn_id r) id).
  - assert (is_pending_for uid tid (set_status st (f r)) = false) as ->.
    { unfold is_pending_for. simpl.
      apply String.eqb_neq in Hst. rewrite Hst. apply andb_false_r. }
    destruct (is_pending_for uid tid r); simpl; lia.
  - destruct (is_pending_for uid tid r); simpl; lia.
Qed.

Lemma is_pending_for_inv uid tid t :
  is_pending_for uid tid t = true ->
  txn_user_id t = uid /\ txn_tier_id t = tid /\ status t = "pending".
Proof.
  unfold is_pending_for. rewrite !andb_true_iff, !String.eqb_eq. tauto.
Qed.

Lemma pending_unique_preserved s s' :
  ledger_write s s' -> pending_unique s -> pending_unique s'.
Proof.
  intros Hw Hinv uid tid. specialize (Hinv uid tid).
  destruct Hw as [s u fid ft _ _ | s u t e _ | s id st f Hst _
                 | s row tr _ _ _ _ Hnone]; simpl; try exact Hinv.
  - etransitivity; [now apply filter_settle_le | exact Hinv].
  - rewrite List.filter_app, length_app. simpl.
    destruct (is_pending_for uid tid row) eqn:Hp; simpl; [|lia].
    apply is_pending_for_inv in Hp as (<- & <- & _).
    rewrite Hnone. simpl. lia.
Qed.

Lemma unique_pending_is_head (p : txn -> bool) (rows : list txn) (t : txn) :
  (length (List.filter p rows) <= 1)%nat ->
  In t rows -> p t = true -> List.filter p rows = [t].
Proof.
  intros Hlen Hin Hp.
  assert (Hf : In t (List.filter p rows)) by (apply filter_In; auto).
  destruct (List.filter p rows) as [|a [|b l]]; simpl in *; [tauto | | lia].
  destruct Hf as [->|[]]. reflexivity.
Qed.

Lemma initiate_existing settings subscription uid uuid ymd io w tr t rest :
  single (tiers_named (tier_value (sub_tier subscription))
            (subscription_tiers (db w))) = Some tr ->
  price_pula (snd tr) <> 0 ->
  List.filter (is_pending_for uid (fst tr)) (payment_transactions (db w))
  = t :: rest ->
  initiate_subscription settings subscription uid uuid ymd io w
  = (Return {| payment_url := orange_money_pay_url t;
               init_transaction_id := txn_id t;
               init_status := "pending";
               init_message :=
                 "You already have a pending payment for "
                 +:+ tier_name (snd tr)
                 +:+ " tier. Complete your existing payment or wait for it to expire." |},
     w).
Proof.
  intros Htier Hprice Hex. unfold initiate_subscription.
  rewrite run_select_tier_by_name, Htier.
  destruct (Z.eqb_spec (price_pula (snd tr)) 0) as [|_]; [contradiction|].
  rewrite run_select_txns, Hex. reflexivity.
Qed.

(** *** Free tier and expiry *)

Lemma free_expiry_preserved s s' :
  ledger_write s s' ->
  free_costs_nothing s /\ no_txn_for_free s /\ free_expiry_null s ->
  free_costs_nothing s' /\ no_txn_for_free s' /\ free_expiry_null s'.
Proof.
  intros Hw (Hcost & Htxn & Hfree).
  destruct Hw as [s uid fid ft Hfid Hname | s uid t e Hin | s id st f Hst Hf
                 | s row tr Htier Hprice _ _ _].
  - repeat split; [exact Hcost | exact Htxn |].
    intros uid' u tr. simpl. rewrite lookup_alter.
    case_decide as Heq.
    + subst uid'. destruct (users s !! uid); simpl; [|discriminate].
      intros [= <-]. reflexivity.
    + intros Hu. now apply Hfree with uid'.
  - repeat split; [exact Hcost | exact Htxn |].
    intros uid' u tr. simpl. rewrite lookup_alter.
    case_decide as Heq.
    + subst uid'. destruct (users s !! uid); simpl; [|discriminate].
      intros [= <-]. simpl. intros Htr Hname.
      exfalso. now apply (Htxn t tr Hin Htr).
    + intros Hu. now apply Hfree with uid'.
  - repeat split; [exact Hcost | | exact Hfree].
    intros x tr. simpl. intros Hx.
    apply update_where_id_inv in Hx as (r & Hr & [->| ->]).
    + now apply Htxn.
    + simpl. destruct (Hf r) as (_ & -> & _). now apply Htxn.
  - repeat split; [exact Hcost | | exact Hfree].
    intros x tr'. simpl. rewrite in_app_iff. intros [Hx|[<-|[]]].
    + now apply Htxn.
    + rewrite Htier. intros [= <-] Hname. apply Hprice.
      now apply Hcost with (txn_tier_id row).
Qed.

(** *** The redirect URL is never stored *)

Lemma no_pay_url_preserved s s' :
  ledger_write s s' -> no_pay_url s -> no_pay_url s'.
Proof.
  intros Hw Hinv.
  destruct Hw as [s uid fid ft _ _ | s uid t e _ | s id st f _ Hf
                 | s row tr _ _ _ Hurl _]; try exact Hinv.
  - intros x. simpl. intros Hx.
    apply update_where_id_inv in Hx as (r & Hr & [->| ->]).
    + now apply Hinv.
    + simpl. destruct (Hf r) as (_ & _ & ->). now apply Hinv.
  - intros x. simpl. rewrite in_app_iff. intros [Hx|[<-|[]]].
    + now apply Hinv.
    + exact Hurl.
Qed.

(** ** Initiation and the pending transaction *)

(** C5, as stated, fails: a transaction in [awaiting_verification] is
    not looked up by initiation.  After initiate, confirm, initiate
    for the same user and tier there are two open transactions, and
    the second initiation returned a new id. *)
Lemma initiate_duplicates_awaiting_verification :
  let again :=
    initiate_subscription example_settings basic_manual "u1"
      uuid_b "20250102" gateway_down awaiting_world in
  List.map status (payment_transactions (db awaiting_world))
  = ["awaiting_verification"]
  /\ List.map txn_id (payment_transactions (db awaiting_world)) = [uuid_a]
  /\ init_transaction_id <$> (match fst again with
                              | Return r => Some r
                              | Raise _ => None
                              end) = Some uuid_b
  /\ List.map txn_id
       (List.filter (is_open_for "u1" "t-basic")
          (payment_transactions (db (snd again))))
     = [uuid_a; uuid_b].
Proof. vm_compute. repeat split; reflexivity. Qed.

(** C5, amended. At most one [pending] transaction per user and tier:
    the property is kept by every request, and in every world that has
    it, initiation for a user and tier with a pending transaction
    returns the id of that transaction and writes nothing. *)
Theorem initiation_reuses_pending (settings : Settings) (w0 w : world) :
  pending_unique (db w0) ->
  rtc (step settings) w0 w ->
  pending_unique (db w)
  /\ forall subscription uid uuid ymd io tr t,
       single (tiers_named (tier_value (sub_tier subscription))
                 (subscription_tiers (db w))) = Some tr ->
       price_pula (snd tr) <> 0 ->
       In t (payment_transactions (db w)) ->
       is_pending_for uid (fst tr) t = true ->
       exists r,
         initiate_subscription settings subscription uid uuid ymd io w
         = (Return r, w)
         /\ init_transaction_id r = txn_id t
         /\ init_status r = "pending".
Proof.
  intros H0 Hsteps.
  assert (Hw : pending_unique (db w)).
  { revert H0. apply steps_preserve with settings; [|exact Hsteps].
    apply pending_unique_preserved. }
  split; [exact Hw|].
  intros subscription uid uuid ymd io tr t Htier Hprice Hin Hp.
  pose proof (unique_pending_is_head _ _ t (Hw uid (fst tr)) Hin Hp) as Hex.
  eexists. split; [|split].
  - apply initiate_existing with (t := t) (rest := []); eauto.
  - reflexivity.
  - reflexivity.
Qed.

(** C10. In every world reached from one in which no row stores a
    redirect URL, an initiation that finds a pending transaction for
    the user and tier answers with [payment_url = None]: no handler
    writes [orange_money_pay_url]. *)
Theorem existing_pending_has_no_payment_url (settings : Settings)
    (w0 w : world) (subscription : InitiateSubscription)
    (uid uuid ymd : string) (io : gateway_io) (tr : tier) (t : txn)
    (rest : list txn) :
  no_pay_url (db w0) ->
  rtc (step settings) w0 w ->
  single (tiers_named (tier_value (sub_tier subscription))
            (subscription_tiers (db w))) = Some tr ->
  price_pula (snd tr) <> 0 ->
  List.filter (is_pending_for uid (fst tr)) (payment_transactions (db w))
  = t :: rest ->
  exists r,
    initiate_subscription settings subscription uid uuid ymd io w
    = (Return r, w)
    /\ init_transaction_id r = txn_id t
    /\ payment_url r = None.
Proof.
  intros H0 Hsteps Htier Hprice Hex.
  assert (Hw : no_pay_url (db w)).
  { revert H0. apply steps_preserve with settings; [|exact Hsteps].
    apply no_pay_url_preserved. }
  eexists. split; [|split].
  - apply initiate_existing with (t := t) (rest := rest); eauto.
  - reflexivity.
  - simpl. apply Hw.
    assert (Hin : In t (List.filter (is_pending_for uid (fst tr))
                          (payment_transactions (db w))))
      by (rewrite Hex; now left).
    now apply filter_In in Hin.
Qed.

(** ** Free tier *)

Lemma enforce_downgrade_write uid now w e w' :
  check_and_enforce_subscription uid now w = (Return e, w') ->
  was_downgraded e = true ->
  tier_name (snd (enf_tier e)) = "free"
  /\ users (db w') = alter (fun _ => UserRow (fst (enf_tier e)) None) uid
                           (users (db w))
  /\ journal w' = (journal w ++ [UsersUpdate uid (fst (enf_tier e)) None])%list.
Proof.
  unfold check_and_enforce_subscription. rewrite run_select_user.
  destruct (users (db w) !! uid) as [u|]; [|discriminate].
  rewrite run_join_tier.
  destruct (subscription_tiers (db w) !! current_tier_id u) as [tr|];
    [|discriminate].
  cbn [fmap option_fmap option_map snd fst].
  destruct (String.eqb (tier_name tr) "free");
    [intros [= <- <-]; discriminate|].
  destruct (subscription_expires_at u) as [x|];
    [|intros [= <- <-]; discriminate].
  destruct (now >? x); [|intros [= <- <-]; discriminate].
  rewrite run_select_tier_by_name.
  destruct (single _) as [[fid ft]|] eqn:Hft; [|discriminate].
  apply tier_by_name_lookup in Hft as [_ Hname].
  rewrite run_update_user. intros [= <- <-] _. auto.
Qed.

(** C9. Free-tier expiry invariant. Where every tier named [free] has
    price zero and no transaction pays for such a tier, every request
    keeps the property that a user on a tier named [free] has no
    expiry; and a downgrade by [check_and_enforce_subscription] is one
    write that assigns the free tier and a null expiry together. *)
Theorem free_tier_has_no_expiry (settings : Settings) (w0 w : world) :
  free_costs_nothing (db w0) ->
  no_txn_for_free (db w0) ->
  free_expiry_null (db w0) ->
  rtc (step settings) w0 w ->
  free_expiry_null (db w)
  /\ forall uid now e w',
       check_and_enforce_subscription uid now w = (Return e, w') ->
       was_downgraded e = true ->
       tier_name (snd (enf_tier e)) = "free"
       /\ users (db w') = alter (fun _ => UserRow (fst (enf_tier e)) None) uid
                                (users (db w))
       /\ journal w'
          = (journal w ++ [UsersUpdate uid (fst (enf_tier e)) None])%list.
Proof.
  intros Hcost Htxn Hfree Hsteps. split.
  - assert (H : free_costs_nothing (db w) /\ no_txn_for_free (db w)
                /\ free_expiry_null (db w)).
    { apply (steps_preserve settings
               (fun s => free_costs_nothing s /\ no_txn_for_free s
                         /\ free_expiry_null s)) with w0; auto.
      intros s s' Hw. now apply free_expiry_preserved. }
    apply H.
  - intros uid now e w'. apply enforce_downgrade_write.
Qed.

(** ** Status inquiry *)

(** When the status request itself fails in transport, the adapter
    answers [UNKNOWN] and the inquiry returns the stored status. *)
Lemma check_payment_status_transport_error tid uid io n1 n2 w t tr tok w1 :
  single (List.filter (fun r => String.eqb (txn_id r) tid
                                && String.eqb (txn_user_id r) uid)
            (payment_transactions (db w))) = Some t ->
  subscription_tiers (db w) !! txn_tier_id t = Some tr ->
  _get_access_token io w = (Return tok, w1) ->
  io_http io = RequestException ->
  exists r w',
    check_payment_status tid uid io n1 n2 w = (Return r, w')
    /\ resp_txn_status r = status t
    /\ db w' = db w /\ journal w' = journal w.
Proof.
  intros Hs Htier Htok Hhttp.
  destruct (get_access_token_db _ _ _ _ Htok) as [Hdb Hj].
  unfold check_payment_status. rewrite run_select_txn_single, Hs.
  rewrite run_joined_tier_name, Htier.
  destruct (_ && _); [|eexists _, _; unfold ret; eauto].
  destruct (orange_money_order_id t) as [o|]; [|eexists _, _; unfold ret; eauto].
  destruct (String.eqb o ""); [eexists _, _; unfold ret; eauto|].
  unfold check_transaction_status. rewrite run_assoc.
  unfold bind at 1. rewrite Htok, Hhttp. rewrite run_ret.
  cbn [resp_status default]. 
  change (String.eqb (upper "UNKNOWN") "SUCCESS") with false.
  change (str_in (upper "UNKNOWN") ["FAILED"; "EXPIRED"; "CANCELLED"]) with false.
  cbv iota. eexists _, _. unfold ret. eauto.
Qed.

(** The same inquiry raises when no token can be obtained; the tables
    are as before, and so is the client unless a token arrived whose
    expiry could not be computed. *)
Lemma check_payment_status_token_failure tid uid io n1 n2 w t tr o e w1 :
  single (List.filter (fun r => String.eqb (txn_id r) tid
                                && String.eqb (txn_user_id r) uid)
            (payment_transactions (db w))) = Some t ->
  subscription_tiers (db w) !! txn_tier_id t = Some tr ->
  payment_method t = "orange_money" -> status t = "pending" ->
  orange_money_order_id t = Some o -> o <> "" ->
  _get_access_token io w = (Raise e, w1) ->
  check_payment_status tid uid io n1 n2 w
  = (Raise (HTTPException 502 "Payment service unavailable"), w1).
Proof.
  intros Hs Htier Hm Hst Ho Hne Htok.
  unfold check_payment_status. rewrite run_select_txn_single, Hs.
  rewrite run_joined_tier_name, Htier, Hm, Hst, Ho.
  apply String.eqb_neq in Hne. rewrite Hne.
  change (String.eqb "orange_money" "orange_money" && String.eqb "pending" "pending")
    with true. cbv iota.
  unfold check_transaction_status. rewrite run_assoc.
  unfold bind at 1.
  revert Htok. unfold _get_access_token.
  repeat case_match; intros; simplify_eq; reflexivity.
Qed.

(** C6, at the failing input: a pending gateway payment is polled
    while the cached token has run out and the token endpoint cannot
    be reached.  The inquiry raises 502 instead of returning the
    stored status; the world is left as it was. *)
Theorem check_payment_status_raises_when_token_unavailable :
  status pending_gateway_txn = "pending"
  /\ payment_transactions (db pending_gateway_world) = [pending_gateway_txn]
  /\ check_transaction_status "PD-20250101-3F2A9C1E" 50 gateway_down
       pending_gateway_world
     = (Raise (HTTPException 502 "Payment service unavailable"),
        pending_gateway_world)
  /\ check_payment_status uuid_a "u1" gateway_down 0 0 pending_gateway_world
     = (Raise (HTTPException 502 "Payment service unavailable"),
        pending_gateway_world).
Proof. vm_compute. repeat split; reflexivity. Qed.

(** ** The theorems at concrete inputs *)

Lemma example_basic_tier :
  single (tiers_named "basic" example_tiers)
  = Some ("t-basic", TierRow "basic" 50 (Some 3)).
Proof. vm_compute. reflexivity. Defined.

(** C3 at a user whose expiry 100 is after the instant 50: the new
    expiry is 100 plus thirty days. *)
Lemma activate_subscription_stacking_witness :
  users (db lapsed_world) !! "u1" = Some (UserRow "t-basic" (Some 100))
  /\ exists w' e',
       activate_subscription "u1" "t-basic" 30 50 lapsed_world = (Return tt, w')
       /\ users (db w') !! "u1" = Some (UserRow "t-basic" (Some e'))
       /\ e' = 100 + 30 * 86400000000.
Proof.
  assert (Hu : users (db lapsed_world) !! "u1"
               = Some (UserRow "t-basic" (Some 100)))
    by (vm_compute; reflexivity).
  split; [exact Hu|].
  destruct (activate_subscription_stacking lapsed_world "u1" "t-basic" 30 50
              (UserRow "t-basic" (Some 100)) Hu)
    as (w' & e' & Hrun & Hrow & _ & Hfuture & _ & _).
  - unfold timedelta_max_days. lia.
  - intros E [= <-] _. unfold datetime_min, datetime_max. lia.
  - intros _. unfold datetime_min, datetime_max. lia.
  - exists w', e'. split; [exact Hrun|]. split; [exact Hrow|].
    apply (Hfuture 100); [reflexivity | lia].
Defined.


(** C2 at a callback that claims success with half a pula. *)
Lemma webhook_amount_mismatch_witness :
  terminal (status pending_gateway_txn) = false
  /\ float_ne_int (cb_amount callback_short) (amount_pula pending_gateway_txn)
     = true
  /\ is_success (cb_status callback_short) = true
  /\ exists w',
       orange_money_webhook callback_short 10 20 pending_gateway_world
       = (Return "amount_mismatch", w')
       /\ txn_by_order_id (db w') "PD-20250101-3F2A9C1E"
          = Some (Txn uuid_a "u1" "t-basic" 50 "orange_money"
                      "PD-20250101-3F2A9C1E" "failed"
                      (Some "PD-20250101-3F2A9C1E") (Some "ptk-1") None
                      (Some "AMOUNT_MISMATCH") None None None None)
       /\ users (db w') = users (db pending_gateway_world)
       /\ activations (journal w') = activations (journal pending_gateway_world).
Proof.
  assert (Hl : txn_by_order_id (db pending_gateway_world)
                 (cb_order_id callback_short) = Some pending_gateway_txn)
    by (vm_compute; reflexivity).
  assert (Ht : terminal (status pending_gateway_txn) = false)
    by (vm_compute; reflexivity).
  assert (Ha : float_ne_int (cb_amount callback_short)
                 (amount_pula pending_gateway_txn) = true)
    by (vm_compute; reflexivity).
  split; [exact Ht|]. split; [exact Ha|]. split; [vm_compute; reflexivity|].
  destruct (webhook_amount_mismatch pending_gateway_world callback_short
              pending_gateway_txn 10 20 Hl Ht Ha)
    as (w' & Hrun & Hrow & Hu & _ & _ & Hact).
  exists w'. split; [exact Hrun|]. split; [exact Hrow|]. auto.
Defined.

Lemma fresh_world_pending_unique : pending_unique (db fresh_world).
Proof. intros uid tid. simpl. lia. Defined.

(** C5 (amended) after one initiation: asking again returns the same
    transaction. *)
Lemma initiation_reuses_pending_witness :
  pending_unique (db pending_gateway_world)
  /\ exists r,
       initiate_subscription example_settings basic_orange_money "u1"
         uuid_b "20250102" gateway_up pending_gateway_world
       = (Return r, pending_gateway_world)
       /\ init_transaction_id r = uuid_a.
Proof.
  destruct (initiation_reuses_pending example_settings fresh_world
              pending_gateway_world fresh_world_pending_unique
              (rtc_once _ _
                 (step_initiate example_settings basic_orange_money "u1"
                    uuid_a "20250101" gateway_up fresh_world)))
    as [Hunique Hreuse].
  split; [exact Hunique|].
  destruct (Hreuse basic_orange_money "u1" uuid_b "20250102" gateway_up
              ("t-basic", TierRow "basic" 50 (Some 3)) pending_gateway_txn)
    as (r & Hrun & Hid & _).
  - exact example_basic_tier.
  - simpl. lia.
  - vm_compute. left. reflexivity.
  - vm_compute. reflexivity.
  - exists r. split; [exact Hrun | exact Hid].
Defined.

(** C7 with the gateway out of reach. *)
Lemma initiate_fails_open_witness :
  fst (initiate_payment (make_txn_ref "20250101" uuid_a) 50 gateway_down
         fresh_world)
  = Raise (HTTPException 502 "Payment service unavailable")
  /\ exists w',
       initiate_subscription example_settings basic_orange_money "u1"
         uuid_a "20250101" gateway_down fresh_world
       = (Return {| payment_url := None;
                    init_transaction_id := uuid_a;
                    init_status := "pending";
                    init_message :=
                      "Orange Money is temporarily unavailable. Please send P50 via Orange Money to 26777625997 with reference: PD-20250101-3F2A9C1E, then confirm your payment." |},
          w')
       /\ List.map payment_method (payment_transactions (db w')) = ["manual"].
Proof.
  split; [vm_compute; reflexivity|].
  destruct (initiate_fails_open example_settings basic_orange_money "u1"
              uuid_a "20250101" gateway_down fresh_world
              ("t-basic", TierRow "basic" 50 (Some 3))
              (HTTPException 502 "Payment service unavailable") fresh_world)
    as (w' & digits & Hdigits & Hrun & Hrows & _).
  - reflexivity.
  - exact example_basic_tier.
  - simpl. lia.
  - reflexivity.
  - vm_compute. reflexivity.
  - apply NilZero.sis in Hdigits. subst digits.
    exists w'. split; [exact Hrun|]. rewrite Hrows. reflexivity.
Defined.

Lemma example_tiers_free_costs_nothing tid tr :
  example_tiers !! tid = Some tr -> tier_name tr = "free" -> price_pula tr = 0.
Proof.
  unfold example_tiers. intros H Hname.
  apply lookup_insert_Some in H as [[_ <-]|[_ H]]; [reflexivity|].
  apply lookup_insert_Some in H as [[_ <-]|[_ H]]; [discriminate Hname|].
  rewrite lookup_empty in H. discriminate H.
Defined.

(** C9 at a lapsed user: after enforcement the invariant holds. *)
Lemma free_tier_has_no_expiry_witness :
  free_expiry_null
    (db (snd (check_and_enforce_subscription "u1" 200 lapsed_world)))
  /\ users (db (snd (check_and_enforce_subscription "u1" 200 lapsed_world)))
       !! "u1" = Some (UserRow "t-free" None).
Proof.
  split; [|vm_compute; reflexivity].
  apply (free_tier_has_no_expiry example_settings lapsed_world).
  - exact example_tiers_free_costs_nothing.
  - intros t tr [].
  - intros uid u tr Hu Ht Hname. simpl in Hu.
    apply lookup_insert_Some in Hu as [[_ <-]|[_ Hu]].
    + simpl in Ht. vm_compute in Ht. injection Ht as <-. discriminate Hname.
    + rewrite lookup_empty in Hu. discriminate Hu.
  - apply rtc_once. apply step_enforce.
Defined.

(** C10 after a gateway initiation that did return a redirect URL. *)
Lemma existing_pending_has_no_payment_url_witness :
  payment_url <$> (match fst (initiate_subscription example_settings
                                basic_orange_money "u1" uuid_a "20250101"
                                gateway_up fresh_world) with
                   | Return r => Some r
                   | Raise _ => None
                   end)
  = Some (Some "https://webpay.example/pay/abc")
  /\ exists r,
       initiate_subscription example_settings basic_orange_money "u1"
         uuid_b "20250102" gateway_up pending_gateway_world
       = (Return r, pending_gateway_world)
       /\ init_transaction_id r = uuid_a
       /\ payment_url r = None.
Proof.
  split; [vm_compute; reflexivity|].
  apply (existing_pending_has_no_payment_url example_settings fresh_world
           pending_gateway_world basic_orange_money "u1" uuid_b "20250102"
           gateway_up ("t-basic", TierRow "basic" 50 (Some 3))
           pending_gateway_txn []).
  - intros t [].
  - apply rtc_once. apply step_initiate.
  - exact example_basic_tier.
  - simpl. lia.
  - vm_compute. reflexivity.
Defined.

(** * Further properties of the handlers *)

(** ** The effect of one request *)

Ltac same_payment_solve :=
  let r := fresh "r" in
  intros r; unfold same_payment, with_notes; repeat case_match;
  repeat split; reflexivity.

Lemma terminal_pending_like s :
  s = "pending" \/ s = "awaiting_verification" -> terminal s = false.
Proof. intros [-> | ->]; reflexivity. Qed.

Lemma complete_effect t g uid now w0 w :
  db w = db w0 -> journal w = journal w0 ->
  In t (payment_transactions (db w0)) ->
  terminal (status t) = false ->
  (forall r, same_payment r (g r)) ->
  uid = txn_user_id t ->
  request_effect w0
    (snd (bind (update_txn (txn_id t) "completed" g)
            (fun _ => activate_subscription uid (txn_tier_id t)
                        default_duration_days now) w)).
Proof.
  destruct w as [s j c]. simpl. intros -> -> Hin Hopen Hg ->.
  rewrite run_update_txn.
  unfold activate_subscription. rewrite run_select_user. simpl.
  destruct (users (db w0) !! txn_user_id t) as [u|] eqn:Hu; simpl.
  - apply eff_activate with t g u now; auto.
    simpl. rewrite <- app_assoc. reflexivity.
  - apply eff_complete with t g; auto.
Qed.

Lemma settle_effect t st g w0 w :
  db w = db w0 -> journal w = journal w0 ->
  In t (payment_transactions (db w0)) ->
  terminal (status t) = false ->
  st = "failed" \/ (st = "awaiting_verification" /\ status t = "pending") ->
  (forall r, same_payment r (g r)) ->
  request_effect w0 (snd (update_txn (txn_id t) st g w)).
Proof.
  destruct w as [s j c]. simpl. intros -> -> Hin Hopen Hst Hg.
  apply eff_settle with t st g; auto.
Qed.

Lemma request_effect_snd_ret {A B} (m : M A) (b : A -> B) w0 w :
  request_effect w0 (snd (m w)) ->
  request_effect w0 (snd (bind m (fun a => ret (b a)) w)).
Proof.
  unfold bind, ret. destruct (m w) as [[a|e] w1]; auto.
Qed.

Lemma webhook_effect cb n1 n2 w :
  request_effect w (snd (orange_money_webhook cb n1 n2 w)).
Proof.
  unfold orange_money_webhook. rewrite run_select_txn_single.
  destruct (single _) as [t|] eqn:Hs; [|now apply eff_read].
  apply single_filter_In in Hs as [Hin _].
  destruct (terminal (status t)) eqn:Hopen; [now apply eff_read|].
  destruct (float_ne_int _ _).
  { rewrite run_update_txn.
    apply settle_effect; auto. same_payment_solve. }
  apply request_effect_snd_ret with (b := fun _ => "processed").
  destruct (is_success _).
  - apply complete_effect; auto. same_payment_solve.
  - apply settle_effect; auto. same_payment_solve.
Qed.

Lemma approve_effect approval n1 n2 w :
  request_effect w (snd (admin_approve_payment approval n1 n2 w)).
Proof.
  unfold admin_approve_payment. rewrite run_select_txn_single.
  destruct (single _) as [t|] eqn:Hs; [|now apply eff_read].
  apply single_filter_In in Hs as [Hin Hopen].
  apply is_open_with_id_spec in Hopen as [_ Hopen].
  apply terminal_pending_like in Hopen.
  rewrite run_joined_tier_name.
  destruct (subscription_tiers (db w) !! txn_tier_id t) as [tr|];
    [|now apply eff_read].
  rewrite <- run_assoc.
  apply request_effect_snd_ret with (b := fun _ => _).
  apply complete_effect; auto. same_payment_solve.
Qed.

Lemma reject_effect approval w :
  request_effect w (snd (admin_reject_payment approval w)).
Proof.
  unfold admin_reject_payment. rewrite run_select_txn_single.
  destruct (single _) as [t|] eqn:Hs; [|now apply eff_read].
  apply single_filter_In in Hs as [Hin Hopen].
  apply is_open_with_id_spec in Hopen as [_ Hopen].
  apply terminal_pending_like in Hopen.
  rewrite run_joined_tier_name.
  destruct (subscription_tiers (db w) !! txn_tier_id t) as [tr|];
    [|now apply eff_read].
  rewrite run_update_txn.
  apply settle_effect; auto. same_payment_solve.
Qed.

Lemma confirm_effect confirmation uid w :
  request_effect w (snd (confirm_payment confirmation uid w)).
Proof.
  unfold confirm_payment. rewrite run_select_txn_single.
  destruct (single _) as [t|] eqn:Hs; [|now apply eff_read].
  apply single_filter_In in Hs as [Hin Hp].
  rewrite !andb_true_iff, !String.eqb_eq in Hp. destruct Hp as [_ Hp].
  rewrite run_update_txn. rewrite run_joined_tier_name.
  assert (He : request_effect w
                 (snd (update_txn (txn_id t) "awaiting_verification"
                         (set_user_payment_reference
                            (payment_reference confirmation)) w))).
  { apply settle_effect; auto.
    - rewrite Hp. reflexivity.
    - same_payment_solve. }
  destruct (subscription_tiers _ !! txn_tier_id t) as [tr|]; exact He.
Qed.

Lemma enforce_effect uid now w :
  request_effect w (snd (check_and_enforce_subscription uid now w)).
Proof.
  unfold check_and_enforce_subscription. rewrite run_select_user.
  destruct (users (db w) !! uid) as [u|]; [|now apply eff_read].
  rewrite run_join_tier.
  destruct (subscription_tiers (db w) !! current_tier_id u) as [tr|];
    [|now apply eff_read].
  cbn [fmap option_fmap option_map snd fst].
  destruct (String.eqb (tier_name tr) "free"); [now apply eff_read|].
  destruct (subscription_expires_at u) as [e|]; [|now apply eff_read].
  destruct (now >? e); [|now apply eff_read].
  rewrite run_select_tier_by_name.
  destruct (single _) as [[fid ft]|] eqn:Hft; [|now apply eff_read].
  apply tier_by_name_lookup in Hft as [Hfid Hname].
  rewrite run_update_user.
  now apply eff_downgrade with uid fid ft.
Qed.

Lemma check_payment_effect tid uid io n1 n2 w :
  request_effect w (snd (check_payment_status tid uid io n1 n2 w)).
Proof.
  unfold check_payment_status. rewrite run_select_txn_single.
  destruct (single _) as [t|] eqn:Hs; [|now apply eff_read].
  apply single_filter_In in Hs as [Hin Hown].
  rewrite andb_true_iff, !String.eqb_eq in Hown. destruct Hown as [_ Hown].
  rewrite run_joined_tier_name.
  destruct (subscription_tiers (db w) !! txn_tier_id t) as [tr|];
    [|now apply eff_read].
  destruct (String.eqb (payment_method t) "orange_money"
            && String.eqb (status t) "pending") eqn:Hc; [|now apply eff_read].
  rewrite andb_true_iff, !String.eqb_eq in Hc. destruct Hc as [_ Hst].
  assert (Hopen : terminal (status t) = false) by (rewrite Hst; reflexivity).
  destruct (orange_money_order_id t) as [o|]; [|now apply eff_read].
  destruct (String.eqb o ""); [now apply eff_read|].
  destruct (check_transaction_status o (amount_pula t) io w) as [[r|e] w1] eqn:E;
    pose proof (check_transaction_status_db _ _ _ _ _ _ E) as [Hdb Hj];
    unfold bind at 1; rewrite E; [|now apply eff_read].
  destruct (dict_get_default _ _) as [reported|]; [|now apply eff_read].
  destruct (String.eqb _ "SUCCESS").
  - rewrite <- run_assoc.
    apply request_effect_snd_ret with (b := fun _ => _).
    apply complete_effect; auto. same_payment_solve.
  - destruct (str_in _ _); [|now apply eff_read].
    rewrite run_update_txn.
    apply settle_effect; auto. same_payment_solve.
Qed.

Lemma initiate_effect settings subscription uid uuid ymd io w :
  request_effect w
    (snd (initiate_subscription settings subscription uid uuid ymd io w)).
Proof.
  unfold initiate_subscription. rewrite run_select_tier_by_name.
  destruct (single _) as [[tid tr]|] eqn:Htier; [|now apply eff_read].
  cbn [fst snd].
  destruct (Z.eqb (price_pula tr) 0); [now apply eff_read|].
  rewrite run_select_txns.
  destruct (List.filter _ _) as [|t0 rest]; [|now apply eff_read].
  assert (Hopen : forall (w1 : world) (row : txn),
             db w1 = db w -> journal w1 = journal w ->
             status row = "pending" ->
             request_effect w (snd (insert_txn row w1))).
  { intros w1 row Hdb Hj Hst.
    apply eff_insert with row; auto; cbn; rewrite ?Hdb, ?Hj; reflexivity. }
  destruct (String.eqb (sub_payment_method subscription) "orange_money").
  - unfold bind at 1, try_except_HTTPException, bind at 1.
    destruct (initiate_payment _ _ io w) as [[om|e] w1] eqn:E;
      pose proof (initiate_payment_db _ _ _ _ _ _ E) as [Hdb Hj].
    + unfold ret at 1. cbv iota beta. rewrite run_insert_txn.
      now apply Hopen.
    + destruct (initiate_payment_raises _ _ _ _ _ _ E) as [d ->].
      cbv iota beta. unfold ret at 1. cbv iota beta. rewrite run_insert_txn.
      now apply Hopen.
  - destruct (String.eqb _ "myzaka");
      rewrite run_ret; cbv iota beta; rewrite run_insert_txn;
      now apply Hopen.
Qed.

(** Every request has one of the six effects. *)
Lemma step_effect settings w w' : step settings w w' -> request_effect w w'.
Proof.
  destruct 1.
  - apply enforce_effect.
  - apply initiate_effect.
  - apply confirm_effect.
  - apply check_payment_effect.
  - apply webhook_effect.
  - apply approve_effect.
  - apply reject_effect.
Qed.

Lemma steps_effects settings (R : world -> world -> Prop) :
  (forall w, R w w) ->
  (forall w1 w2 w3, R w1 w2 -> R w2 w3 -> R w1 w3) ->
  (forall w w', request_effect w w' -> R w w') ->
  forall w w', rtc (step settings) w w' -> R w w'.
Proof.
  intros Hrefl Htrans Hone w w' Hsteps.
  induction Hsteps as [|w w1 w' Hstep _ IH]; [apply Hrefl|].
  apply Htrans with w1; [|exact IH].
  apply Hone. now apply step_effect with settings.
Qed.

(** X1. The tier catalog is read-only: no sequence of requests
    changes [subscription_tiers], and none creates or removes a row
    of [users]. *)
Theorem catalog_and_user_set_are_fixed (settings : Settings) (w w' : world) :
  rtc (step settings) w w' ->
  subscription_tiers (db w') = subscription_tiers (db w)
  /\ dom (users (db w')) = dom (users (db w)).
Proof.
  apply (steps_effects settings
           (fun w w' => subscription_tiers (db w') = subscription_tiers (db w)
                        /\ dom (users (db w')) = dom (users (db w)))).
  - auto.
  - intros w1 w2 w3 [H1 H1'] [H2 H2']. split; congruence.
  - intros w0 w0' He.
    destruct He as [Hdb _ | ? ? ? _ _ Hdb _ | ? _ Hdb _ | ? ? ? _ _ _ _ Hdb _
                   | ? ? _ _ _ _ Hdb _ | ? ? ? ? _ _ _ _ Hdb _];
      rewrite Hdb; simpl; split; try reflexivity;
      apply leibniz_equiv; apply dom_alter.
Qed.

(** *** The audit trail *)

Lemma same_payment_refl r : same_payment r r.
Proof. unfold same_payment. repeat split. Qed.

Lemma same_payment_trans r1 r2 r3 :
  same_payment r1 r2 -> same_payment r2 r3 -> same_payment r1 r3.
Proof. unfold same_payment. intuition congruence. Qed.

Lemma same_payment_set_status st r : same_payment r (set_status st r).
Proof. unfold same_payment. repeat split. Qed.

Lemma Forall2_same_payment_refl rows : Forall2 same_payment rows rows.
Proof. induction rows; constructor; auto using same_payment_refl. Qed.

Lemma Forall2_same_payment_update id st g rows :
  (forall r, same_payment r (g r)) ->
  Forall2 same_payment rows
    (update_where_id id (fun r => set_status st (g r)) rows).
Proof.
  intros Hg. unfold update_where_id.
  induction rows as [|r rows IH]; simpl; constructor; [|exact IH].
  destruct (String.eqb (txn_id r) id); [|apply same_payment_refl].
  apply same_payment_trans with (g r); [apply Hg | apply same_payment_set_status].
Qed.

Lemma Forall2_same_payment_trans l1 l2 l3 :
  Forall2 same_payment l1 l2 -> Forall2 same_payment l2 l3 ->
  Forall2 same_payment l1 l3.
Proof.
  intros H12. revert l3. induction H12 as [|a b l1 l2 Hab _ IH]; intros l3 H23.
  - inversion H23. constructor.
  - inversion H23 as [|b' c l2' l3' Hbc Hrest]; subst. constructor.
    + now apply same_payment_trans with b.
    + now apply IH.
Qed.

(** X2. Audit trail. After any sequence of requests the table of
    transactions is the old table, row by row the same payment (same
    id, user, tier, amount, method, reference and gateway order), in
    the same order, followed by the rows inserted since: no row is
    deleted, moved or re-keyed. *)
Theorem transactions_are_never_deleted (settings : Settings) (w w' : world) :
  rtc (step settings) w w' ->
  exists kept added,
    payment_transactions (db w') = (kept ++ added)%list
    /\ Forall2 same_payment (payment_transactions (db w)) kept.
Proof.
  apply (steps_effects settings
           (fun w w' => exists kept added,
                payment_transactions (db w') = (kept ++ added)%list
                /\ Forall2 same_payment (payment_transactions (db w)) kept)).
  - intros w0. exists (payment_transactions (db w0)), [].
    rewrite app_nil_r. split; [reflexivity | apply Forall2_same_payment_refl].
  - intros w1 w2 w3 (k1 & a1 & E1 & F1) (k2 & a2 & E2 & F2).
    rewrite E1 in F2.
    apply Forall2_app_inv_l in F2 as (k2a & k2b & Fa & Fb & ->).
    exists k2a, (k2b ++ a2)%list. split.
    + rewrite E2, <- app_assoc. reflexivity.
    + now apply Forall2_same_payment_trans with k1.
  - intros w0 w0' He.
    destruct He as [Hdb _ | ? ? ? _ _ Hdb _ | row _ Hdb _ | t st g _ _ _ Hg Hdb _
                   | t g _ _ Hg _ Hdb _ | t g u now _ _ Hg _ Hdb _];
      rewrite Hdb; simpl.
    + exists (payment_transactions (db w0)), []. rewrite app_nil_r.
      split; [reflexivity | apply Forall2_same_payment_refl].
    + exists (payment_transactions (db w0)), []. rewrite app_nil_r.
      split; [reflexivity | apply Forall2_same_payment_refl].
    + exists (payment_transactions (db w0)), [row].
      split; [reflexivity | apply Forall2_same_payment_refl].
    + eexists _, []. rewrite app_nil_r.
      split; [reflexivity | now apply Forall2_same_payment_update].
    + eexists _, []. rewrite app_nil_r.
      split; [reflexivity | now apply Forall2_same_payment_update].
    + eexists _, []. rewrite app_nil_r.
      split; [reflexivity | now apply Forall2_same_payment_update].
Qed.

(** *** The status machine *)

Lemma NoDup_ids_same_row (rows : list txn) (t t0 : txn) :
  NoDup (List.map txn_id rows) ->
  In t rows -> In t0 rows -> txn_id t = txn_id t0 -> t = t0.
Proof.
  induction rows as [|r rows IH]; simpl; [tauto|].
  intros Hnd Ht Ht0 Hid. apply NoDup_cons in Hnd as [Hnotin Hnd].
  assert (Hmem : forall x, In x rows -> txn_id x ∈ List.map txn_id rows)
    by (intros x Hx; apply list_elem_of_In; now apply in_map).
  destruct Ht as [<-|Ht], Ht0 as [<-|Ht0]; auto.
  - exfalso. apply Hnotin. rewrite Hid. auto.
  - exfalso. apply Hnotin. rewrite <- Hid. auto.
Qed.

Lemma update_where_id_lookup (f : txn -> txn) id rows (i : nat) t' :
  update_where_id id f rows !! i = Some t' ->
  exists t, rows !! i = Some t
            /\ t' = (if String.eqb (txn_id t) id then f t else t).
Proof.
  unfold update_where_id. rewrite list_lookup_fmap.
  destruct (rows !! i) as [t|]; simpl; [|discriminate].
  intros [= <-]. eauto.
Qed.

(** X3. The status machine. With distinct transaction ids, one
    request leaves every row as it was or moves an open row to
    [completed] or [failed], or a [pending] row to
    [awaiting_verification], keeping the payment it records; a row
    that is completed, failed or refunded is never changed again. *)
Theorem status_machine (settings : Settings) (w w' : world)
    (i : nat) (t t' : txn) :
  NoDup (List.map txn_id (payment_transactions (db w))) ->
  step settings w w' ->
  payment_transactions (db w) !! i = Some t ->
  payment_transactions (db w') !! i = Some t' ->
  t' = t
  \/ (terminal (status t) = false
      /\ same_payment t t'
      /\ (status t' = "completed" \/ status t' = "failed"
          \/ (status t' = "awaiting_verification" /\ status t = "pending"))).
Proof.
  intros Hnd Hstep Ht Ht'. apply step_effect in Hstep.
  assert (Hin : In t (payment_transactions (db w)))
    by (apply list_elem_of_In; now apply list_elem_of_lookup_2 with i).
  assert (Hupd : forall t0 st g,
             In t0 (payment_transactions (db w)) ->
             terminal (status t0) = false ->
             (forall r, same_payment r (g r)) ->
             update_where_id (txn_id t0) (fun r => set_status st (g r))
               (payment_transactions (db w)) !! i = Some t' ->
             t' = t \/ (terminal (status t) = false /\ same_payment t t'
                        /\ status t' = st /\ t = t0)).
  { intros t0 st g Hin0 Hopen Hg Hl.
    apply update_where_id_lookup in Hl as (x & Hx & ->).
    assert (x = t) by congruence. subst x.
    destruct (String.eqb (txn_id t) (txn_id t0)) eqn:E; [|now left].
    apply String.eqb_eq in E.
    assert (t = t0) by (now apply NoDup_ids_same_row with (payment_transactions (db w))).
    subst t0. right. split; [exact Hopen|]. split; [|split; reflexivity].
    apply same_payment_trans with (g t); [apply Hg | apply same_payment_set_status]. }
  destruct Hstep as [Hdb _ | ? ? ? _ _ Hdb _ | row _ Hdb _
                    | t0 st g Hin0 Hopen Hst Hg Hdb _
                    | t0 g Hin0 Hopen Hg _ Hdb _
                    | t0 g u now Hin0 Hopen Hg _ Hdb _];
    rewrite Hdb in Ht'; simpl in Ht'.
  - left. congruence.
  - left. congruence.
  - left. rewrite lookup_app_l in Ht' by (now apply lookup_lt_Some with t).
    congruence.
  - destruct (Hupd t0 st g Hin0 Hopen Hg Ht') as [|(H1 & H2 & H3 & ->)]; auto.
    right. split; [exact H1|]. split; [exact H2|]. rewrite H3.
    destruct Hst as [-> | [-> Hp]]; auto.
  - destruct (Hupd t0 _ g Hin0 Hopen Hg Ht') as [|(H1 & H2 & H3 & ->)]; auto.
  - destruct (Hupd t0 _ g Hin0 Hopen Hg Ht') as [|(H1 & H2 & H3 & ->)]; auto.
Qed.

(** X4. No request writes the status [refunded]: after any sequence
    of requests, a refunded row is a row that was in the table,
    unchanged, before. *)
Theorem refunded_is_never_written (settings : Settings) (w w' : world) (r : txn) :
  rtc (step settings) w w' ->
  In r (payment_transactions (db w')) ->
  status r = "refunded" ->
  In r (payment_transactions (db w)).
Proof.
  intros Hsteps. revert r.
  apply (steps_effects settings
           (fun w w' => forall r, In r (payment_transactions (db w')) ->
                                  status r = "refunded" ->
                                  In r (payment_transactions (db w))));
    [auto | eauto | | exact Hsteps].
  intros w0 w0' He r.
  assert (Hupd : forall id st g,
             st <> "refunded" ->
             In r (update_where_id id (fun x => set_status st (g x))
                     (payment_transactions (db w0))) ->
             status r = "refunded" -> In r (payment_transactions (db w0))).
  { intros id st g Hst Hin Hr.
    apply update_where_id_inv in Hin as (x & Hx & [->| ->]); [exact Hx|].
    simpl in Hr. congruence. }
  destruct He as [Hdb _ | ? ? ? _ _ Hdb _ | row Hrow Hdb _
                 | t0 st g _ _ Hst _ Hdb _
                 | t0 g _ _ _ _ Hdb _ | t0 g u now _ _ _ _ Hdb _];
    rewrite Hdb; simpl; auto.
  - rewrite in_app_iff. intros [H|[<-|[]]] Hr; [exact H | congruence].
  - apply Hupd. destruct Hst as [-> | [-> _]]; discriminate.
  - apply Hupd. discriminate.
  - apply Hupd. discriminate.
Qed.

(** X5. A tier is granted only by completing a payment. After one
    request a user row is as before, or is a downgrade to a tier named
    [free] with no expiry, or carries the tier of an open transaction
    of that user which the same request marked [completed]. *)
Theorem tier_granted_only_by_completion (settings : Settings) (w w' : world)
    (uid : string) (u' : user_row) :
  step settings w w' ->
  users (db w') !! uid = Some u' ->
  users (db w) !! uid = Some u'
  \/ (subscription_expires_at u' = None
      /\ exists ft, subscription_tiers (db w) !! current_tier_id u' = Some ft
                    /\ tier_name ft = "free")
  \/ (exists t e,
        In t (payment_transactions (db w))
        /\ terminal (status t) = false
        /\ txn_user_id t = uid
        /\ u' = UserRow (txn_tier_id t) (Some e)
        /\ journal w' = (journal w ++ [TxnUpdate (txn_id t) "completed";
                           UsersUpdate uid (txn_tier_id t) (Some e)])%list).
Proof.
  intros Hstep Hu'. apply step_effect in Hstep.
  destruct Hstep as [Hdb _ | uid0 fid ft Hfid Hname Hdb _ | row _ Hdb _
                    | t0 st g _ _ _ _ Hdb _
                    | t0 g _ _ _ _ Hdb _
                    | t0 g u now Hin0 Hopen _ Hu Hdb Hj];
    rewrite Hdb in Hu'; simpl in Hu'; auto.
  - rewrite lookup_alter in Hu'. case_decide as Heq; [|auto]. subst uid0.
    destruct (users (db w) !! uid); simpl in Hu'; [|discriminate].
    injection Hu' as <-. right. left. simpl. eauto.
  - rewrite lookup_alter in Hu'. case_decide as Heq; [|auto].
    rewrite Hu in Hu'. simpl in Hu'. injection Hu' as <-.
    right. right. eexists t0, _. repeat split; eauto.
    rewrite <- Heq. exact Hj.
Qed.

(** ** User confirmation *)

(** X6. Confirmation is a hold. For the caller's pending transaction,
    [confirm_payment] answers [awaiting_verification] and leaves that
    row with status [awaiting_verification] and the receipt reference
    in [user_payment_reference], every other column as it was; it
    writes nothing else: no user row changes and nothing is
    activated. *)
Theorem confirm_payment_holds (w : world) (confirmation : ConfirmPaymentRequest)
    (uid : string) (t : txn) (tr : tier_row) :
  single (List.filter
            (fun r => String.eqb (txn_id r) (confirm_transaction_id confirmation)
                      && String.eqb (txn_user_id r) uid
                      && String.eqb (status r) "pending")
            (payment_transactions (db w))) = Some t ->
  subscription_tiers (db w) !! txn_tier_id t = Some tr ->
  exists r w',
    confirm_payment confirmation uid w = (Return r, w')
    /\ resp_txn_status r = "awaiting_verification"
    /\ resp_transaction_id r = confirm_transaction_id confirmation
    /\ In (Txn (txn_id t) (txn_user_id t) (txn_tier_id t) (amount_pula t)
               (payment_method t) (transaction_reference t)
               "awaiting_verification"
               (orange_money_order_id t) (orange_money_pay_token t)
               (orange_money_pay_url t) (orange_money_status t)
               (orange_money_transaction_id t)
               (Some (payment_reference confirmation))
               (admin_notes t) (completed_at t))
          (payment_transactions (db w'))
    /\ length (payment_transactions (db w'))
       = length (payment_transactions (db w))
    /\ users (db w') = users (db w)
    /\ journal w' = (journal w ++ [TxnUpdate (txn_id t) "awaiting_verification"])%list
    /\ activations (journal w') = activations (journal w).
Proof.
  intros Hs Htier. unfold confirm_payment.
  rewrite run_select_txn_single, Hs, run_update_txn, run_joined_tier_name.
  apply single_filter_In in Hs as [Hin Hp].
  rewrite !andb_true_iff, !String.eqb_eq in Hp. destruct Hp as [[Hid _] _].
  simpl. rewrite Htier. eexists _, _. split; [reflexivity|]. simpl.
  repeat split; auto.
  - apply (In_update_where_id
             (fun r => set_status "awaiting_verification"
                         (set_user_payment_reference
                            (payment_reference confirmation) r)) t).
    exact Hin.
  - unfold update_where_id. apply length_map.
  - rewrite activations_app. simpl. lia.
Qed.

(** X7. A transaction that is not the caller's, or is no longer
    pending, cannot be confirmed, and the world is left as it was;
    but the caller does not get the 404 of the handler: the query
    matches no row, so [execute()] raises [APIError] before the test
    [if not result.data] is reached. *)
Theorem confirm_payment_not_found (w : world)
    (confirmation : ConfirmPaymentRequest) (uid : string) :
  (forall t, In t (payment_transactions (db w)) ->
     txn_id t = confirm_transaction_id confirmation ->
     txn_user_id t <> uid \/ status t <> "pending") ->
  confirm_payment confirmation uid w = (Raise APIError, w).
Proof.
  intros H. unfold confirm_payment. rewrite run_select_txn_single.
  rewrite filter_none; [reflexivity|].
  intros t Ht.
  destruct (String.eqb (txn_id t) (confirm_transaction_id confirmation)) eqn:E1;
    [|reflexivity].
  apply String.eqb_eq in E1. destruct (H t Ht E1) as [Hu|Hs].
  - apply String.eqb_neq in Hu. now rewrite Hu.
  - apply String.eqb_neq in Hs. rewrite Hs. apply andb_false_r.
Qed.

(** ** Status inquiry with reconciliation *)

(** The expiry that an activation writes, case by case, and that it
    is an instant a [datetime] holds when the sum of its case is. *)
Lemma new_expires_cases cur now D :
  (forall E, cur = Some E -> now < E ->
     new_expires cur now D = E + D * 86400000000)
  /\ ((forall E, cur = Some E -> E <= now) ->
      new_expires cur now D = now + D * 86400000000).
Proof.
  unfold new_expires, timedelta_days. split.
  - intros E -> HE. destruct (Z.gtb_spec E now); [reflexivity | lia].
  - intros Hpast. destruct cur as [E|]; [|reflexivity].
    specialize (Hpast E eq_refl).
    destruct (Z.gtb_spec E now); [lia | reflexivity].
Qed.

Lemma new_expires_is_datetime cur now D :
  (forall E, cur = Some E -> now < E ->
     datetime_min <= E + D * 86400000000 <= datetime_max) ->
  ((forall E, cur = Some E -> E <= now) ->
     datetime_min <= now + D * 86400000000 <= datetime_max) ->
  datetime_min <= new_expires cur now D <= datetime_max.
Proof.
  intros Hfuture Hpast.
  destruct (new_expires_cases cur now D) as [Hf Hp].
  destruct cur as [E|].
  - destruct (Z.lt_ge_cases now E) as [Hlt|Hge].
    + rewrite (Hf E eq_refl Hlt). now apply Hfuture.
    + assert (Hall : forall E', Some E = Some E' -> E' <= now)
        by (intros E' [= <-]; exact Hge).
      rewrite (Hp Hall). now apply Hpast.
  - assert (Hall : forall E', @None Z = Some E' -> E' <= now)
      by (intros E'; discriminate).
    rewrite (Hp Hall). now apply Hpast.
Qed.

Lemma check_payment_status_poll tid uid io n1 n2 w t tr o :
  single (List.filter (fun r => String.eqb (txn_id r) tid
                                && String.eqb (txn_user_id r) uid)
            (payment_transactions (db w))) = Some t ->
  subscription_tiers (db w) !! txn_tier_id t = Some tr ->
  payment_method t = "orange_money" -> status t = "pending" ->
  orange_money_order_id t = Some o -> o <> "" ->
  check_payment_status tid uid io n1 n2 w
  = bind (check_transaction_status o (amount_pula t) io)
      (fun om_status =>
         match dict_get_default (resp_status om_status) "" with
         | None => raise AttributeError
         | Some reported =>
           let remote_status := upper reported in
           if String.eqb remote_status "SUCCESS" then
             update_txn (txn_id t) "completed"
               (fun r => set_orange_money_status "SUCCESS"
                           (set_completed_at n1 r)) ;;;
             activate_subscription uid (txn_tier_id t)
               default_duration_days n2 ;;;
             ret {| resp_transaction_id := txn_id t;
                    resp_txn_status := "completed";
                    resp_tier_name := tier_name tr;
                    resp_amount_pula := amount_pula t;
                    resp_message :=
                      "Payment confirmed! Your " +:+ tier_name tr
                      +:+ " tier is now active." |}
           else if str_in remote_status ["FAILED"; "EXPIRED"; "CANCELLED"] then
             update_txn (txn_id t) "failed"
               (set_orange_money_status remote_status) ;;;
             ret {| resp_transaction_id := txn_id t;
                    resp_txn_status := "failed";
                    resp_tier_name := tier_name tr;
                    resp_amount_pula := amount_pula t;
                    resp_message :=
                      "Payment " +:+ lower remote_status
                      +:+ ". Please try again." |}
           else
             ret {| resp_transaction_id := txn_id t;
                    resp_txn_status := status t;
                    resp_tier_name := tier_name tr;
                    resp_amount_pula := amount_pula t;
                    resp_message := status_message t (tier_name tr) |}
         end) w.
Proof.
  intros Hs Htier Hm Hst Ho Hne.
  unfold check_payment_status. rewrite run_select_txn_single, Hs.
  rewrite run_joined_tier_name, Htier, Hm, Ho.
  apply String.eqb_neq in Hne. rewrite Hne.
  replace (String.eqb "orange_money" "orange_money"
           && String.eqb (status t) "pending") with true
    by (rewrite Hst; reflexivity).
  reflexivity.
Qed.

(** X8. Reconciliation on success. When the gateway reports the text
    [SUCCESS], in any letter case, for the caller's pending gateway
    payment, the inquiry answers [completed] and leaves the row with
    status [completed], [completed_at] the first clock reading and
    [orange_money_status] [SUCCESS], every other column as it was; it
    activates the tier of the payment for thirty days, stacked on an
    expiry that is still ahead and counted from the second clock
    reading otherwise, provided that sum is an instant a [datetime]
    holds. *)
Theorem check_payment_status_completes (w : world) (tid uid : string)
    (io : gateway_io) (n1 n2 : Z) (t : txn) (tr : tier_row) (o : string)
    (om : om_response) (w1 : world) (u : user_row) (reported : string) :
  single (List.filter (fun r => String.eqb (txn_id r) tid
                                && String.eqb (txn_user_id r) uid)
            (payment_transactions (db w))) = Some t ->
  subscription_tiers (db w) !! txn_tier_id t = Some tr ->
  payment_method t = "orange_money" -> status t = "pending" ->
  orange_money_order_id t = Some o -> o <> "" ->
  check_transaction_status o (amount_pula t) io w = (Return om, w1) ->
  resp_status om = Text reported ->
  upper reported = "SUCCESS" ->
  users (db w) !! uid = Some u ->
  (forall E, subscription_expires_at u = Some E -> n2 < E ->
     datetime_min <= E + 30 * 86400000000 <= datetime_max) ->
  ((forall E, subscription_expires_at u = Some E -> E <= n2) ->
     datetime_min <= n2 + 30 * 86400000000 <= datetime_max) ->
  exists r w' e,
    check_payment_status tid uid io n1 n2 w = (Return r, w')
    /\ resp_txn_status r = "completed"
    /\ In (Txn (txn_id t) (txn_user_id t) (txn_tier_id t) (amount_pula t)
               (payment_method t) (transaction_reference t)
               "completed"
               (orange_money_order_id t) (orange_money_pay_token t)
               (orange_money_pay_url t)
               (Some "SUCCESS")
               (orange_money_transaction_id t) (user_payment_reference t)
               (admin_notes t)
               (Some n1))
          (payment_transactions (db w'))
    /\ users (db w') !! uid = Some (UserRow (txn_tier_id t) (Some e))
    /\ datetime_min <= e <= datetime_max
    /\ (forall E, subscription_expires_at u = Some E -> n2 < E ->
        e = E + 30 * 86400000000)
    /\ ((forall E, subscription_expires_at u = Some E -> E <= n2) ->
        e = n2 + 30 * 86400000000)
    /\ activations (journal w') = S (activations (journal w)).
Proof.
  intros Hs Htier Hm Hst Ho Hne Hgw Hrep Hok Hu Hfuture Hpast.
  rewrite (check_payment_status_poll _ _ _ _ _ _ _ _ _ Hs Htier Hm Hst Ho Hne).
  destruct (check_transaction_status_db _ _ _ _ _ _ Hgw) as [Hdb Hj].
  apply single_filter_In in Hs as [Hin _].
  unfold bind at 1. rewrite Hgw, Hrep. cbv beta iota zeta.
  cbn [dict_get_default]. cbv beta iota zeta. rewrite Hok.
  change (String.eqb "SUCCESS" "SUCCESS") with true. cbv iota.
  rewrite run_update_txn.
  unfold bind at 1.
  erewrite activate_subscription_run by (simpl; rewrite Hdb; exact Hu).
  unfold ret.
  eexists _, _, (new_expires (subscription_expires_at u) n2 default_duration_days).
  split; [reflexivity|]. simpl. rewrite Hdb, Hj.
  split; [reflexivity|].
  destruct (new_expires_cases (subscription_expires_at u) n2
              default_duration_days) as [Hf Hp].
  split; [|split; [|split; [|split; [|split]]]].
  - apply (In_update_where_id
             (fun r => set_status "completed"
                         (set_orange_money_status "SUCCESS"
                            (set_completed_at n1 r))) t).
    exact Hin.
  - rewrite lookup_alter. case_decide; [|congruence]. rewrite Hu. reflexivity.
  - now apply new_expires_is_datetime.
  - exact Hf.
  - exact Hp.
  - rewrite !activations_app. simpl. lia.
Qed.

(** X9. Reconciliation on failure. When the gateway reports the text
    [FAILED], [EXPIRED] or [CANCELLED], in any letter case, the
    inquiry answers [failed] and leaves the row with status [failed]
    and that word, in capitals, in [orange_money_status], every other
    column as it was; no user row changes and nothing is activated. *)
Theorem check_payment_status_fails (w : world) (tid uid : string)
    (io : gateway_io) (n1 n2 : Z) (t : txn) (tr : tier_row) (o : string)
    (om : om_response) (w1 : world) (reported word : string) :
  single (List.filter (fun r => String.eqb (txn_id r) tid
                                && String.eqb (txn_user_id r) uid)
            (payment_transactions (db w))) = Some t ->
  subscription_tiers (db w) !! txn_tier_id t = Some tr ->
  payment_method t = "orange_money" -> status t = "pending" ->
  orange_money_order_id t = Some o -> o <> "" ->
  check_transaction_status o (amount_pula t) io w = (Return om, w1) ->
  resp_status om = Text reported ->
  upper reported = word ->
  word = "FAILED" \/ word = "EXPIRED" \/ word = "CANCELLED" ->
  exists r w',
    check_payment_status tid uid io n1 n2 w = (Return r, w')
    /\ resp_txn_status r = "failed"
    /\ In (Txn (txn_id t) (txn_user_id t) (txn_tier_id t) (amount_pula t)
               (payment_method t) (transaction_reference t)
               "failed"
               (orange_money_order_id t) (orange_money_pay_token t)
               (orange_money_pay_url t)
               (Some word)
               (orange_money_transaction_id t) (user_payment_reference t)
               (admin_notes t) (completed_at t))
          (payment_transactions (db w'))
    /\ users (db w') = users (db w)
    /\ journal w' = (journal w ++ [TxnUpdate (txn_id t) "failed"])%list
    /\ activations (journal w') = activations (journal w).
Proof.
  intros Hs Htier Hm Hst Ho Hne Hgw Hrep Hup Hbad.
  rewrite (check_payment_status_poll _ _ _ _ _ _ _ _ _ Hs Htier Hm Hst Ho Hne).
  destruct (check_transaction_status_db _ _ _ _ _ _ Hgw) as [Hdb Hj].
  apply single_filter_In in Hs as [Hin _].
  unfold bind at 1. rewrite Hgw, Hrep. cbv beta iota zeta.
  cbn [dict_get_default]. cbv beta iota zeta. rewrite Hup.
  assert (String.eqb word "SUCCESS" = false
          /\ str_in word ["FAILED"; "EXPIRED"; "CANCELLED"] = true) as [-> ->].
  { destruct Hbad as [->|[->| ->]]; split; reflexivity. }
  rewrite run_update_txn. unfold ret.
  eexists _, _. split; [reflexivity|]. simpl. rewrite Hdb, Hj.
  repeat split.
  - apply (In_update_where_id
             (fun r => set_status "failed" (set_orange_money_status word r)) t).
    exact Hin.
  - rewrite activations_app. simpl. lia.
Qed.

(** X10. Any other gateway answer is treated as still in flight.
    When the answer has no status, or a status in ASCII text that is
    none of the four words in any letter case (the [UNKNOWN] that
    stands for a transport error of the status request included), the
    inquiry answers with the stored status [pending]; when the status
    is null it raises [AttributeError].  Either way the tables and
    the journal are left as they were. *)
Theorem check_payment_status_in_flight (w : world) (tid uid : string)
    (io : gateway_io) (n1 n2 : Z) (t : txn) (tr : tier_row) (o : string)
    (om : om_response) (w1 : world) :
  single (List.filter (fun r => String.eqb (txn_id r) tid
                                && String.eqb (txn_user_id r) uid)
            (payment_transactions (db w))) = Some t ->
  subscription_tiers (db w) !! txn_tier_id t = Some tr ->
  payment_method t = "orange_money" -> status t = "pending" ->
  orange_money_order_id t = Some o -> o <> "" ->
  check_transaction_status o (amount_pula t) io w = (Return om, w1) ->
  (forall reported,
     (resp_status om = Absent /\ reported = "")
     \/ resp_status om = Text reported ->
     is_ascii reported = true ->
     ~ In (upper reported) ["SUCCESS"; "FAILED"; "EXPIRED"; "CANCELLED"] ->
     check_payment_status tid uid io n1 n2 w
     = (Return {| resp_transaction_id := txn_id t;
                  resp_txn_status := "pending";
                  resp_tier_name := tier_name tr;
                  resp_amount_pula := amount_pula t;
                  resp_message := status_message t (tier_name tr) |}, w1))
  /\ (resp_status om = Null ->
      check_payment_status tid uid io n1 n2 w = (Raise AttributeError, w1))
  /\ db w1 = db w /\ journal w1 = journal w.
Proof.
  intros Hs Htier Hm Hst Ho Hne Hgw.
  rewrite (check_payment_status_poll _ _ _ _ _ _ _ _ _ Hs Htier Hm Hst Ho Hne).
  destruct (check_transaction_status_db _ _ _ _ _ _ Hgw) as [Hdb Hj].
  split; [|split; [|split; assumption]].
  - intros reported Hrep _ Hother.
    unfold bind at 1. rewrite Hgw. cbv beta iota zeta.
    assert (dict_get_default (resp_status om) "" = Some reported) as ->.
    { destruct Hrep as [[-> ->]| ->]; reflexivity. }
    cbv beta iota zeta.
    assert (String.eqb (upper reported) "SUCCESS" = false
            /\ str_in (upper reported) ["FAILED"; "EXPIRED"; "CANCELLED"]
               = false) as [-> ->].
    { split.
      - apply String.eqb_neq. intros E. apply Hother. left. now rewrite E.
      - unfold str_in. simpl. rewrite !orb_false_iff, !String.eqb_neq.
        repeat split; try reflexivity; intros E; apply Hother; simpl;
          rewrite E; tauto. }
    unfold ret. rewrite Hst. reflexivity.
  - intros Hnull. unfold bind at 1. rewrite Hgw, Hnull. reflexivity.
Qed.

(** X11. Only pending gateway payments are polled. For a transaction
    with another method, or one that is no longer pending, the inquiry
    answers with the stored status whatever the gateway would say, and
    leaves the whole world, token cache included, untouched. *)
Theorem check_payment_status_without_poll (w : world) (tid uid : string)
    (io : gateway_io) (n1 n2 : Z) (t : txn) (tr : tier_row) :
  single (List.filter (fun r => String.eqb (txn_id r) tid
                                && String.eqb (txn_user_id r) uid)
            (payment_transactions (db w))) = Some t ->
  subscription_tiers (db w) !! txn_tier_id t = Some tr ->
  payment_method t <> "orange_money" \/ status t <> "pending" ->
  check_payment_status tid uid io n1 n2 w
  = (Return {| resp_transaction_id := txn_id t;
               resp_txn_status := status t;
               resp_tier_name := tier_name tr;
               resp_amount_pula := amount_pula t;
               resp_message := status_message t (tier_name tr) |}, w).
Proof.
  intros Hs Htier Hno. unfold check_payment_status.
  rewrite run_select_txn_single, Hs, run_joined_tier_name, Htier.
  assert (String.eqb (payment_method t) "orange_money"
          && String.eqb (status t) "pending" = false) as ->; [|reflexivity].
  apply andb_false_iff. rewrite !String.eqb_neq. exact Hno.
Qed.

(** X12. Ownership. The inquiry only sees the caller's transactions:
    for an id none of whose rows belongs to the caller nothing is
    answered, the gateway is not asked and the world is left as it
    was.  The caller does not get the 404 of the handler: the query
    matches no row, so [execute()] raises [APIError] first. *)
Theorem check_payment_status_not_owned (w : world) (tid uid : string)
    (io : gateway_io) (n1 n2 : Z) :
  (forall t, In t (payment_transactions (db w)) ->
     txn_id t = tid -> txn_user_id t <> uid) ->
  check_payment_status tid uid io n1 n2 w = (Raise APIError, w).
Proof.
  intros H. unfold check_payment_status. rewrite run_select_txn_single.
  rewrite filter_none; [reflexivity|].
  intros t Ht. destruct (String.eqb (txn_id t) tid) eqn:E; [|reflexivity].
  apply String.eqb_eq in E. apply (H t Ht) in E.
  apply String.eqb_neq in E. now rewrite E.
Qed.

(** ** Initiation *)

(** X13. A tier whose price is zero cannot be paid for: initiation
    raises 400 before it looks at any transaction, and writes
    nothing. *)
Theorem initiate_rejects_zero_price (settings : Settings)
    (subscription : InitiateSubscription) (uid uuid ymd : string)
    (io : gateway_io) (w : world) (tr : tier) :
  single (tiers_named (tier_value (sub_tier subscription))
            (subscription_tiers (db w))) = Some tr ->
  price_pula (snd tr) = 0 ->
  initiate_subscription settings subscription uid uuid ymd io w
  = (Raise (HTTPException 400 "Free tier doesn't require payment"), w).
Proof.
  intros Htier Hprice. unfold initiate_subscription.
  rewrite run_select_tier_by_name, Htier, Hprice. reflexivity.
Qed.



Lemma filter_app_singleton (p : txn -> bool) rows row :
  List.filter p rows = [] -> p row = true ->
  List.filter p (rows ++ [row]) = [row].
Proof.
  intros Hnone Hp. rewrite List.filter_app, Hnone. simpl. now rewrite Hp.
Qed.

(** X15. Gateway initiation and the callback meet on the reference.
    When the gateway accepts, initiation answers with the gateway's
    redirect URL and inserts a pending row whose
    [orange_money_order_id] is the generated reference; if no earlier
    row carries that order id, a callback for the reference is matched
    with exactly this row. *)
Theorem initiate_gateway_order_roundtrip (settings : Settings)
    (subscription : InitiateSubscription) (uid uuid ymd : string)
    (io : gateway_io) (w : world) (tr : tier) (om : om_response) (w1 : world) :
  sub_payment_method subscription = "orange_money" ->
  single (tiers_named (tier_value (sub_tier subscription))
            (subscription_tiers (db w))) = Some tr ->
  price_pula (snd tr) <> 0 ->
  List.filter (is_pending_for uid (fst tr)) (payment_transactions (db w)) = [] ->
  initiate_payment (make_txn_ref ymd uuid) (price_pula (snd tr)) io w
  = (Return om, w1) ->
  List.filter (has_order_id (make_txn_ref ymd uuid))
              (payment_transactions (db w)) = [] ->
  let txn_ref := make_txn_ref ymd uuid in
  let row :=
    Txn uuid uid (fst tr) (price_pula (snd tr)) "orange_money" txn_ref
        "pending" (Some txn_ref) (dict_get_default (resp_pay_token om) "")
        None None None None None None in
  exists w',
    initiate_subscription settings subscription uid uuid ymd io w
    = (Return {| payment_url := dict_get (resp_payment_url om);
                 init_transaction_id := uuid;
                 init_status := "pending";
                 init_message := "Redirecting to Orange Money for payment" |},
       w')
    /\ payment_transactions (db w')
       = (payment_transactions (db w) ++ [row])%list
    /\ txn_by_order_id (db w') txn_ref = Some row.
Proof.
  intros Hm Htier Hprice Hnone Hgw Hfresh txn_ref row.
  destruct (initiate_payment_db _ _ _ _ _ _ Hgw) as [Hdb Hj].
  unfold initiate_subscription.
  rewrite run_select_tier_by_name, Htier.
  destruct (Z.eqb_spec (price_pula (snd tr)) 0) as [|_]; [contradiction|].
  rewrite run_select_txns, Hnone, Hm.
  change (String.eqb "orange_money" "orange_money") with true. cbv iota.
  unfold bind at 1, try_except_HTTPException, bind at 1.
  rewrite Hgw. unfold ret at 1. cbv iota beta.
  rewrite run_insert_txn. unfold ret. eexists. split; [reflexivity|].
  simpl. rewrite Hdb. split; [reflexivity|].
  unfold txn_by_order_id. simpl.
  rewrite filter_app_singleton; [reflexivity | exact Hfresh |].
  unfold has_order_id. simpl. apply String.eqb_refl.
Qed.

(** ** Webhook intake, continued *)

(** X16. A callback for an order id that no row carries writes
    nothing; manual payments, which have no order id, are beyond the
    reach of any callback.  The gateway does not get the 404 of the
    handler: the query matches no row, so [execute()] raises
    [APIError] first. *)
Theorem webhook_unknown_order (w : world) (cb : OrangeMoneyCallback)
    (n1 n2 : Z) :
  (forall t, In t (payment_transactions (db w)) ->
     orange_money_order_id t <> Some (cb_order_id cb)) ->
  orange_money_webhook cb n1 n2 w = (Raise APIError, w).
Proof.
  intros H. unfold orange_money_webhook. rewrite run_select_txn_single.
  rewrite filter_none; [reflexivity|].
  intros t Ht. specialize (H t Ht). unfold has_order_id.
  destruct (orange_money_order_id t) as [o|]; [|reflexivity].
  apply String.eqb_neq. congruence.
Qed.

(** X17. A callback with the right amount whose status, in ASCII
    text, is not a success word in any letter case, answers
    [processed] and leaves the open transaction with status [failed]
    and the status text of the callback, as sent, in
    [orange_money_status], every other column as it was; no user row
    changes and nothing is activated. *)
Theorem webhook_failure_status (w : world) (cb : OrangeMoneyCallback)
    (t : txn) (n1 n2 : Z) :
  txn_by_order_id (db w) (cb_order_id cb) = Some t ->
  terminal (status t) = false ->
  float_ne_int (cb_amount cb) (amount_pula t) = false ->
  is_ascii (cb_status cb) = true ->
  is_success (cb_status cb) = false ->
  exists w',
    orange_money_webhook cb n1 n2 w = (Return "processed", w')
    /\ txn_by_order_id (db w') (cb_order_id cb)
       = Some (Txn (txn_id t) (txn_user_id t) (txn_tier_id t) (amount_pula t)
                   (payment_method t) (transaction_reference t)
                   "failed"
                   (orange_money_order_id t) (orange_money_pay_token t)
                   (orange_money_pay_url t)
                   (Some (cb_status cb))
                   (orange_money_transaction_id t) (user_payment_reference t)
                   (admin_notes t) (completed_at t))
    /\ users (db w') = users (db w)
    /\ journal w' = (journal w ++ [TxnUpdate (txn_id t) "failed"])%list
    /\ activations (journal w') = activations (journal w).
Proof.
  intros Hl Hopen Hamount _ Hbad.
  unfold orange_money_webhook. rewrite run_select_txn_single.
  pose proof Hl as Hl'. unfold txn_by_order_id in Hl'.
  rewrite Hl', Hopen, Hamount, Hbad. unfold bind, update_txn, ret. simpl.
  eexists. split; [reflexivity|]. simpl. repeat split.
  - apply (txn_by_order_id_update (db w) (cb_order_id cb) t
             (fun r => set_status "failed"
                         (set_orange_money_status (cb_status cb) r)));
      [|exact Hl].
    intros r. reflexivity.
  - rewrite activations_app. simpl. lia.
Qed.

(** X18. Completion is written before activation. If the row of the
    paying user is missing, a successful callback still leaves the
    transaction with status [completed], the stamp, and the status
    and transaction id of the callback, and then raises the
    [APIError] of the user query in [activate_subscription]; every
    later delivery is skipped as already processed, so that payment
    never activates. *)
Theorem webhook_completion_without_user (w : world) (cb : OrangeMoneyCallback)
    (t : txn) (n1 n2 : Z) :
  txn_by_order_id (db w) (cb_order_id cb) = Some t ->
  terminal (status t) = false ->
  float_ne_int (cb_amount cb) (amount_pula t) = false ->
  is_success (cb_status cb) = true ->
  users (db w) !! txn_user_id t = None ->
  exists w',
    orange_money_webhook cb n1 n2 w = (Raise APIError, w')
    /\ txn_by_order_id (db w') (cb_order_id cb)
       = Some (Txn (txn_id t) (txn_user_id t) (txn_tier_id t) (amount_pula t)
                   (payment_method t) (transaction_reference t)
                   "completed"
                   (orange_money_order_id t) (orange_money_pay_token t)
                   (orange_money_pay_url t)
                   (Some (cb_status cb))
                   (Some (cb_transaction_id cb))
                   (user_payment_reference t) (admin_notes t)
                   (Some n1))
    /\ journal w' = (journal w ++ [TxnUpdate (txn_id t) "completed"])%list
    /\ users (db w') = users (db w)
    /\ forall n3 n4,
         orange_money_webhook cb n3 n4 w' = (Return "already_processed", w').
Proof.
  intros Hl Hopen Hamount Hok Hu.
  unfold orange_money_webhook at 1. rewrite run_select_txn_single.
  pose proof Hl as Hl'. unfold txn_by_order_id in Hl'.
  rewrite Hl', Hopen, Hamount, Hok.
  unfold bind, update_txn, activate_subscription, bind, select_user. simpl.
  rewrite Hu. simpl.
  assert (Hrow : txn_by_order_id
                   (Store (users (db w)) (subscription_tiers (db w))
                      (update_where_id (txn_id t)
                         (fun r => set_status "completed"
                            (set_orange_money_transaction_id
                               (cb_transaction_id cb)
                               (set_orange_money_status (cb_status cb)
                                  (set_completed_at n1 r))))
                         (payment_transactions (db w))))
                   (cb_order_id cb)
                 = Some (set_status "completed"
                           (set_orange_money_transaction_id
                              (cb_transaction_id cb)
                              (set_orange_money_status (cb_status cb)
                                 (set_completed_at n1 t))))).
  { apply (txn_by_order_id_update (db w) (cb_order_id cb) t
             (fun r => set_status "completed"
                         (set_orange_money_transaction_id
                            (cb_transaction_id cb)
                            (set_orange_money_status (cb_status cb)
                               (set_completed_at n1 r)))));
      [|exact Hl].
    intros r. reflexivity. }
  eexists. split; [reflexivity|]. simpl. repeat split.
  - exact Hrow.
  - intros n3 n4. eapply webhook_terminal; [exact Hrow | reflexivity].
Qed.

(** ** Admin override, continued *)

(** X19. Approval. For the one open transaction with the requested
    id, approval answers [completed] and leaves the row with status
    [completed], [completed_at] the first clock reading and, when the
    request carries non-empty notes, those notes in [admin_notes],
    every other column as it was, whatever the method, amount or
    gateway state; it activates the tier of the transaction for its
    user for thirty days, stacked on an expiry that is still ahead and
    counted from the second clock reading otherwise, provided that sum
    is an instant a [datetime] holds. *)
Theorem admin_approve_completes (w : world) (approval : AdminApprovePayment)
    (n1 n2 : Z) (t : txn) (tr : tier_row) (u : user_row) :
  single (List.filter (is_open_with_id (approve_transaction_id approval))
            (payment_transactions (db w))) = Some t ->
  subscription_tiers (db w) !! txn_tier_id t = Some tr ->
  users (db w) !! txn_user_id t = Some u ->
  (forall E, subscription_expires_at u = Some E -> n2 < E ->
     datetime_min <= E + 30 * 86400000000 <= datetime_max) ->
  ((forall E, subscription_expires_at u = Some E -> E <= n2) ->
     datetime_min <= n2 + 30 * 86400000000 <= datetime_max) ->
  exists r w' e,
    admin_approve_payment approval n1 n2 w = (Return r, w')
    /\ resp_txn_status r = "completed"
    /\ In (Txn (txn_id t) (txn_user_id t) (txn_tier_id t) (amount_pula t)
               (payment_method t) (transaction_reference t)
               "completed"
               (orange_money_order_id t) (orange_money_pay_token t)
               (orange_money_pay_url t) (orange_money_status t)
               (orange_money_transaction_id t) (user_payment_reference t)
               (match approve_admin_notes approval with
                | Some notes =>
                  if String.eqb notes "" then admin_notes t else Some notes
                | None => admin_notes t
                end)
               (Some n1))
          (payment_transactions (db w'))
    /\ users (db w') !! txn_user_id t
       = Some (UserRow (txn_tier_id t) (Some e))
    /\ datetime_min <= e <= datetime_max
    /\ (forall E, subscription_expires_at u = Some E -> n2 < E ->
        e = E + 30 * 86400000000)
    /\ ((forall E, subscription_expires_at u = Some E -> E <= n2) ->
        e = n2 + 30 * 86400000000)
    /\ activations (journal w') = S (activations (journal w)).
Proof.
  intros Hs Htier Hu Hfuture Hpast. unfold admin_approve_payment.
  rewrite run_select_txn_single, Hs, run_joined_tier_name, Htier, run_update_txn.
  apply single_filter_In in Hs as [Hin _].
  unfold bind at 1.
  erewrite activate_subscription_run by (simpl; exact Hu).
  unfold ret.
  eexists _, _, (new_expires (subscription_expires_at u) n2 default_duration_days).
  split; [reflexivity|]. simpl.
  split; [reflexivity|].
  destruct (new_expires_cases (subscription_expires_at u) n2
              default_duration_days) as [Hf Hp].
  split; [|split; [|split; [|split; [|split]]]].
  - assert (Hrow : In (set_status "completed"
                         (with_notes (approve_admin_notes approval)
                            (set_completed_at n1 t)))
                      (update_where_id (txn_id t)
                         (fun r => set_status "completed"
                            (with_notes (approve_admin_notes approval)
                               (set_completed_at n1 r)))
                         (payment_transactions (db w)))).
    { apply (In_update_where_id
               (fun r => set_status "completed"
                           (with_notes (approve_admin_notes approval)
                              (set_completed_at n1 r))) t).
      exact Hin. }
    unfold with_notes in Hrow |- *.
    destruct (approve_admin_notes approval) as [notes|];
      [destruct (String.eqb notes "")|]; exact Hrow.
  - rewrite lookup_alter. case_decide; [|congruence]. rewrite Hu. reflexivity.
  - now apply new_expires_is_datetime.
  - exact Hf.
  - exact Hp.
  - rewrite !activations_app. simpl. lia.
Qed.

(** X20. Rejection. For the one open transaction with the requested
    id, rejection answers [failed] and leaves the row with status
    [failed] and, when the request carries non-empty notes, those
    notes in [admin_notes], every other column as it was; no user row
    changes and nothing is activated. *)
Theorem admin_reject_fails (w : world) (approval : AdminApprovePayment)
    (t : txn) (tr : tier_row) :
  single (List.filter (is_open_with_id (approve_transaction_id approval))
            (payment_transactions (db w))) = Some t ->
  subscription_tiers (db w) !! txn_tier_id t = Some tr ->
  exists r w',
    admin_reject_payment approval w = (Return r, w')
    /\ resp_txn_status r = "failed"
    /\ In (Txn (txn_id t) (txn_user_id t) (txn_tier_id t) (amount_pula t)
               (payment_method t) (transaction_reference t)
               "failed"
               (orange_money_order_id t) (orange_money_pay_token t)
               (orange_money_pay_url t) (orange_money_status t)
               (orange_money_transaction_id t) (user_payment_reference t)
               (match approve_admin_notes approval with
                | Some notes =>
                  if String.eqb notes "" then admin_notes t else Some notes
                | None => admin_notes t
                end)
               (completed_at t))
          (payment_transactions (db w'))
    /\ users (db w') = users (db w)
    /\ journal w' = (journal w ++ [TxnUpdate (txn_id t) "failed"])%list
    /\ activations (journal w') = activations (journal w).
Proof.
  intros Hs Htier. unfold admin_reject_payment.
  rewrite run_select_txn_single, Hs, run_joined_tier_name, Htier, run_update_txn.
  apply single_filter_In in Hs as [Hin _].
  unfold ret. eexists _, _. split; [reflexivity|]. simpl.
  repeat split.
  - assert (Hrow : In (set_status "failed"
                         (with_notes (approve_admin_notes approval) t))
                      (update_where_id (txn_id t)
                         (fun r => set_status "failed"
                            (with_notes (approve_admin_notes approval) r))
                         (payment_transactions (db w)))).
    { apply (In_update_where_id
               (fun r => set_status "failed"
                           (with_notes (approve_admin_notes approval) r)) t).
      exact Hin. }
    unfold with_notes in Hrow |- *.
    destruct (approve_admin_notes approval) as [notes|];
      [destruct (String.eqb notes "")|]; exact Hrow.
  - rewrite activations_app. simpl. lia.
Qed.

(** ** Expiry enforcement, continued *)

(** X21. When enforcement downgrades. For a user whose tier row and
    the free tier can be read, enforcement always answers with
    [is_active = True]; it downgrades exactly when the tier is not
    named [free] and the expiry is strictly before [now].  A paid
    tier with a null expiry, or one that expires exactly at [now], is
    left alone and nothing is written; a downgrade answers with the
    free tier, no expiry and the name of the tier lost. *)
Theorem enforcement_downgrades_exactly_when_lapsed (w : world) (uid : string)
    (now : Z) (u : user_row) (tr : tier_row) (free : tier) :
  users (db w) !! uid = Some u ->
  subscription_tiers (db w) !! current_tier_id u = Some tr ->
  single (tiers_named "free" (subscription_tiers (db w))) = Some free ->
  exists e w',
    check_and_enforce_subscription uid now w = (Return e, w')
    /\ is_active e = true
    /\ (was_downgraded e = true <->
        tier_name tr <> "free"
        /\ exists x, subscription_expires_at u = Some x /\ x < now)
    /\ (was_downgraded e = false ->
        w' = w /\ enf_tier e = (current_tier_id u, tr))
    /\ (was_downgraded e = true ->
        enf_tier e = free /\ expires_at e = None
        /\ previous_tier e = Some (tier_name tr)
        /\ users (db w') !! uid = Some (UserRow (fst free) None)).
Proof.
  intros Hu Ht Hfree. unfold check_and_enforce_subscription.
  rewrite run_select_user, Hu, run_join_tier, Ht.
  cbn [fmap option_fmap option_map snd fst].
  destruct (String.eqb_spec (tier_name tr) "free") as [Hname|Hname].
  { unfold ret. eexists _, _. split; [reflexivity|]. simpl.
    repeat split; try discriminate; tauto. }
  destruct (subscription_expires_at u) as [x|] eqn:Hx.
  2:{ unfold ret. eexists _, _. split; [reflexivity|]. simpl.
      repeat split; try discriminate.
      intros (_ & y & Hy & _). discriminate. }
  destruct (Z.gtb_spec now x) as [Hlt|Hge].
  - rewrite run_select_tier_by_name, Hfree, run_update_user.
    unfold ret. eexists _, _. split; [reflexivity|]. simpl.
    split; [reflexivity|]. split; [|split].
    + split; [|reflexivity]. intros _. split; [exact Hname|].
      exists x. split; [reflexivity | lia].
    + discriminate.
    + intros _. repeat split.
      rewrite lookup_alter. case_decide; [|congruence]. now rewrite Hu.
  - unfold ret. eexists _, _. split; [reflexivity|]. simpl.
    repeat split; try discriminate.
    intros (_ & y & [= <-] & Hy). lia.
Qed.

(** ** Activation, continued *)

(** X22. Renewals stack. For a user without a running subscription,
    an activation for [D1] days at [now1] followed by a second one
    for [D2] days at any instant before the first expiry ends at
    [now1] plus [D1 + D2] days, on the tier of the second, when both
    durations fit a [timedelta] and both expiries are instants a
    [datetime] holds. *)
Theorem two_activations_stack (w : world) (uid tid1 tid2 : string)
    (D1 D2 now1 now2 : Z) (u : user_row) :
  users (db w) !! uid = Some u ->
  (forall E, subscription_expires_at u = Some E -> E <= now1) ->
  now2 < now1 + D1 * 86400000000 ->
  - timedelta_max_days <= D1 <= timedelta_max_days ->
  - timedelta_max_days <= D2 <= timedelta_max_days ->
  datetime_min <= now1 + D1 * 86400000000 <= datetime_max ->
  datetime_min <= now1 + (D1 + D2) * 86400000000 <= datetime_max ->
  let w1 := snd (activate_subscription uid tid1 D1 now1 w) in
  let w2 := snd (activate_subscription uid tid2 D2 now2 w1) in
  users (db w2) !! uid
  = Some (UserRow tid2 (Some (now1 + (D1 + D2) * 86400000000)))
  /\ activations (journal w2) = S (S (activations (journal w))).
Proof.
  intros Hu Hpast Hnow _ _ _ _ w1 w2. subst w1 w2.
  rewrite (activate_subscription_run w uid tid1 D1 now1 u Hu).
  cbn [snd].
  assert (He1 : new_expires (subscription_expires_at u) now1 D1
                = now1 + D1 * 86400000000).
  { unfold new_expires, timedelta_days.
    destruct (subscription_expires_at u) as [E|]; [|reflexivity].
    specialize (Hpast E eq_refl).
    destruct (Z.gtb_spec E now1); [lia | reflexivity]. }
  rewrite He1.
  erewrite activate_subscription_run.
  2:{ simpl. rewrite lookup_alter. case_decide; [|congruence].
      rewrite Hu. reflexivity. }
  simpl. split.
  - rewrite lookup_alter. case_decide; [|congruence].
    rewrite lookup_alter. case_decide; [|congruence].
    rewrite Hu. simpl. unfold new_expires, timedelta_days.
    destruct (Z.gtb_spec (now1 + D1 * 86400000000) now2); [|lia].
    do 3 f_equal. lia.
  - rewrite !activations_app. simpl. lia.
Qed.

(** ** The token cache *)

Lemma token_expiry_seconds now expires_in seconds :
  (expires_in = ExpiresInAbsent /\ seconds = 3500)
  \/ expires_in = ExpiresInSeconds seconds ->
  - timedelta_max_days * 86400 <= seconds <= timedelta_max_days * 86400 + 86399 ->
  datetime_min <= now + seconds * 1000000 <= datetime_max ->
  token_expiry now expires_in = Some (now + seconds * 1000000).
Proof.
  intros Hin Hdays Hdate.
  assert (Hs : match expires_in with
               | ExpiresInAbsent => Some 3500
               | ExpiresInSeconds n => Some n
               | ExpiresInUnusable => None
               end = Some seconds)
    by (destruct Hin as [[-> ->]| ->]; reflexivity).
  unfold token_expiry. rewrite Hs. cbn [mbind option_bind].
  unfold timedelta_seconds.
  assert (Hlo : - timedelta_max_days <= seconds / 86400)
    by (apply Z.div_le_lower_bound; lia).
  assert (Hhi : seconds / 86400 <= timedelta_max_days).
  { apply Z.lt_succ_r. apply Z.div_lt_upper_bound; lia. }
  apply Z.leb_le in Hlo, Hhi. rewrite Hlo, Hhi. cbn [andb mbind option_bind].
  unfold datetime_add, is_datetime.
  destruct Hdate as [H1 H2]. apply Z.leb_le in H1, H2. rewrite H1, H2.
  reflexivity.
Qed.

(** X23. The access token is cached until it expires. After the
    token endpoint granted a non-empty token to a client without one,
    with [expires_in] a number of seconds (3500 when the key is
    absent) that a [timedelta] holds and an expiry that a [datetime]
    holds, every call strictly before that expiry (the grant instant
    plus the seconds) returns the token without asking the endpoint
    and leaves the world as it is.  From the expiry instant on the
    endpoint is asked again: if the request fails before a token is
    read, the call raises 502 and the cache is kept; if it answers
    with a token whose [expires_in] cannot be used, the call raises
    502 as well, but the new token has replaced the cached one while
    the old expiry stays. *)
Theorem access_token_is_cached (io : gateway_io) (w : world) (tok : string)
    (expires_in : expires_in_value) (seconds : Z) :
  _access_token (orange_money w) = None ->
  io_token io = TokenGranted tok expires_in ->
  tok <> "" ->
  (expires_in = ExpiresInAbsent /\ seconds = 3500)
  \/ expires_in = ExpiresInSeconds seconds ->
  - timedelta_max_days * 86400 <= seconds <= timedelta_max_days * 86400 + 86399 ->
  datetime_min <= io_now io + seconds * 1000000 <= datetime_max ->
  let expiry := io_now io + seconds * 1000000 in
  exists w1,
    _get_access_token io w = (Return tok, w1)
    /\ db w1 = db w /\ journal w1 = journal w
    /\ orange_money w1 = Client (Some tok) (Some expiry)
    /\ (forall io', io_now io' < expiry ->
          _get_access_token io' w1 = (Return tok, w1))
    /\ (forall io', expiry <= io_now io' -> io_token io' = TokenFailure ->
          _get_access_token io' w1
          = (Raise (HTTPException 502 "Payment service unavailable"), w1))
    /\ (forall io' tok', expiry <= io_now io' ->
          io_token io' = TokenGranted tok' ExpiresInUnusable ->
          _get_access_token io' w1
          = (Raise (HTTPException 502 "Payment service unavailable"),
             World (db w) (journal w) (Client (Some tok') (Some expiry)))).
Proof.
  intros Hnone Hgrant Hne Hin Hdays Hdate expiry.
  pose proof (token_expiry_seconds (io_now io) expires_in seconds
                Hin Hdays Hdate) as Hexp.
  unfold _get_access_token at 1.
  rewrite Hnone, Hgrant, Hexp. eexists. split; [reflexivity|].
  split; [reflexivity|]. split; [reflexivity|]. split; [reflexivity|].
  apply String.eqb_neq in Hne. fold expiry.
  split; [|split].
  - intros io' Hlt. unfold _get_access_token. simpl. rewrite Hne. simpl.
    destruct (Z.ltb_spec (io_now io') expiry); [reflexivity | lia].
  - intros io' Hge Hfail. unfold _get_access_token. simpl. rewrite Hne, Hfail.
    simpl.
    destruct (Z.ltb_spec (io_now io') expiry); [lia | reflexivity].
  - intros io' tok' Hge Hbad. unfold _get_access_token. simpl.
    rewrite Hne, Hbad. simpl.
    destruct (Z.ltb_spec (io_now io') expiry); [lia | reflexivity].
Qed.

(** ** Status words *)

Lemma upper_ascii_lower c : upper_ascii (lower_ascii c) = upper_ascii c.
Proof. destruct c as [[] [] [] [] [] [] [] []]; reflexivity. Qed.

Lemma upper_ascii_idem c : upper_ascii (upper_ascii c) = upper_ascii c.
Proof. destruct c as [[] [] [] [] [] [] [] []]; reflexivity. Qed.

Lemma upper_lower s : upper (lower s) = upper s.
Proof.
  induction s as [|c s IH]; simpl; [reflexivity|].
  now rewrite upper_ascii_lower, IH.
Qed.

Lemma upper_idem s : upper (upper s) = upper s.
Proof.
  induction s as [|c s IH]; simpl; [reflexivity|].
  now rewrite upper_ascii_idem, IH.
Qed.

Lemma lower_ascii_upper c : lower_ascii (upper_ascii c) = lower_ascii c.
Proof. destruct c as [[] [] [] [] [] [] [] []]; reflexivity. Qed.

Lemma lower_upper s : lower (upper s) = lower s.
Proof.
  induction s as [|c s IH]; simpl; [reflexivity|].
  now rewrite lower_ascii_upper, IH.
Qed.

(** X24. The success test of the webhook ignores letter case. For a
    status in ASCII text, lower-casing or upper-casing it never
    changes whether it counts as a success, and it counts exactly
    when its lower-case form is [success] or [successfull]. *)
Theorem is_success_ignores_case (s : string) :
  is_ascii s = true ->
  is_success (lower s) = is_success s
  /\ is_success (upper s) = is_success s
  /\ (is_success s = true <-> lower s = "success" \/ lower s = "successfull").
Proof.
  intros _. unfold is_success. rewrite upper_lower, upper_idem.
  split; [reflexivity|]. split; [reflexivity|].
  unfold str_in. simpl. rewrite orb_false_r, orb_true_iff, !String.eqb_eq.
  split.
  - intros [H|H]; [left | right]; rewrite <- (lower_upper s), H; reflexivity.
  - intros [H|H]; [left | right]; rewrite <- (upper_lower s), H; reflexivity.
Qed.

(** ** Subscription status and listings *)

Lemma enforce_returns uid now w e w' :
  check_and_enforce_subscription uid now w = (Return e, w') ->
  is_active e = true
  /\ (forall x, expires_at e = Some x -> now <= x)
  /\ (tier_name (snd (enf_tier e)) = "free" -> expires_at e = None).
Proof.
  unfold check_and_enforce_subscription. rewrite run_select_user.
  destruct (users (db w) !! uid) as [u|]; [|discriminate].
  rewrite run_join_tier.
  destruct (subscription_tiers (db w) !! current_tier_id u) as [tr|];
    [|discriminate].
  cbn [fmap option_fmap option_map snd fst].
  destruct (String.eqb_spec (tier_name tr) "free") as [Hname|Hname].
  { intros [= <- <-]. simpl. split; [|split]; [reflexivity | discriminate | reflexivity]. }
  destruct (subscription_expires_at u) as [x|] eqn:Hx.
  2:{ intros [= <- <-]. simpl.
      split; [|split]; [reflexivity | discriminate | reflexivity]. }
  destruct (Z.gtb_spec now x) as [Hlt|Hge].
  - rewrite run_select_tier_by_name.
    destruct (single _) as [[fid ft]|]; [|discriminate].
    rewrite run_update_user. intros [= <- <-]. simpl.
    split; [|split]; [reflexivity | discriminate | reflexivity].
  - intros [= <- <-]. simpl. split; [|split]; [reflexivity | |].
    + intros y [= <-]. lia.
    + intros; contradiction.
Qed.

Lemma below_limit_spec limit count :
  below_limit limit count = true <->
  match limit with None => True | Some l => count < l end.
Proof.
  unfold below_limit. destruct limit as [l|]; [|tauto].
  apply Z.ltb_lt.
Qed.

(** X25. What the status endpoint reports. Whenever it answers, the
    subscription is reported active; the listing count is the number
    of the caller's active listings; [can_create_listing] says that
    the tier is unlimited or the count is below its limit; the free
    tier is reported without expiry; an expiry that is reported is not
    before the enforcement instant, and [days_remaining] is the number
    of whole days from the second clock reading to it, never
    negative. *)
Theorem subscription_status_is_consistent (uid : string) (n1 n2 : Z)
    (s : site) (r : SubscriptionStatusResponse) (s' : site) :
  get_subscription_status uid n1 n2 s = (Return r, s') ->
  status_is_active r = true
  /\ car_listings s' = car_listings s
  /\ status_listing_count r = active_listing_count uid (car_listings s)
  /\ (can_create_listing r = true <->
      match status_listing_limit r with
      | None => True
      | Some l => status_listing_count r < l
      end)
  /\ (status_current_tier r = "free" -> status_expires_at r = None)
  /\ match status_expires_at r with
     | None => days_remaining r = None
     | Some e =>
       n1 <= e
       /\ exists d, days_remaining r = Some d /\ 0 <= d
                    /\ (n2 <= e -> d * 86400000000 <= e - n2
                                   /\ e - n2 < (d + 1) * 86400000000)
                    /\ (e < n2 -> d = 0)
     end.
Proof.
  unfold get_subscription_status.
  destruct (check_and_enforce_subscription uid n1 (ledger s))
    as [[e|x] w'] eqn:He; [|discriminate].
  apply enforce_returns in He as (Hact & Hexp & Hfree).
  intros [= <- <-]. simpl.
  split; [exact Hact|]. split; [reflexivity|]. split; [reflexivity|].
  split; [apply below_limit_spec|]. split; [exact Hfree|].
  destruct (expires_at e) as [x|]; [|reflexivity].
  split; [now apply Hexp|].
  exists (Z.max 0 ((x - n2) / 86400000000)). split; [reflexivity|].
  split; [lia|]. split.
  - intros Hle.
    assert (0 <= (x - n2) / 86400000000) by (apply Z.div_pos; lia).
    rewrite Z.max_r by lia.
    pose proof (Z.mul_div_le (x - n2) 86400000000 ltac:(lia)).
    pose proof (Z.mul_succ_div_gt (x - n2) 86400000000 ltac:(lia)).
    lia.
  - intros Hlt.
    assert ((x - n2) / 86400000000 < 0) by (apply Z.div_lt_upper_bound; lia).
    lia.
Qed.

Lemma active_listing_count_app uid ls row :
  active_listing_count uid (ls ++ [row])
  = active_listing_count uid ls
    + (if is_active_listing_of uid row then 1 else 0).
Proof.
  unfold active_listing_count. rewrite List.filter_app, length_app.
  simpl. destruct (is_active_listing_of uid row); simpl; lia.
Qed.

(** X26. The status flag predicts the listing endpoint. From the same
    site and enforcement instant, [create_listing] inserts exactly
    when [get_subscription_status] reports [can_create_listing], and
    is refused with the count and limit of the 403 detail exactly when
    it reports the opposite. *)
Theorem can_create_listing_predicts_create (uid : string) (n1 n2 : Z)
    (s : site) (r : SubscriptionStatusResponse) (s1 : site)
    (listing : CreateListing) (new_id : string) (created expires : Z) :
  get_subscription_status uid n1 n2 s = (Return r, s1) ->
  (can_create_listing r = true ->
   exists s2,
     create_listing listing uid n1 new_id created expires s
     = (Done (ListingRow new_id uid listing "active" created expires), s2))
  /\ (can_create_listing r = false ->
      exists limit s2,
        status_listing_limit r = Some limit
        /\ create_listing listing uid n1 new_id created expires s
           = (LimitReached {| detail_current_tier := status_current_tier r;
                              detail_listing_count := status_listing_count r;
                              detail_listing_limit := limit |}, s2)
        /\ car_listings s2 = car_listings s).
Proof.
  unfold get_subscription_status, create_listing.
  destruct (check_and_enforce_subscription uid n1 (ledger s))
    as [[e|x] w'] eqn:He; [|discriminate].
  intros [= <- <-]. simpl. unfold below_limit.
  destruct (listing_limit (snd (enf_tier e))) as [l|].
  - destruct (Z.ltb_spec (active_listing_count uid (car_listings s)) l),
             (Z.geb_spec (active_listing_count uid (car_listings s)) l);
      try lia; split; try discriminate; intros _; eauto.
  - split; [eauto | discriminate].
Qed.

(** X27. The listing limit. A listing is inserted only while the
    count of the caller's active listings is below the limit of the
    tier in force after enforcement; the insertion appends one active
    row owned by the caller, so the count grows by one and does not
    pass the limit.  A refusal leaves [car_listings] as it was. *)
Theorem create_listing_respects_limit (listing : CreateListing)
    (uid : string) (now : Z) (new_id : string) (created expires : Z)
    (s s' : site) (res : listing_outcome listing_row) :
  create_listing listing uid now new_id created expires s = (res, s') ->
  match res with
  | Done row =>
    row = ListingRow new_id uid listing "active" created expires
    /\ car_listings s' = (car_listings s ++ [row])%list
    /\ active_listing_count uid (car_listings s')
       = active_listing_count uid (car_listings s) + 1
    /\ exists e, fst (check_and_enforce_subscription uid now (ledger s))
                 = Return e
                 /\ forall limit, listing_limit (snd (enf_tier e)) = Some limit ->
                      active_listing_count uid (car_listings s') <= limit
  | LimitReached d =>
    car_listings s' = car_listings s
    /\ detail_listing_count d = active_listing_count uid (car_listings s)
    /\ detail_listing_limit d <= detail_listing_count d
  | Failed _ => car_listings s' = car_listings s
  end.
Proof.
  unfold create_listing.
  destruct (check_and_enforce_subscription uid now (ledger s))
    as [[e|x] w'] eqn:He; [|intros [= <- <-]; reflexivity].
  assert (Hcount : forall row,
             row = ListingRow new_id uid listing "active" created expires ->
             active_listing_count uid (car_listings s ++ [row])
             = active_listing_count uid (car_listings s) + 1).
  { intros row ->. rewrite active_listing_count_app.
    unfold is_active_listing_of. simpl. now rewrite String.eqb_refl. }
  destruct (listing_limit (snd (enf_tier e))) as [l|] eqn:Hl.
  - destruct (Z.geb_spec (active_listing_count uid (car_listings s)) l).
    + intros [= <- <-]. simpl. split; [reflexivity|]. split; [reflexivity|]. lia.
    + intros [= <- <-]. simpl. split; [reflexivity|]. split; [reflexivity|].
      split; [now apply Hcount|].
      exists e. split; [reflexivity|]. intros limit Hlim.
      rewrite Hl in Hlim. injection Hlim as <-.
      rewrite Hcount by reflexivity. lia.
  - intros [= <- <-]. simpl. split; [reflexivity|]. split; [reflexivity|].
    split; [now apply Hcount|].
    exists e. split; [reflexivity|]. intros limit Hlim.
    rewrite Hl in Hlim. discriminate Hlim.
Qed.

(** ** Deleting and browsing listings *)

Lemma delete_listing_table lid uid s :
  car_listings (snd (delete_listing lid uid s))
  = map (fun l => if is_listing_of lid uid l
                  then set_listing_status "removed" l else l)
        (car_listings s)
  /\ ledger (snd (delete_listing lid uid s)) = ledger s.
Proof.
  unfold delete_listing. destruct (List.filter _ _); simpl; auto.
Qed.

Lemma is_listing_of_removed lid uid l :
  is_listing_of lid uid (set_listing_status "removed" l) = is_listing_of lid uid l.
Proof. reflexivity. Qed.

Lemma map_removed_id lid uid ls :
  (forall l, In l ls -> is_listing_of lid uid l = false) ->
  map (fun l => if is_listing_of lid uid l
                then set_listing_status "removed" l else l) ls = ls.
Proof.
  induction ls as [|a ls IH]; simpl; intros H; [reflexivity|].
  rewrite (H a) by now left. f_equal. apply IH. intros l Hl. apply H. now right.
Qed.

Lemma filter_map_removed lid uid ls :
  List.filter (is_listing_of lid uid)
    (map (fun l => if is_listing_of lid uid l
                   then set_listing_status "removed" l else l) ls)
  = map (set_listing_status "removed") (List.filter (is_listing_of lid uid) ls).
Proof.
  induction ls as [|a ls IH]; simpl; [reflexivity|].
  destruct (is_listing_of lid uid a) eqn:E; simpl.
  - rewrite is_listing_of_removed, E. simpl. now rewrite IH.
  - rewrite E. exact IH.
Qed.

(** X28. Deleting is a soft delete of the caller's own listing. The
    handler answers 404 exactly when no row has the given id and the
    caller as owner, and then changes nothing.  Otherwise it sets the
    status of those rows to [removed] and touches nothing else: no row
    is dropped, every other row and the ledger are as before.  It does
    not look at the status, so deleting again succeeds again and
    changes nothing more. *)
Theorem delete_listing_is_soft (lid uid : string) (s : site) :
  let res := fst (delete_listing lid uid s) in
  let s' := snd (delete_listing lid uid s) in
  ledger s' = ledger s
  /\ length (car_listings s') = length (car_listings s)
  /\ (forall (i : nat) l, car_listings s !! i = Some l ->
        car_listings s' !! i
        = Some (if is_listing_of lid uid l
                then set_listing_status "removed" l else l))
  /\ ((exists l, In l (car_listings s) /\ listing_id l = lid
                 /\ listing_user_id l = uid)
      -> res = Return tt /\ delete_listing lid uid s' = (Return tt, s'))
  /\ (~ (exists l, In l (car_listings s) /\ listing_id l = lid
                   /\ listing_user_id l = uid)
      -> res = Raise (HTTPException 404 "Listing not found") /\ s' = s).
Proof.
  intros res s'. subst res s'.
  destruct (delete_listing_table lid uid s) as [Htab Hled].
  split; [exact Hled|]. split; [rewrite Htab; apply length_map|].
  split.
  { intros i l Hl. rewrite Htab, list_lookup_fmap, Hl. reflexivity. }
  assert (Hfilter : forall l, In l (car_listings s) ->
            is_listing_of lid uid l = true <->
            listing_id l = lid /\ listing_user_id l = uid).
  { intros l _. unfold is_listing_of.
    now rewrite andb_true_iff, !String.eqb_eq. }
  split.
  - intros (l & Hin & Hid & Hown).
    assert (Hhit : In l (List.filter (is_listing_of lid uid) (car_listings s)))
      by (apply filter_In; split; [exact Hin | now apply Hfilter]).
    assert (Hfirst : fst (delete_listing lid uid s) = Return tt).
    { unfold delete_listing. rewrite filter_map_removed.
      destruct (List.filter (is_listing_of lid uid) (car_listings s));
        [destruct Hhit | reflexivity]. }
    split; [exact Hfirst|].
    assert (Hs' : snd (delete_listing lid uid s)
                  = Site (ledger s)
                      (map (fun l => if is_listing_of lid uid l
                                     then set_listing_status "removed" l else l)
                           (car_listings s))).
    { destruct (snd (delete_listing lid uid s)) as [w1 ls1].
      simpl in Htab, Hled. now rewrite Htab, Hled. }
    rewrite Hs'. unfold delete_listing at 1. cbn [car_listings ledger].
    rewrite filter_map_removed, filter_map_removed.
    destruct (List.filter (is_listing_of lid uid) (car_listings s));
      [destruct Hhit|]. cbn [map].
    f_equal. f_equal.
    rewrite map_map. apply map_ext. intros a.
    destruct (is_listing_of lid uid a) eqn:Ea.
    + rewrite is_listing_of_removed, Ea. reflexivity.
    + rewrite Ea. reflexivity.
  - intros Hno.
    assert (Hnone : forall l, In l (car_listings s) ->
              is_listing_of lid uid l = false).
    { intros l Hin. destruct (is_listing_of lid uid l) eqn:E; [|reflexivity].
      exfalso. apply Hno. exists l. split; [exact Hin|].
      apply Hfilter; auto. }
    unfold delete_listing. rewrite map_removed_id by exact Hnone.
    rewrite filter_none by exact Hnone. simpl.
    split; [reflexivity|]. now destruct s.
Qed.

(** *** Browsing *)

Lemma insert_newest_first_In x l ls :
  In x (insert_newest_first l ls) <-> x = l \/ In x ls.
Proof.
  induction ls as [|a ls IH]; simpl; [intuition|].
  destruct (listing_created_at a <=? listing_created_at l)%Z; simpl;
    [intuition|]. rewrite IH. intuition.
Qed.

Lemma order_newest_first_In x ls : In x (order_newest_first ls) <-> In x ls.
Proof.
  unfold order_newest_first. induction ls as [|a ls IH]; simpl; [tauto|].
  rewrite insert_newest_first_In, IH. intuition.
Qed.

Lemma insert_newest_first_sorted l ls :
  StronglySorted newer_or_equal ls ->
  StronglySorted newer_or_equal (insert_newest_first l ls).
Proof.
  induction 1 as [|a ls Hs IH Hall]; simpl.
  - repeat constructor.
  - destruct (Z.leb_spec (listing_created_at a) (listing_created_at l)).
    + constructor; [now constructor|].
      constructor; [unfold newer_or_equal; lia|].
      apply Forall_forall. intros y Hy.
      rewrite Forall_forall in Hall. specialize (Hall y Hy).
      unfold newer_or_equal in *. lia.
    + constructor; [exact IH|].
      apply Forall_forall. intros y Hy.
      apply list_elem_of_In, insert_newest_first_In in Hy as [->|Hy].
      * unfold newer_or_equal. lia.
      * rewrite Forall_forall in Hall. apply Hall. now apply list_elem_of_In.
Qed.

Lemma order_newest_first_sorted ls :
  StronglySorted newer_or_equal (order_newest_first ls).
Proof.
  unfold order_newest_first. induction ls as [|a ls IH]; simpl.
  - constructor.
  - now apply insert_newest_first_sorted.
Qed.

Lemma text_filter_spec f v :
  text_filter f v = true <-> forall x, f = Some x -> x <> "" -> v = x.
Proof.
  unfold text_filter. destruct f as [x|].
  - destruct (String.eqb_spec x "") as [->|Hne].
    + split; [intros _ y [= <-] H; contradiction | reflexivity].
    + rewrite String.eqb_eq. split.
      * intros -> y [= <-] _. reflexivity.
      * intros H. now apply H.
  - split; [intros _ x; discriminate | reflexivity].
Qed.

Lemma type_filter_spec f v :
  type_filter f v = true <-> forall t, f = Some t -> v = t.
Proof.
  unfold type_filter. destruct f as [[]|], v; split; try reflexivity;
    try discriminate; try (intros _ t [= <-]; reflexivity);
    try (intros _ t; discriminate);
    intros H; specialize (H _ eq_refl); discriminate.
Qed.

Lemma min_filter_spec f v :
  min_filter f v = true <-> forall m, f = Some m -> m <> 0 -> m <= v.
Proof.
  unfold min_filter. destruct f as [m|].
  - destruct (Z.eqb_spec m 0) as [->|Hne].
    + split; [intros _ y [= <-] H; contradiction | reflexivity].
    + rewrite Z.leb_le. split.
      * intros H y [= <-] _. exact H.
      * intros H. now apply H.
  - split; [intros _ x; discriminate | reflexivity].
Qed.

Lemma max_filter_spec f v :
  max_filter f v = true <-> forall m, f = Some m -> m <> 0 -> v <= m.
Proof.
  unfold max_filter. destruct f as [m|].
  - destruct (Z.eqb_spec m 0) as [->|Hne].
    + split; [intros _ y [= <-] H; contradiction | reflexivity].
    + rewrite Z.leb_le. split.
      * intros H y [= <-] _. exact H.
      * intros H. now apply H.
  - split; [intros _ x; discriminate | reflexivity].
Qed.

Lemma get_listings_In type_ brand_ min_price max_price location_ s l :
  In l (get_listings type_ brand_ min_price max_price location_ s) <->
  In l (car_listings s)
  /\ listing_status l = "active"
  /\ (forall t, type_ = Some t -> listing_type (listing_data l) = t)
  /\ (forall b, brand_ = Some b -> b <> "" -> brand (listing_data l) = b)
  /\ (forall m, min_price = Some m -> m <> 0 -> m <= price (listing_data l))
  /\ (forall m, max_price = Some m -> m <> 0 -> price (listing_data l) <= m)
  /\ (forall x, location_ = Some x -> x <> "" -> location (listing_data l) = x).
Proof.
  unfold get_listings. rewrite order_newest_first_In, filter_In.
  rewrite !andb_true_iff, String.eqb_eq.
  rewrite type_filter_spec, !text_filter_spec, min_filter_spec, max_filter_spec.
  tauto.
Qed.

Lemma insert_newest_first_perm l ls :
  Permutation (insert_newest_first l ls) (l :: ls).
Proof.
  induction ls as [|a ls IH]; simpl; [reflexivity|].
  destruct (listing_created_at a <=? listing_created_at l)%Z; [reflexivity|].
  rewrite IH. apply perm_swap.
Qed.

Lemma order_newest_first_perm ls : Permutation (order_newest_first ls) ls.
Proof.
  unfold order_newest_first. induction ls as [|a ls IH]; simpl; [reflexivity|].
  rewrite insert_newest_first_perm. now constructor.
Qed.

(** X29. Browsing. [get_listings] returns, newest first, exactly the
    rows of [car_listings] that are [active] and pass every filter
    that is given and true in Python's sense (an empty brand or
    location and a price bound of zero filter nothing), each as often
    as the table has it: the result is a rearrangement of the table
    filtered by that condition. *)
Theorem get_listings_returns_matching_active
    (type_ : option ListingType) (brand_ : option string)
    (min_price max_price : option Z) (location_ : option string) (s : site) :
  let result := get_listings type_ brand_ min_price max_price location_ s in
  let shown (l : listing_row) : Prop :=
    listing_status l = "active"
    /\ (forall t, type_ = Some t -> listing_type (listing_data l) = t)
    /\ (forall b, brand_ = Some b -> b <> "" -> brand (listing_data l) = b)
    /\ (forall m, min_price = Some m -> m <> 0 -> m <= price (listing_data l))
    /\ (forall m, max_price = Some m -> m <> 0 -> price (listing_data l) <= m)
    /\ (forall x, location_ = Some x -> x <> "" ->
          location (listing_data l) = x) in
  StronglySorted
    (fun a b => listing_created_at b <= listing_created_at a) result
  /\ (forall l, In l result <-> In l (car_listings s) /\ shown l)
  /\ exists test : listing_row -> bool,
       (forall l, test l = true <-> shown l)
       /\ Permutation result (List.filter test (car_listings s)).
Proof.
  intros result shown. split; [|split].
  - unfold result, get_listings. apply order_newest_first_sorted.
  - intros l. apply get_listings_In.
  - eexists. split; [|apply order_newest_first_perm].
    intros l. unfold shown. cbv beta.
    rewrite !andb_true_iff, String.eqb_eq.
    rewrite type_filter_spec, !text_filter_spec, min_filter_spec, max_filter_spec.
    tauto.
Qed.

Lemma active_count_after_delete lid uid ls :
  active_listing_count uid
    (map (fun l => if is_listing_of lid uid l
                   then set_listing_status "removed" l else l) ls)
  <= active_listing_count uid ls
  /\ (forall l, In l ls -> is_listing_of lid uid l = true ->
        listing_status l = "active" ->
        active_listing_count uid
          (map (fun l => if is_listing_of lid uid l
                         then set_listing_status "removed" l else l) ls)
        < active_listing_count uid ls).
Proof.
  unfold active_listing_count.
  induction ls as [|a ls [IHle IHlt]]; simpl; [split; [lia | intros l []]|].
  destruct (is_listing_of lid uid a) eqn:Ea.
  - assert (is_active_listing_of uid (set_listing_status "removed" a) = false)
      as -> by (unfold is_active_listing_of; simpl; apply andb_false_r).
    destruct (is_active_listing_of uid a) eqn:Eact; simpl.
    + split; [lia|]. intros; lia.
    + split; [exact IHle|]. intros l [<-|Hin] Hhit Hst.
      * unfold is_active_listing_of in Eact. unfold is_listing_of in Ea.
        rewrite andb_true_iff, !String.eqb_eq in Ea. destruct Ea as [_ Hown].
        rewrite Hown, Hst in Eact. rewrite String.eqb_refl in Eact.
        discriminate Eact.
      * now apply IHlt with l.
  - destruct (is_active_listing_of uid a); simpl.
    + split; [lia|]. intros l [<-|Hin] Hhit Hst; [congruence|].
      specialize (IHlt l Hin Hhit Hst). lia.
    + split; [exact IHle|]. intros l [<-|Hin] Hhit Hst; [congruence|].
      now apply IHlt with l.
Qed.

(** X30. What a deleted listing looks like afterwards. After the
    owner deleted a listing it is still among [get_my_listings], with
    status [removed]; no call of [get_listings] returns it; and if it
    was active, the owner's count of active listings, the one the
    limit is checked against, went down. *)
Theorem deleted_listing_is_hidden_but_kept (lid uid : string) (s : site)
    (l : listing_row) :
  In l (car_listings s) ->
  listing_id l = lid ->
  listing_user_id l = uid ->
  let s' := snd (delete_listing lid uid s) in
  In (set_listing_status "removed" l) (get_my_listings uid s')
  /\ (forall type_ brand_ min_price max_price location_ x,
        In x (get_listings type_ brand_ min_price max_price location_ s') ->
        ~ (listing_id x = lid /\ listing_user_id x = uid))
  /\ (listing_status l = "active" ->
      active_listing_count uid (car_listings s')
      < active_listing_count uid (car_listings s)).
Proof.
  intros Hin Hid Hown s'. subst s'.
  destruct (delete_listing_table lid uid s) as [Htab _].
  assert (Hhit : is_listing_of lid uid l = true).
  { unfold is_listing_of. rewrite Hid, Hown, !String.eqb_refl. reflexivity. }
  split; [|split].
  - unfold get_my_listings. rewrite order_newest_first_In, filter_In, Htab.
    split.
    + apply in_map_iff. exists l. now rewrite Hhit.
    + simpl. rewrite Hown. apply String.eqb_refl.
  - intros type_ brand_ min_price max_price location_ x Hx [Hxid Hxown].
    apply get_listings_In in Hx as (Hx & Hact & _).
    rewrite Htab in Hx. apply in_map_iff in Hx as (y & Hy & _).
    destruct (is_listing_of lid uid y) eqn:Ey.
    + subst x. simpl in Hact. discriminate Hact.
    + subst x. unfold is_listing_of in Ey.
      rewrite Hxid, Hxown, !String.eqb_refl in Ey. discriminate Ey.
  - intros Hact. rewrite Htab.
    now apply (proj2 (active_count_after_delete lid uid (car_listings s))) with l.
Qed.

(** ** The further properties at concrete inputs *)

Lemma pending_to_paid_step :
  step example_settings pending_gateway_world paid_world.
Proof.
  exact (step_webhook example_settings callback_paid 10 20 pending_gateway_world).
Defined.

Lemma pending_gateway_rows :
  payment_transactions (db pending_gateway_world) = [pending_gateway_txn].
Proof. vm_compute. reflexivity. Defined.

Lemma paid_rows : payment_transactions (db paid_world) = [paid_txn].
Proof. vm_compute. reflexivity. Defined.

(** X1 across the delivery of the paid callback. *)
Lemma catalog_and_user_set_are_fixed_witness :
  subscription_tiers (db paid_world)
  = subscription_tiers (db pending_gateway_world)
  /\ dom (users (db paid_world)) = dom (users (db pending_gateway_world)).
Proof.
  apply (catalog_and_user_set_are_fixed example_settings).
  apply rtc_once. exact pending_to_paid_step.
Defined.

(** X2 across the delivery of the paid callback. *)
Lemma transactions_are_never_deleted_witness :
  exists kept added,
    payment_transactions (db paid_world) = (kept ++ added)%list
    /\ Forall2 same_payment (payment_transactions (db pending_gateway_world))
         kept.
Proof.
  apply (transactions_are_never_deleted example_settings).
  apply rtc_once. exact pending_to_paid_step.
Defined.

(** X3 for the payment that the callback completes. *)
Lemma status_machine_witness :
  paid_txn = pending_gateway_txn
  \/ (terminal (status pending_gateway_txn) = false
      /\ same_payment pending_gateway_txn paid_txn
      /\ (status paid_txn = "completed" \/ status paid_txn = "failed"
          \/ (status paid_txn = "awaiting_verification"
              /\ status pending_gateway_txn = "pending"))).
Proof.
  apply (status_machine example_settings pending_gateway_world paid_world 0%nat).
  - rewrite pending_gateway_rows. simpl. apply NoDup_singleton.
  - exact pending_to_paid_step.
  - rewrite pending_gateway_rows. reflexivity.
  - rewrite paid_rows. reflexivity.
Defined.

(** X4 for a refunded payment that receives a callback. *)
Lemma refunded_is_never_written_witness :
  In (set_status "refunded" pending_gateway_txn)
     (payment_transactions
        (db (snd (orange_money_webhook callback_paid 10 20 refunded_world))))
  /\ In (set_status "refunded" pending_gateway_txn)
        (payment_transactions (db refunded_world)).
Proof.
  assert (Hin : In (set_status "refunded" pending_gateway_txn)
                  (payment_transactions
                     (db (snd (orange_money_webhook callback_paid 10 20
                                 refunded_world)))))
    by (vm_compute; left; reflexivity).
  split; [exact Hin|].
  apply (refunded_is_never_written example_settings refunded_world
           (snd (orange_money_webhook callback_paid 10 20 refunded_world))).
  - apply rtc_once. apply step_webhook.
  - exact Hin.
  - reflexivity.
Defined.

(** X5 for the user whose payment the callback completes. *)
Lemma tier_granted_only_by_completion_witness :
  users (db paid_world) !! "u1"
  = Some (UserRow "t-basic" (Some 2592000000020))
  /\ exists t e,
       In t (payment_transactions (db pending_gateway_world))
       /\ txn_user_id t = "u1"
       /\ UserRow "t-basic" (Some 2592000000020)
          = UserRow (txn_tier_id t) (Some e).
Proof.
  assert (Hu : users (db paid_world) !! "u1"
               = Some (UserRow "t-basic" (Some 2592000000020)))
    by (vm_compute; reflexivity).
  split; [exact Hu|].
  destruct (tier_granted_only_by_completion example_settings
              pending_gateway_world paid_world "u1" _ pending_to_paid_step Hu)
    as [Hsame | [[Hnone _] | (t & e & Hin & _ & Hown & Hrow & _)]].
  - vm_compute in Hsame. discriminate Hsame.
  - discriminate Hnone.
  - exists t, e. auto.
Defined.

(** X6 for the manual payment of the example. *)
Lemma confirm_payment_holds_witness :
  exists r w',
    confirm_payment
      {| confirm_transaction_id := uuid_a; payment_reference := "RCPT-77" |}
      "u1" manual_pending_world = (Return r, w')
    /\ resp_txn_status r = "awaiting_verification"
    /\ In (Txn uuid_a "u1" "t-basic" 50 "manual" "PD-20250101-3F2A9C1E"
               "awaiting_verification" None None None None None
               (Some "RCPT-77") None None)
          (payment_transactions (db w'))
    /\ users (db w') = users (db manual_pending_world).
Proof.
  destruct (confirm_payment_holds manual_pending_world
              {| confirm_transaction_id := uuid_a;
                 payment_reference := "RCPT-77" |}
              "u1" manual_pending_txn basic_tier_row)
    as (r & w' & Hrun & Hst & _ & Hin & _ & Hu & _).
  - vm_compute. reflexivity.
  - vm_compute. reflexivity.
  - exists r, w'. auto.
Defined.

(** X7: a payment that was confirmed cannot be confirmed again. *)
Lemma confirm_payment_not_found_witness :
  confirm_payment
    {| confirm_transaction_id := uuid_a; payment_reference := "RCPT-78" |}
    "u1" awaiting_world
  = (Raise APIError, awaiting_world).
Proof.
  apply confirm_payment_not_found.
  intros t Hin _. vm_compute in Hin. destruct Hin as [<-|[]].
  right. discriminate.
Defined.

Lemma pending_gateway_lookup uid :
  uid = "u1" ->
  single (List.filter (fun r => String.eqb (txn_id r) uuid_a
                                && String.eqb (txn_user_id r) uid)
            (payment_transactions (db pending_gateway_world)))
  = Some pending_gateway_txn.
Proof. intros ->. vm_compute. reflexivity. Defined.

Lemma pending_gateway_tier :
  subscription_tiers (db pending_gateway_world) !! "t-basic"
  = Some basic_tier_row.
Proof. vm_compute. reflexivity. Defined.

(** X8 when the gateway answers [success] in lower case. *)
Lemma check_payment_status_completes_witness :
  exists r w',
    check_payment_status uuid_a "u1" (gateway_reports "success") 10 20
      pending_gateway_world = (Return r, w')
    /\ resp_txn_status r = "completed"
    /\ In (Txn uuid_a "u1" "t-basic" 50 "orange_money" "PD-20250101-3F2A9C1E"
               "completed" (Some "PD-20250101-3F2A9C1E") (Some "ptk-1") None
               (Some "SUCCESS") None None None (Some 10))
          (payment_transactions (db w'))
    /\ users (db w') !! "u1"
       = Some (UserRow "t-basic" (Some (20 + 30 * 86400000000))).
Proof.
  destruct (check_payment_status_completes pending_gateway_world uuid_a "u1"
              (gateway_reports "success") 10 20 pending_gateway_txn
              basic_tier_row "PD-20250101-3F2A9C1E"
              (OmResponse (Text "success") Absent Absent) pending_gateway_world
              (UserRow "t-free" None) "success")
    as (r & w' & e & Hrun & Hst & Hrow & Hu & _ & _ & Hnone & _).
  - now apply pending_gateway_lookup.
  - exact pending_gateway_tier.
  - reflexivity.
  - reflexivity.
  - reflexivity.
  - discriminate.
  - vm_compute. reflexivity.
  - reflexivity.
  - vm_compute. reflexivity.
  - vm_compute. reflexivity.
  - intros E. discriminate.
  - intros _. unfold datetime_min, datetime_max. lia.
  - exists r, w'. split; [exact Hrun|]. split; [exact Hst|].
    split; [exact Hrow|].
    rewrite Hu, Hnone; [reflexivity|]. intros E. discriminate.
Defined.

(** X9 when the gateway answers [Cancelled]. *)
Lemma check_payment_status_fails_witness :
  exists r w',
    check_payment_status uuid_a "u1" (gateway_reports "Cancelled") 10 20
      pending_gateway_world = (Return r, w')
    /\ resp_txn_status r = "failed"
    /\ In (Txn uuid_a "u1" "t-basic" 50 "orange_money" "PD-20250101-3F2A9C1E"
               "failed" (Some "PD-20250101-3F2A9C1E") (Some "ptk-1") None
               (Some "CANCELLED") None None None None)
          (payment_transactions (db w'))
    /\ users (db w') = users (db pending_gateway_world).
Proof.
  destruct (check_payment_status_fails pending_gateway_world uuid_a "u1"
              (gateway_reports "Cancelled") 10 20 pending_gateway_txn
              basic_tier_row "PD-20250101-3F2A9C1E"
              (OmResponse (Text "Cancelled") Absent Absent)
              pending_gateway_world "Cancelled" "CANCELLED")
    as (r & w' & Hrun & Hst & Hrow & Hu & _).
  - now apply pending_gateway_lookup.
  - exact pending_gateway_tier.
  - reflexivity.
  - reflexivity.
  - reflexivity.
  - discriminate.
  - vm_compute. reflexivity.
  - reflexivity.
  - vm_compute. reflexivity.
  - right. right. reflexivity.
  - exists r, w'. auto.
Defined.

(** X10 when the gateway answers [PENDING], and when it answers with a
    null status. *)
Lemma check_payment_status_in_flight_witness :
  check_payment_status uuid_a "u1" (gateway_reports "PENDING") 10 20
    pending_gateway_world
  = (Return {| resp_transaction_id := uuid_a;
               resp_txn_status := "pending";
               resp_tier_name := "basic";
               resp_amount_pula := 50;
               resp_message :=
                 "Payment pending. Complete your P50 payment to activate basic tier." |},
     pending_gateway_world)
  /\ check_payment_status uuid_a "u1"
       (GatewayIO 1000 TokenFailure (Json (OmResponse Null Absent Absent)))
       10 20 pending_gateway_world
     = (Raise AttributeError, pending_gateway_world).
Proof.
  split.
  - destruct (check_payment_status_in_flight pending_gateway_world uuid_a "u1"
                (gateway_reports "PENDING") 10 20 pending_gateway_txn
                basic_tier_row "PD-20250101-3F2A9C1E"
                (OmResponse (Text "PENDING") Absent Absent)
                pending_gateway_world)
      as (Hflight & _ & _).
    + now apply pending_gateway_lookup.
    + exact pending_gateway_tier.
    + reflexivity.
    + reflexivity.
    + reflexivity.
    + discriminate.
    + vm_compute. reflexivity.
    + rewrite (Hflight "PENDING").
      * reflexivity.
      * right. reflexivity.
      * reflexivity.
      * vm_compute. intros [H|[H|[H|[H|[]]]]]; discriminate H.
  - destruct (check_payment_status_in_flight pending_gateway_world uuid_a "u1"
                (GatewayIO 1000 TokenFailure
                   (Json (OmResponse Null Absent Absent)))
                10 20 pending_gateway_txn
                basic_tier_row "PD-20250101-3F2A9C1E"
                (OmResponse Null Absent Absent)
                pending_gateway_world)
      as (_ & Hnull & _).
    + now apply pending_gateway_lookup.
    + exact pending_gateway_tier.
    + reflexivity.
    + reflexivity.
    + reflexivity.
    + discriminate.
    + vm_compute. reflexivity.
    + apply Hnull. reflexivity.
Defined.

(** X11 for the completed payment: the gateway, which is down, is not
    asked. *)
Lemma check_payment_status_without_poll_witness :
  status paid_txn <> "pending"
  /\ fst (check_payment_status uuid_a "u1" gateway_down 30 40 paid_world)
     = Return {| resp_transaction_id := uuid_a;
                 resp_txn_status := "completed";
                 resp_tier_name := "basic";
                 resp_amount_pula := 50;
                 resp_message := "Payment complete! Your basic tier is active." |}
  /\ snd (check_payment_status uuid_a "u1" gateway_down 30 40 paid_world)
     = paid_world.
Proof.
  assert (Hst : status paid_txn <> "pending") by discriminate.
  split; [exact Hst|].
  rewrite (check_payment_status_without_poll paid_world uuid_a "u1"
             gateway_down 30 40 paid_txn basic_tier_row).
  - split; reflexivity.
  - vm_compute. reflexivity.
  - vm_compute. reflexivity.
  - right. exact Hst.
Defined.

(** X12 for another user asking about the payment of [u1]. *)
Lemma check_payment_status_not_owned_witness :
  check_payment_status uuid_a "u2" gateway_up 30 40 pending_gateway_world
  = (Raise APIError, pending_gateway_world).
Proof.
  apply check_payment_status_not_owned.
  intros t Hin _. rewrite pending_gateway_rows in Hin.
  destruct Hin as [<-|[]]. discriminate.
Defined.

Lemma example_free_tier :
  single (tiers_named "free" example_tiers) = Some ("t-free", free_tier_row).
Proof. vm_compute. reflexivity. Defined.

(** X13 for the free tier of the example catalog. *)
Lemma initiate_rejects_zero_price_witness :
  initiate_subscription example_settings
    {| sub_tier := FREE; sub_payment_method := "manual" |}
    "u1" uuid_a "20250101" gateway_up fresh_world
  = (Raise (HTTPException 400 "Free tier doesn't require payment"), fresh_world).
Proof.
  apply (initiate_rejects_zero_price example_settings _ "u1" uuid_a "20250101"
           gateway_up fresh_world ("t-free", free_tier_row)).
  - exact example_free_tier.
  - reflexivity.
Defined.


(** X15 for a gateway payment of the basic tier. *)
Lemma initiate_gateway_order_roundtrip_witness :
  exists w',
    initiate_subscription example_settings basic_orange_money "u1" uuid_a
      "20250101" gateway_up fresh_world
    = (Return {| payment_url := Some "https://webpay.example/pay/abc";
                 init_transaction_id := uuid_a;
                 init_status := "pending";
                 init_message := "Redirecting to Orange Money for payment" |},
       w')
    /\ txn_by_order_id (db w') "PD-20250101-3F2A9C1E"
       = Some pending_gateway_txn.
Proof.
  destruct (initiate_gateway_order_roundtrip example_settings
              basic_orange_money "u1" uuid_a "20250101" gateway_up fresh_world
              ("t-basic", basic_tier_row)
              (OmResponse Absent (Text "https://webpay.example/pay/abc")
                          (Text "ptk-1"))
              (snd (initiate_payment (make_txn_ref "20250101" uuid_a) 50
                      gateway_up fresh_world)))
    as (w' & Hrun & _ & Hlookup).
  - reflexivity.
  - exact example_basic_tier.
  - simpl. lia.
  - reflexivity.
  - vm_compute. reflexivity.
  - reflexivity.
  - exists w'. split; [exact Hrun | exact Hlookup].
Defined.

(** X16 for a manual payment, which has no gateway order id. *)
Lemma webhook_unknown_order_witness :
  orange_money_webhook callback_paid 10 20 manual_pending_world
  = (Raise APIError, manual_pending_world).
Proof.
  apply webhook_unknown_order.
  intros t Hin. vm_compute in Hin. destruct Hin as [<-|[]]. discriminate.
Defined.

(** X17 for a callback that reports [FAILED]. *)
Lemma webhook_failure_status_witness :
  exists w',
    orange_money_webhook callback_failed 10 20 pending_gateway_world
    = (Return "processed", w')
    /\ txn_by_order_id (db w') "PD-20250101-3F2A9C1E"
       = Some (Txn uuid_a "u1" "t-basic" 50 "orange_money"
                   "PD-20250101-3F2A9C1E" "failed"
                   (Some "PD-20250101-3F2A9C1E") (Some "ptk-1") None
                   (Some "FAILED") None None None None)
    /\ users (db w') = users (db pending_gateway_world).
Proof.
  destruct (webhook_failure_status pending_gateway_world callback_failed
              pending_gateway_txn 10 20)
    as (w' & Hrun & Hrow & Hu & _).
  - vm_compute. reflexivity.
  - reflexivity.
  - vm_compute. reflexivity.
  - reflexivity.
  - vm_compute. reflexivity.
  - exists w'. split; [exact Hrun|]. split; [exact Hrow | exact Hu].
Defined.

(** X18 for a payment whose user row is gone. *)
Lemma webhook_completion_without_user_witness :
  exists w',
    orange_money_webhook callback_paid 10 20 orphan_world
    = (Raise APIError, w')
    /\ status <$> txn_by_order_id (db w') "PD-20250101-3F2A9C1E"
       = Some "completed"
    /\ activations (journal w') = 0%nat
    /\ orange_money_webhook callback_paid 30 40 w'
       = (Return "already_processed", w').
Proof.
  destruct (webhook_completion_without_user orphan_world callback_paid
              pending_gateway_txn 10 20)
    as (w' & Hrun & Hrow & Hj & _ & Hagain).
  - vm_compute. reflexivity.
  - reflexivity.
  - vm_compute. reflexivity.
  - vm_compute. reflexivity.
  - vm_compute. reflexivity.
  - exists w'. split; [exact Hrun|]. split; [|split; [|apply Hagain]].
    + change "PD-20250101-3F2A9C1E" with (cb_order_id callback_paid).
      rewrite Hrow. reflexivity.
    + rewrite Hj. reflexivity.
Defined.

Lemma awaiting_open_lookup :
  single (List.filter (is_open_with_id uuid_a)
            (payment_transactions (db awaiting_world))) = Some awaiting_txn.
Proof. vm_compute. reflexivity. Defined.

(** X19 for the confirmed manual payment. *)
Lemma admin_approve_completes_witness :
  exists r w',
    admin_approve_payment
      {| approve_transaction_id := uuid_a;
         approve_admin_notes := Some "receipt checked" |}
      50 60 awaiting_world = (Return r, w')
    /\ resp_txn_status r = "completed"
    /\ In (Txn uuid_a "u1" "t-basic" 50 "manual" "PD-20250101-3F2A9C1E"
               "completed" None None None None None (Some "RCPT-77")
               (Some "receipt checked") (Some 50))
          (payment_transactions (db w'))
    /\ users (db w') !! "u1"
       = Some (UserRow "t-basic" (Some (60 + 30 * 86400000000))).
Proof.
  destruct (admin_approve_completes awaiting_world
              {| approve_transaction_id := uuid_a;
                 approve_admin_notes := Some "receipt checked" |}
              50 60 awaiting_txn basic_tier_row (UserRow "t-free" None))
    as (r & w' & e & Hrun & Hst & Hrow & Hu & _ & _ & Hnone & _).
  - exact awaiting_open_lookup.
  - vm_compute. reflexivity.
  - vm_compute. reflexivity.
  - intros E. discriminate.
  - intros _. unfold datetime_min, datetime_max. lia.
  - exists r, w'. split; [exact Hrun|]. split; [exact Hst|].
    split; [exact Hrow|].
    change (txn_user_id awaiting_txn) with "u1" in Hu.
    change (txn_tier_id awaiting_txn) with "t-basic" in Hu.
    rewrite Hu, Hnone; [reflexivity|]. intros E. discriminate.
Defined.

(** X20 for the confirmed manual payment. *)
Lemma admin_reject_fails_witness :
  exists r w',
    admin_reject_payment
      {| approve_transaction_id := uuid_a;
         approve_admin_notes := Some "no such receipt" |}
      awaiting_world = (Return r, w')
    /\ resp_txn_status r = "failed"
    /\ In (Txn uuid_a "u1" "t-basic" 50 "manual" "PD-20250101-3F2A9C1E"
               "failed" None None None None None (Some "RCPT-77")
               (Some "no such receipt") None)
          (payment_transactions (db w'))
    /\ users (db w') = users (db awaiting_world).
Proof.
  destruct (admin_reject_fails awaiting_world
              {| approve_transaction_id := uuid_a;
                 approve_admin_notes := Some "no such receipt" |}
              awaiting_txn basic_tier_row)
    as (r & w' & Hrun & Hst & Hrow & Hu & _).
  - exact awaiting_open_lookup.
  - vm_compute. reflexivity.
  - exists r, w'. auto.
Defined.

(** X21 for the lapsed user, one instant after the expiry. *)
Lemma enforcement_downgrades_exactly_when_lapsed_witness :
  exists e w',
    check_and_enforce_subscription "u1" 101 lapsed_world = (Return e, w')
    /\ was_downgraded e = true
    /\ users (db w') !! "u1" = Some (UserRow "t-free" None).
Proof.
  destruct (enforcement_downgrades_exactly_when_lapsed lapsed_world "u1" 101
              (UserRow "t-basic" (Some 100)) basic_tier_row
              ("t-free", free_tier_row))
    as (e & w' & Hrun & _ & Hiff & _ & Hdown).
  - vm_compute. reflexivity.
  - vm_compute. reflexivity.
  - exact example_free_tier.
  - assert (Hd : was_downgraded e = true).
    { apply Hiff. split; [discriminate|]. exists 100. split; [reflexivity | lia]. }
    exists e, w'. split; [exact Hrun|]. split; [exact Hd|].
    apply (Hdown Hd).
Defined.

(** X22 for two payments of thirty days, one day apart. *)
Lemma two_activations_stack_witness :
  users (db (snd (activate_subscription "u1" "t-basic" 30 86400000000
                    (snd (activate_subscription "u1" "t-basic" 30 0
                            fresh_world))))) !! "u1"
  = Some (UserRow "t-basic" (Some (0 + (30 + 30) * 86400000000))).
Proof.
  apply (two_activations_stack fresh_world "u1" "t-basic" "t-basic" 30 30 0
           86400000000 (UserRow "t-free" None)).
  - vm_compute. reflexivity.
  - intros E. discriminate.
  - lia.
  - unfold timedelta_max_days. lia.
  - unfold timedelta_max_days. lia.
  - unfold datetime_min, datetime_max. lia.
  - unfold datetime_min, datetime_max. lia.
Defined.

(** X23 for the client of the fresh world. *)
Lemma access_token_is_cached_witness :
  exists w1,
    _get_access_token gateway_up fresh_world = (Return "tok-1", w1)
    /\ orange_money w1 = Client (Some "tok-1") (Some 3500000000)
    /\ _get_access_token (gateway_reports "x") w1 = (Return "tok-1", w1)
    /\ _get_access_token gateway_down w1
       = (Raise (HTTPException 502 "Payment service unavailable"), w1)
    /\ _get_access_token
         (GatewayIO 3600000000 (TokenGranted "tok-2" ExpiresInUnusable)
                    RequestException) w1
       = (Raise (HTTPException 502 "Payment service unavailable"),
          World (db fresh_world) (journal fresh_world)
                (Client (Some "tok-2") (Some 3500000000))).
Proof.
  destruct (access_token_is_cached gateway_up fresh_world "tok-1"
              ExpiresInAbsent 3500)
    as (w1 & Hrun & _ & _ & Hclient & Hcached & Hexpired & Hreplaced).
  - reflexivity.
  - reflexivity.
  - discriminate.
  - left. split; reflexivity.
  - unfold timedelta_max_days. lia.
  - unfold datetime_min, datetime_max. simpl. lia.
  - exists w1. split; [exact Hrun|]. split; [exact Hclient|]. split; [|split].
    + apply Hcached. simpl. lia.
    + apply Hexpired; [simpl; lia | reflexivity].
    + apply Hreplaced; [simpl; lia | reflexivity].
Defined.

(** X24 for a status in mixed case. *)
Lemma is_success_ignores_case_witness :
  is_ascii "SuccessFull" = true
  /\ is_success "successfull" = is_success "SuccessFull"
  /\ is_success "SUCCESSFULL" = is_success "SuccessFull"
  /\ is_success "SuccessFull" = true.
Proof.
  destruct (is_success_ignores_case "SuccessFull" eq_refl)
    as (Hlower & Hupper & Hiff).
  split; [reflexivity|]. split; [exact Hlower|]. split; [exact Hupper|].
  apply Hiff. right. reflexivity.
Defined.

(** X25 for the lapsed user with one listing. *)
Lemma subscription_status_is_consistent_witness :
  exists r s',
    get_subscription_status "u1" 200 201 lapsed_site = (Return r, s')
    /\ status_current_tier r = "free"
    /\ status_expires_at r = None
    /\ (can_create_listing r = true <->
        match status_listing_limit r with
        | None => True
        | Some l => status_listing_count r < l
        end).
Proof.
  destruct (get_subscription_status "u1" 200 201 lapsed_site) as [[r|e] s'] eqn:E;
    [|vm_compute in E; discriminate E].
  destruct (subscription_status_is_consistent "u1" 200 201 lapsed_site r s' E)
    as (_ & _ & _ & Hcan & Hfree & _).
  assert (Htier : status_current_tier r = "free").
  { vm_compute in E. injection E as <- _. reflexivity. }
  exists r, s'. split; [reflexivity|]. split; [exact Htier|].
  split; [exact (Hfree Htier) | exact Hcan].
Defined.

(** X26 for the lapsed user, whose one listing fills the free tier. *)
Lemma can_create_listing_predicts_create_witness :
  exists r s1 limit s2,
    get_subscription_status "u1" 200 201 lapsed_site = (Return r, s1)
    /\ can_create_listing r = false
    /\ fst (create_listing example_listing "u1" 200 "l2" 200 900 lapsed_site)
       = LimitReached {| detail_current_tier := "free";
                         detail_listing_count := 1;
                         detail_listing_limit := limit |}
    /\ car_listings s2 = car_listings lapsed_site.
Proof.
  destruct (get_subscription_status "u1" 200 201 lapsed_site) as [[r|e] s1] eqn:E;
    [|vm_compute in E; discriminate E].
  assert (Hr : can_create_listing r = false
               /\ status_current_tier r = "free"
               /\ status_listing_count r = 1).
  { vm_compute in E. injection E as <- _. repeat split. }
  destruct Hr as (Hno & Htier & Hcount).
  destruct (proj2 (can_create_listing_predicts_create "u1" 200 201 lapsed_site
                     r s1 example_listing "l2" 200 900 E) Hno)
    as (limit & s2 & _ & Hrun & Hkeep).
  exists r, s1, limit, s2. split; [reflexivity|]. split; [exact Hno|].
  split; [|exact Hkeep]. rewrite Hrun, Htier, Hcount. reflexivity.
Defined.

(** X27 for the first listing of a free user. *)
Lemma create_listing_respects_limit_witness :
  exists row s',
    create_listing example_listing "u1" 0 "l1" 5 500 fresh_site = (Done row, s')
    /\ car_listings s' = [row]
    /\ active_listing_count "u1" (car_listings s') = 1.
Proof.
  destruct (create_listing example_listing "u1" 0 "l1" 5 500 fresh_site)
    as [[row|e|d] s'] eqn:E;
    [|vm_compute in E; discriminate E|vm_compute in E; discriminate E].
  pose proof (create_listing_respects_limit example_listing "u1" 0 "l1" 5 500
                fresh_site s' (Done row) E) as (_ & Hrows & Hcount & _).
  exists row, s'. split; [reflexivity|]. split; [exact Hrows|].
  rewrite Hcount. reflexivity.
Defined.

(** X30 for the one listing of the example site. *)
Lemma deleted_listing_is_hidden_but_kept_witness :
  In (set_listing_status "removed" example_listing_row)
     (get_my_listings "u1" (snd (delete_listing "l1" "u1" lapsed_site)))
  /\ get_listings None None None None None
       (snd (delete_listing "l1" "u1" lapsed_site)) = []
  /\ active_listing_count "u1"
       (car_listings (snd (delete_listing "l1" "u1" lapsed_site)))
     < active_listing_count "u1" (car_listings lapsed_site).
Proof.
  destruct (deleted_listing_is_hidden_but_kept "l1" "u1" lapsed_site
              example_listing_row)
    as (Hmine & _ & Hcount).
  - left. reflexivity.
  - reflexivity.
  - reflexivity.
  - split; [exact Hmine|]. split; [vm_compute; reflexivity|].
    apply Hcount. reflexivity.
Defined.
